(** * VoiceScope: the real-time turn-taking engine

    A shallow embedding of the interview engine of the repository:

    - [AudioRecorder]       src/lib/audio/recorder.ts (class AudioRecorder)
    - [RecorderHook]        hooks/useAudioRecorder
    - [SttToken]            src/app/api/stt/token/route.ts
    - [Deepgram]            src/hooks/useDeepgram.ts
    - [Engine]              hooks/useInterviewEngine
    - [Scenario]            concrete sessions, used as examples

    and of what stands around it:

    - [AudioPlayer]         lib/audio/player (class AudioPlayer)
    - [TtsRoute]            the route POST /api/ai/tts
    - [Interviewer]         lib/ai/interviewer (class AIInterviewer)
    - [ChatRoute]           src/app/api/ai/chat/route.ts
    - [StartRoute]          the route POST /api/interviews/:sessionId/start
    - [Wire]                what the orchestrator sends to the routes and reads
                            from their answers

    React state and refs are fields of records, every callback is a function
    from the state before to the state after, and every awaited collaborator
    (fetch, getUserMedia, the Deepgram SDK, the database, the models) is an
    explicit outcome given as an argument.  Calls that leave the hooks (fetch,
    WebSocket, timers, player, MediaRecorder) are appended to a log in program
    order.

    In a run of events ([Engine.exec], [Engine.reachable]) an event (a
    button, a timer, the socket, the recorder) is handled to the end of its
    callback before the next one, and the effects of the hook run once, after
    it.  A callback that is suspended at an [await] while another event is
    handled is not such a run: these interleavings are built from the
    commands of the callbacks themselves ([Engine.requestTurn],
    [Engine.receiveTurn], [Scenario.awaitingGenerator]).  The renders inside
    a callback are not modelled either; see [Engine.effects].  The cleanup on
    unmount is not part of the model.  In [Engine] the player appears only
    through the calls made to it; the class itself is [AudioPlayer].

    Strings are held as their UTF-8 bytes ([Js]). *)

From Stdlib Require Import String Ascii List ZArith Lia Bool.
Import ListNotations.
Open Scope string_scope.
Open Scope Z_scope.
Open Scope list_scope.

(* ------------------------------------------------------------------ *)
(** ** JavaScript strings *)

Module Js.

(** A string of the program is held as its UTF-8 bytes, which is how its
    literals are written here; it is well formed (no lone surrogate).

    The characters removed by [String.prototype.trim] are the white space
    and the line terminators of ECMAScript: U+0009 to U+000D, U+0020,
    U+00A0, U+1680, U+2000 to U+200A, U+2028, U+2029, U+202F, U+205F,
    U+3000 and U+FEFF.  The first six are one byte long. *)
Definition isWhiteSpace (c : ascii) : bool :=
  let n := nat_of_ascii c in
  ((9 <=? n) && (n <=? 13))%nat || (n =? 32)%nat.

(** U+00A0 is C2 A0. *)
Definition isWhiteSpace2 (c0 c1 : ascii) : bool :=
  (nat_of_ascii c0 =? 194)%nat && (nat_of_ascii c1 =? 160)%nat.

(** U+1680 is E1 9A 80; U+2000 to U+200A, U+2028, U+2029 and U+202F are
    E2 80 followed by 80 to 8A, A8, A9 and AF; U+205F is E2 81 9F; U+3000 is
    E3 80 80; U+FEFF is EF BB BF. *)
Definition isWhiteSpace3 (c0 c1 c2 : ascii) : bool :=
  let n0 := nat_of_ascii c0 in
  let n1 := nat_of_ascii c1 in
  let n2 := nat_of_ascii c2 in
  ((n0 =? 225) && (n1 =? 154) && (n2 =? 128))%nat
  || ((n0 =? 226) && (n1 =? 128)
      && (((128 <=? n2) && (n2 <=? 138)) || (n2 =? 168) || (n2 =? 169) || (n2 =? 175)))%nat
  || ((n0 =? 226) && (n1 =? 129) && (n2 =? 159))%nat
  || ((n0 =? 227) && (n1 =? 128) && (n2 =? 128))%nat
  || ((n0 =? 239) && (n1 =? 187) && (n2 =? 191))%nat.

Fixpoint trimStart (s : string) : string :=
  match s with
  | EmptyString => EmptyString
  | String c0 r0 =>
      if isWhiteSpace c0 then trimStart r0
      else
        match r0 with
        | EmptyString => s
        | String c1 r1 =>
            if isWhiteSpace2 c0 c1 then trimStart r1
            else
              match r1 with
              | EmptyString => s
              | String c2 r2 => if isWhiteSpace3 c0 c1 c2 then trimStart r2 else s
              end
        end
  end.

(** Nothing but white space. *)
Definition blank (s : string) : bool :=
  match trimStart s with EmptyString => true | String _ _ => false end.

(** A byte is kept unless all that follows from it on is white space; a
    white space character starts with a byte that starts a character. *)
Fixpoint trimEnd (s : string) : string :=
  match s with
  | EmptyString => EmptyString
  | String c r => if blank s then EmptyString else String c (trimEnd r)
  end.

Definition trim (s : string) : string := trimEnd (trimStart s).

(** [s.length]: the number of UTF-16 code units.  A character of one, two
    or three bytes is one unit, one of four bytes is two; the bytes 80 to BF
    continue a character. *)
Fixpoint codeUnits (s : string) : Z :=
  match s with
  | EmptyString => 0
  | String c r =>
      let n := nat_of_ascii c in
      (if (n <? 128)%nat then 1
       else if (n <? 192)%nat then 0
       else if (n <? 240)%nat then 1 else 2) + codeUnits r
  end.

(** Truthiness of a string: the empty string is the only falsy one. *)
Definition truthy (s : string) : bool := negb (String.eqb s "").

(** [a || b] on strings. *)
Definition or (a b : string) : string := if truthy a then a else b.

(** [a ?? b] and [a || b] on a possibly missing string. *)
Definition nullish (a : option string) (b : string) : string :=
  match a with Some x => x | None => b end.

Definition orOpt (a : option string) (b : string) : string :=
  match a with Some x => or x b | None => b end.

(** A rejected promise or a thrown exception carries a message. *)
Inductive Result (A : Type) : Type :=
| Resolved (a : A)
| Rejected (message : string).
Arguments Resolved {A} a.
Arguments Rejected {A} message.

End Js.

(* ------------------------------------------------------------------ *)
(** ** Calls that leave the hooks, in program order *)

Module Phase.

Inductive InterviewPhase : Type :=
| idle | connecting | interviewing | processing | completed | error.

Definition eqb (a b : InterviewPhase) : bool :=
  match a, b with
  | idle, idle | connecting, connecting | interviewing, interviewing
  | processing, processing | completed, completed | error, error => true
  | _, _ => false
  end.

(** [completed] and [error] are the terminal phases. *)
Definition terminal (p : InterviewPhase) : bool :=
  match p with completed | error => true | _ => false end.

End Phase.

(** An audio chunk or a recorded blob: its size and MIME type. *)
Record Blob : Type := { blob_size : Z; blob_type : string }.

Inductive Endpoint : Type :=
| ApiTts (text : string)          (* POST /api/ai/tts *)
| ApiChat (message : string)      (* POST /api/ai/chat *)
| ApiStart                        (* POST /api/interviews/:id/start *)
| ApiScore                        (* POST /api/interviews/:id/score *)
| ApiSttToken.                    (* GET  /api/stt/token *)

Inductive TimerKind : Type := ReconnectTimer | SilenceTimer.

Inductive Effect : Type :=
| EFetch (e : Endpoint)
| EWsNew (token : string)
| EWsSendCloseStream
| EWsSendAudio (chunk : Blob)
| EWsClose (code : option Z)
| ESetTimeout (k : TimerKind) (delay : Z)
| EClearTimeout (k : TimerKind)
| ESetInterval (period : Z)
| EClearInterval
| EPlayerInit
| EPlayerPlay
| EPlayerStop
| EMediaStart (timeslice : Z)
| EMediaStop
| ETrackStop
| ESetPhase (p : Phase.InterviewPhase).

(* ------------------------------------------------------------------ *)
(** ** src/lib/audio/recorder.ts *)

Module AudioRecorder.
Import Js.

Record t : Type := {
  mediaRecorder : option string;   (* the MediaRecorder, by its mimeType *)
  audioChunks : list Blob;
  stream : bool;                   (* a MediaStream is held *)
  dataCallback : bool;             (* a chunk callback is registered *)
  recording : bool
}.

Definition new : t :=
  {| mediaRecorder := None; audioChunks := []; stream := false;
     dataCallback := false; recording := false |}.

(** What the browser answers to the recorder. *)
Inductive Microphone : Type :=
| MicGranted | MicNotAllowed | MicFailed.

Record Browser : Type := {
  hasMediaRecorder : bool;                 (* typeof MediaRecorder *)
  isTypeSupported : string -> bool;
  getUserMedia : Microphone;
  defaultMimeType : string                 (* used when no type is asked *)
}.

Definition getSupportedMimeType (b : Browser) : string :=
  if hasMediaRecorder b && isTypeSupported b "audio/webm;codecs=opus"
  then "audio/webm;codecs=opus"
  else if hasMediaRecorder b && isTypeSupported b "audio/webm"
  then "audio/webm"
  else if hasMediaRecorder b && isTypeSupported b "audio/mp4"
  then "audio/mp4"
  else "".

Definition start (b : Browser) (r : t) : Result unit * t * list Effect :=
  if recording r then (Rejected "既に録音中です", r, [])
  else
    match getUserMedia b with
    | MicNotAllowed =>
        (Rejected "マイクのアクセスが拒否されました。ブラウザの設定を確認してください。", r, [])
    | MicFailed => (Rejected "マイクへのアクセスに失敗しました。", r, [])
    | MicGranted =>
        if negb (hasMediaRecorder b) then
          (* [new MediaRecorder] throws a ReferenceError, whose text is the
             one of the engine; the stream is held by then *)
          (Rejected "MediaRecorder is not defined",
           {| mediaRecorder := mediaRecorder r; audioChunks := []; stream := true;
              dataCallback := dataCallback r; recording := recording r |},
           [])
        else
          let mimeType := getSupportedMimeType b in
          let mr := if truthy mimeType then mimeType else defaultMimeType b in
          (Resolved tt,
           {| mediaRecorder := Some mr; audioChunks := []; stream := true;
              dataCallback := dataCallback r; recording := true |},
           [EMediaStart 250])
    end.

Definition sumSizes (l : list Blob) : Z :=
  fold_right (fun c acc => blob_size c + acc) 0 l.

Definition stop (r : t) : Result Blob * t * list Effect :=
  match mediaRecorder r with
  | Some mr =>
      if recording r then
        let mimeType := or mr "audio/webm;codecs=opus" in
        (Resolved {| blob_size := sumSizes (audioChunks r); blob_type := mimeType |},
         {| mediaRecorder := mediaRecorder r; audioChunks := []; stream := stream r;
            dataCallback := dataCallback r; recording := false |},
         [EMediaStop])
      else (Rejected "録音中ではありません", r, [])
  | None => (Rejected "録音中ではありません", r, [])
  end.

Definition isRecording (r : t) : bool := recording r.

Definition onDataAvailable (r : t) : t :=
  {| mediaRecorder := mediaRecorder r; audioChunks := audioChunks r;
     stream := stream r; dataCallback := true; recording := recording r |}.

(** The [ondataavailable] handler; the second component tells whether the
    registered callback is called with the chunk. *)
Definition ondataavailable (data : Blob) (r : t) : t * bool :=
  if 0 <? blob_size data then
    ({| mediaRecorder := mediaRecorder r; audioChunks := audioChunks r ++ [data];
        stream := stream r; dataCallback := dataCallback r; recording := recording r |},
     dataCallback r)
  else (r, false).

Definition onerror (r : t) : t :=
  {| mediaRecorder := mediaRecorder r; audioChunks := audioChunks r;
     stream := stream r; dataCallback := dataCallback r; recording := false |}.

Definition destroy (r : t) : t * list Effect :=
  ({| mediaRecorder := None; audioChunks := []; stream := false;
      dataCallback := false; recording := false |},
   (match mediaRecorder r with
    | Some _ => if recording r then [EMediaStop] else []
    | None => []
    end) ++ (if stream r then [ETrackStop] else [])).

(** The private fields are consistent: a recorder that records has its
    MediaRecorder. *)
Definition wellFormed (r : t) : Prop :=
  recording r = true -> mediaRecorder r <> None.

End AudioRecorder.

(* ------------------------------------------------------------------ *)
(** ** hooks/useAudioRecorder *)

Module RecorderHook.
Import Js.

Record t : Type := {
  isRecording : bool;
  audioBlob : option Blob;
  error : option string;
  recorderRef : option AudioRecorder.t;
  chunkCallbackRef : bool
}.

Definition init : t :=
  {| isRecording := false; audioBlob := None; error := None;
     recorderRef := None; chunkCallbackRef := false |}.

Definition startRecording (b : AudioRecorder.Browser) (h : t) : t * list Effect :=
  let destroyed :=
    match recorderRef h with
    | Some old => let '(old', fx) := AudioRecorder.destroy old in (Some old', fx)
    | None => (None, [])
    end in
  let recorder :=
    if chunkCallbackRef h then AudioRecorder.onDataAvailable AudioRecorder.new
    else AudioRecorder.new in
  match AudioRecorder.start b recorder with
  | (Resolved _, recorder', fx) =>
      ({| isRecording := true; audioBlob := None; error := None;
          recorderRef := Some recorder'; chunkCallbackRef := chunkCallbackRef h |},
       snd destroyed ++ fx)
  | (Rejected message, _, fx) =>
      ({| isRecording := false; audioBlob := None; error := Some message;
          recorderRef := fst destroyed; chunkCallbackRef := chunkCallbackRef h |},
       snd destroyed ++ fx)
  end.

Definition stopRecording (h : t) : option Blob * t * list Effect :=
  match recorderRef h with
  | None => (None, h, [])
  | Some r =>
      if negb (AudioRecorder.isRecording r) then (None, h, [])
      else
        match AudioRecorder.stop r with
        | (Resolved blob, r', fx) =>
            (Some blob,
             {| isRecording := false; audioBlob := Some blob; error := error h;
                recorderRef := Some r'; chunkCallbackRef := chunkCallbackRef h |},
             fx)
        | (Rejected message, r', fx) =>
            (None,
             {| isRecording := false; audioBlob := audioBlob h; error := Some message;
                recorderRef := Some r'; chunkCallbackRef := chunkCallbackRef h |},
             fx)
        end
  end.

Definition onChunkAvailable (h : t) : t :=
  {| isRecording := isRecording h; audioBlob := audioBlob h; error := error h;
     recorderRef := option_map AudioRecorder.onDataAvailable (recorderRef h);
     chunkCallbackRef := true |}.

(** The hook is capturing when it holds a recorder that records. *)
Definition capturing (h : t) : bool :=
  match recorderRef h with
  | Some r => AudioRecorder.isRecording r
  | None => false
  end.

Definition wellFormed (h : t) : Prop :=
  match recorderRef h with
  | Some r => AudioRecorder.wellFormed r
  | None => True
  end.

(** The state of the hook never lags behind its recorder: while the recorder
    records, [isRecording] is set. *)
Definition consistent (h : t) : Prop :=
  capturing h = true -> isRecording h = true.

End RecorderHook.

(* ------------------------------------------------------------------ *)
(** ** src/app/api/stt/token/route.ts *)

Module SttToken.
Import Js.

Record Env : Type := {
  DEEPGRAM_API_KEY : option string;
  DEEPGRAM_PROJECT_ID : option string
}.

(** [deepgram.manage.createProjectKey]: it throws, or it returns an object
    whose [result] may be missing and whose [key] may be missing. *)
Inductive CreateProjectKey : Type :=
| KeyThrows
| KeyReturns (result : option (option string)).

Inductive Body : Type :=
| TokenBody (token url : string)
| ErrorBody (message : string).

Record Response : Type := { status : Z; body : Body }.

(** The arguments [createProjectKey] is called with. *)
Record KeyRequest : Type := {
  projectId : string; comment : string; scopes : list string;
  time_to_live_in_seconds : Z
}.

Definition keyRequest (env : Env) : KeyRequest :=
  {| projectId := nullish (DEEPGRAM_PROJECT_ID env) "";
     comment := "Temporary STT token"; scopes := ["usage:write"];
     time_to_live_in_seconds := 600 |}.

Definition GET (env : Env) (sdk : KeyRequest -> CreateProjectKey) : Response :=
  match DEEPGRAM_API_KEY env with
  | None =>
      {| status := 500; body := ErrorBody "Deepgram APIキーが設定されていません" |}
  | Some apiKey =>
      if negb (truthy apiKey) then
        {| status := 500; body := ErrorBody "Deepgram APIキーが設定されていません" |}
      else
        match sdk (keyRequest env) with
        | KeyReturns result =>
            let key := match result with Some (Some k) => Some k | _ => None end in
            {| status := 200;
               body := TokenBody (nullish key apiKey) "wss://api.deepgram.com/v1/listen" |}
        | KeyThrows =>
            {| status := 200;
               body := TokenBody apiKey "wss://api.deepgram.com/v1/listen" |}
        end
  end.

End SttToken.

(* ------------------------------------------------------------------ *)
(** ** src/hooks/useDeepgram.ts *)

Module Deepgram.
Import Js.

Inductive ReadyState : Type := CONNECTING | OPEN | CLOSING | CLOSED.

Record t : Type := {
  isConnected : bool;
  transcript : string;
  fullTranscript : string;
  error : option string;
  wsRef : option ReadyState;       (* the socket held, by its readyState *)
  fullTranscriptRef : string;
  reconnectAttemptRef : Z;
  intentionalCloseRef : bool
}.

Definition init : t :=
  {| isConnected := false; transcript := ""; fullTranscript := ""; error := None;
     wsRef := None; fullTranscriptRef := ""; reconnectAttemptRef := 0;
     intentionalCloseRef := false |}.

(** A message of the socket, after [JSON.parse]. *)
Inductive Message : Type :=
| Malformed                                   (* JSON.parse throws *)
| Ignored                                     (* not "Results", or no channel *)
| Results (is_final : bool) (alternatives : list string).

Definition reset (d : t) : t :=
  {| isConnected := isConnected d; transcript := ""; fullTranscript := "";
     error := None; wsRef := wsRef d; fullTranscriptRef := "";
     reconnectAttemptRef := reconnectAttemptRef d;
     intentionalCloseRef := intentionalCloseRef d |}.

(** [connect]: the argument is the outcome of [fetchToken] followed by
    [new WebSocket]. *)
Definition connect (token : Result string) (d : t) : t * list Effect :=
  match wsRef d with
  | Some OPEN => (d, [])
  | _ =>
      let ws := match wsRef d with Some CLOSED => Some CLOSED | _ => None end in
      let closing :=
        match wsRef d with
        | Some CONNECTING | Some CLOSING => [EWsClose None]
        | _ => []
        end in
      match token with
      | Resolved tok =>
          ({| isConnected := isConnected d; transcript := transcript d;
              fullTranscript := fullTranscript d; error := None;
              wsRef := Some CONNECTING; fullTranscriptRef := fullTranscriptRef d;
              reconnectAttemptRef := reconnectAttemptRef d;
              intentionalCloseRef := false |},
           closing ++ [EFetch ApiSttToken; EWsNew tok])
      | Rejected message =>
          ({| isConnected := false; transcript := transcript d;
              fullTranscript := fullTranscript d; error := Some message;
              wsRef := ws; fullTranscriptRef := fullTranscriptRef d;
              reconnectAttemptRef := reconnectAttemptRef d;
              intentionalCloseRef := false |},
           closing ++ [EFetch ApiSttToken])
      end
  end.

Definition onopen (d : t) : t :=
  {| isConnected := true; transcript := transcript d;
     fullTranscript := fullTranscript d; error := error d;
     wsRef := option_map (fun _ => OPEN) (wsRef d);
     fullTranscriptRef := fullTranscriptRef d; reconnectAttemptRef := 0;
     intentionalCloseRef := intentionalCloseRef d |}.

Definition setTranscript (text : string) (d : t) : t :=
  {| isConnected := isConnected d; transcript := text;
     fullTranscript := fullTranscript d; error := error d; wsRef := wsRef d;
     fullTranscriptRef := fullTranscriptRef d;
     reconnectAttemptRef := reconnectAttemptRef d;
     intentionalCloseRef := intentionalCloseRef d |}.

Definition appendFinal (text : string) (d : t) : t :=
  let full := (fullTranscriptRef d ++ text)%string in
  {| isConnected := isConnected d; transcript := transcript d;
     fullTranscript := full; error := error d; wsRef := wsRef d;
     fullTranscriptRef := full;
     reconnectAttemptRef := reconnectAttemptRef d;
     intentionalCloseRef := intentionalCloseRef d |}.

Definition onmessage (m : Message) (d : t) : t :=
  match m with
  | Malformed | Ignored => d
  | Results is_final alternatives =>
      match alternatives with
      | [] => d
      | transcriptText :: _ =>
          if is_final then
            setTranscript ""
              (if truthy (trim transcriptText) then appendFinal transcriptText d else d)
          else setTranscript transcriptText d
      end
  end.

Definition onerror (d : t) : t :=
  {| isConnected := false; transcript := transcript d;
     fullTranscript := fullTranscript d;
     error := Some "Deepgramへの接続でエラーが発生しました";
     wsRef := wsRef d; fullTranscriptRef := fullTranscriptRef d;
     reconnectAttemptRef := reconnectAttemptRef d;
     intentionalCloseRef := intentionalCloseRef d |}.

(** The delay before reconnection attempt number [attempt]. *)
Definition reconnectDelay (attempt : Z) : Z := Z.min (1000 * 2 ^ attempt) 8000.

Definition onclose (code : Z) (d : t) : t * list Effect :=
  if negb (intentionalCloseRef d) && negb (code =? 1000) then
    if reconnectAttemptRef d <? 3 then
      let attempt := reconnectAttemptRef d + 1 in
      ({| isConnected := false; transcript := transcript d;
          fullTranscript := fullTranscript d; error := error d; wsRef := None;
          fullTranscriptRef := fullTranscriptRef d;
          reconnectAttemptRef := attempt;
          intentionalCloseRef := intentionalCloseRef d |},
       [ESetTimeout ReconnectTimer (reconnectDelay attempt)])
    else
      ({| isConnected := false; transcript := transcript d;
          fullTranscript := fullTranscript d;
          error := Some "Deepgramへの接続が切断されました。再接続に失敗しました。";
          wsRef := None; fullTranscriptRef := fullTranscriptRef d;
          reconnectAttemptRef := reconnectAttemptRef d;
          intentionalCloseRef := intentionalCloseRef d |},
       [])
  else
    ({| isConnected := false; transcript := transcript d;
        fullTranscript := fullTranscript d; error := error d; wsRef := None;
        fullTranscriptRef := fullTranscriptRef d;
        reconnectAttemptRef := reconnectAttemptRef d;
        intentionalCloseRef := intentionalCloseRef d |},
     []).

Definition disconnect (d : t) : t * list Effect :=
  ({| isConnected := false; transcript := transcript d;
      fullTranscript := fullTranscript d; error := error d; wsRef := None;
      fullTranscriptRef := fullTranscriptRef d;
      reconnectAttemptRef := reconnectAttemptRef d;
      intentionalCloseRef := true |},
   match wsRef d with
   | Some OPEN => [EWsSendCloseStream; EWsClose (Some 1000)]
   | Some _ => [EWsClose (Some 1000)]
   | None => []
   end).

(** The socket is checked again when the buffer of the chunk is ready; the
    two checks are one here. *)
Definition sendAudio (chunk : Blob) (d : t) : list Effect :=
  match wsRef d with
  | Some OPEN => [EWsSendAudio chunk]
  | _ => []
  end.

(** What can happen to the client between two calls of the orchestrator:
    the four socket handlers and the reconnection timer, whose callback is
    [connect]. *)
Inductive Event : Type :=
| WsOpen
| WsMessage (m : Message)
| WsError
| WsClose (code : Z)
| ReconnectFires (token : Result string).

Definition handle (e : Event) (d : t) : t * list Effect :=
  match e with
  | WsOpen => (onopen d, [])
  | WsMessage m => (onmessage m d, [])
  | WsError => (onerror d, [])
  | WsClose code => onclose code d
  | ReconnectFires token => connect token d
  end.

(** A run of events; the effects are collected in order. *)
Fixpoint run (evs : list Event) (d : t) : t * list Effect :=
  match evs with
  | [] => (d, [])
  | e :: rest =>
      let '(d1, fx1) := handle e d in
      let '(d2, fx2) := run rest d1 in
      (d2, fx1 ++ fx2)
  end.

(** The reconnection delays scheduled by a list of effects. *)
Definition reconnectDelays (fx : list Effect) : list Z :=
  flat_map (fun e => match e with
                     | ESetTimeout ReconnectTimer delay => [delay]
                     | _ => []
                     end) fx.

Definition isAbnormalClose (e : Event) : bool :=
  match e with WsClose code => negb (code =? 1000) | _ => false end.

Definition isOpen (e : Event) : bool :=
  match e with WsOpen => true | _ => false end.

(** The number of abnormal closures in a run. *)
Definition abnormalCloses (evs : list Event) : nat :=
  length (filter isAbnormalClose evs).

(** No connection of the run opens: every reconnection fails. *)
Definition neverOpens (evs : list Event) : bool :=
  forallb (fun e => negb (isOpen e)) evs.

End Deepgram.

(* ------------------------------------------------------------------ *)
(** ** hooks/useInterviewEngine *)

Module Engine.
Import Js.

Inductive Role : Type := ai | respondent.

Record InterviewMessage : Type := {
  role : Role;
  content : string;
  timestamp : Z
}.

Record InterviewState : Type := {
  phase : Phase.InterviewPhase;
  messages : list InterviewMessage;
  currentTranscript : string;
  elapsedTime : Z;
  turnCount : Z;
  isAISpeaking : bool;
  isUserSpeaking : bool;
  error : option string
}.

Definition MAX_INTERVIEW_DURATION_MS : Z := 5 * 60 * 1000.
Definition SILENCE_THRESHOLD_MS : Z := 2000.

(** A callback reads [recorder.isRecording] and [deepgram.fullTranscript]
    through its closure: it sees the values of the render that created it,
    not the current ones.  These captured values are explicit. *)
Record Closure : Type := {
  c_isRecording : bool;
  c_fullTranscript : string
}.

(** The render in which [startTimer] was created ([useCallback] with no
    dependencies): nothing is recording and nothing is transcribed. *)
Definition firstRender : Closure :=
  {| c_isRecording := false; c_fullTranscript := "" |}.

(** The timeout held in [silenceTimerRef]: when it is due, the closure of
    its callback, and whether it is still to fire. *)
Record Timer : Type := {
  deadline : Z;
  closure : Closure;
  pending : bool
}.

Record Refs : Type := {
  playerRef : bool;                     (* an AudioPlayer exists *)
  timerRef : bool;                      (* the 1 s interval is running *)
  startTimeRef : Z;
  silenceTimerRef : option Timer;
  isEndingRef : bool;
  lastTranscriptRef : string
}.

(** [phaseRef] mirrors [phase] (the effect that copies it runs after every
    render); the two are one field here. *)
Record t : Type := {
  state : InterviewState;
  refs : Refs;
  recorder : RecorderHook.t;
  deepgram : Deepgram.t;
  log : list Effect
}.

Definition init : t :=
  {| state := {| phase := Phase.idle; messages := []; currentTranscript := "";
                 elapsedTime := 0; turnCount := 0; isAISpeaking := false;
                 isUserSpeaking := false; error := None |};
     refs := {| playerRef := false; timerRef := false; startTimeRef := 0;
                silenceTimerRef := None; isEndingRef := false;
                lastTranscriptRef := "" |};
     recorder := RecorderHook.init;
     deepgram := Deepgram.init;
     log := [] |}.

(** *** The collaborators' answers during one handler *)

Inductive Tts : Type :=
| TtsFails                    (* the request fails or is not ok *)
| TtsAudio (played : bool).   (* audio arrives; [play] resolves or rejects *)

(** [captured] holds what the callbacks reached by the handler read through
    their closures: [recorder.isRecording] in [endInterviewInternal] and in
    the timeout installed by [startListening], [deepgram.fullTranscript] in
    the timeout installed by the transcript effect. *)
Record World : Type := {
  now : Z;                                     (* Date.now() at the event *)
  listenAt : Z;                                (* Date.now() when listening starts *)
  startResponse : Result (option string);      (* /start: data.message *)
  chatResponse : Result (string * option bool);(* /chat: response, shouldEnd *)
  tts : Tts;
  scoreResponse : Result unit;
  sttToken : Result string;
  browser : AudioRecorder.Browser;
  captured : Closure
}.

(** *** Commands: state passing that keeps every intermediate state *)

Record Run : Type := { cur : t; past : list t }.

Definition Cmd : Type := Run -> Run.

Definition skip : Cmd := fun r => r.
Definition seq (a b : Cmd) : Cmd := fun r => b (a r).
Definition modify (f : t -> t) : Cmd :=
  fun r => {| cur := f (cur r); past := cur r :: past r |}.
Definition read {A : Type} (f : t -> A) (k : A -> Cmd) : Cmd :=
  fun r => k (f (cur r)) r.

Notation "a ;; b" := (seq a b) (at level 61, right associativity).

Definition withState (f : InterviewState -> InterviewState) (s : t) : t :=
  {| state := f (state s); refs := refs s; recorder := recorder s;
     deepgram := deepgram s; log := log s |}.

Definition withRefs (f : Refs -> Refs) (s : t) : t :=
  {| state := state s; refs := f (refs s); recorder := recorder s;
     deepgram := deepgram s; log := log s |}.

Definition emit (fx : list Effect) : Cmd :=
  modify (fun s => {| state := state s; refs := refs s; recorder := recorder s;
                      deepgram := deepgram s; log := log s ++ fx |}).

Definition callRecorder (op : RecorderHook.t -> RecorderHook.t * list Effect) : Cmd :=
  modify (fun s => {| state := state s; refs := refs s;
                      recorder := fst (op (recorder s));
                      deepgram := deepgram s;
                      log := log s ++ snd (op (recorder s)) |}).

Definition callDeepgram (op : Deepgram.t -> Deepgram.t * list Effect) : Cmd :=
  modify (fun s => {| state := state s; refs := refs s; recorder := recorder s;
                      deepgram := fst (op (deepgram s));
                      log := log s ++ snd (op (deepgram s)) |}).

Definition setPhase (p : Phase.InterviewPhase) : Cmd :=
  modify (fun s =>
    {| state := {| phase := p; messages := messages (state s);
                   currentTranscript := currentTranscript (state s);
                   elapsedTime := elapsedTime (state s);
                   turnCount := turnCount (state s);
                   isAISpeaking := isAISpeaking (state s);
                   isUserSpeaking := isUserSpeaking (state s);
                   error := error (state s) |};
       refs := refs s; recorder := recorder s; deepgram := deepgram s;
       log := log s ++ [ESetPhase p] |}).

Definition setMessages (f : list InterviewMessage -> list InterviewMessage) : Cmd :=
  modify (withState (fun v =>
    {| phase := phase v; messages := f (messages v);
       currentTranscript := currentTranscript v; elapsedTime := elapsedTime v;
       turnCount := turnCount v; isAISpeaking := isAISpeaking v;
       isUserSpeaking := isUserSpeaking v; error := error v |})).

Definition setCurrentTranscript (text : string) : Cmd :=
  modify (withState (fun v =>
    {| phase := phase v; messages := messages v; currentTranscript := text;
       elapsedTime := elapsedTime v; turnCount := turnCount v;
       isAISpeaking := isAISpeaking v; isUserSpeaking := isUserSpeaking v;
       error := error v |})).

Definition setElapsedTime (ms : Z) : Cmd :=
  modify (withState (fun v =>
    {| phase := phase v; messages := messages v;
       currentTranscript := currentTranscript v; elapsedTime := ms;
       turnCount := turnCount v; isAISpeaking := isAISpeaking v;
       isUserSpeaking := isUserSpeaking v; error := error v |})).

Definition setTurnCount (f : Z -> Z) : Cmd :=
  modify (withState (fun v =>
    {| phase := phase v; messages := messages v;
       currentTranscript := currentTranscript v; elapsedTime := elapsedTime v;
       turnCount := f (turnCount v); isAISpeaking := isAISpeaking v;
       isUserSpeaking := isUserSpeaking v; error := error v |})).

Definition setIsAISpeaking (b : bool) : Cmd :=
  modify (withState (fun v =>
    {| phase := phase v; messages := messages v;
       currentTranscript := currentTranscript v; elapsedTime := elapsedTime v;
       turnCount := turnCount v; isAISpeaking := b;
       isUserSpeaking := isUserSpeaking v; error := error v |})).

Definition setIsUserSpeaking (b : bool) : Cmd :=
  modify (withState (fun v =>
    {| phase := phase v; messages := messages v;
       currentTranscript := currentTranscript v; elapsedTime := elapsedTime v;
       turnCount := turnCount v; isAISpeaking := isAISpeaking v;
       isUserSpeaking := b; error := error v |})).

Definition setError (e : option string) : Cmd :=
  modify (withState (fun v =>
    {| phase := phase v; messages := messages v;
       currentTranscript := currentTranscript v; elapsedTime := elapsedTime v;
       turnCount := turnCount v; isAISpeaking := isAISpeaking v;
       isUserSpeaking := isUserSpeaking v; error := e |})).

Definition setPlayerRef (b : bool) : Cmd :=
  modify (withRefs (fun x =>
    {| playerRef := b; timerRef := timerRef x; startTimeRef := startTimeRef x;
       silenceTimerRef := silenceTimerRef x; isEndingRef := isEndingRef x;
       lastTranscriptRef := lastTranscriptRef x |})).

Definition setTimerRef (b : bool) : Cmd :=
  modify (withRefs (fun x =>
    {| playerRef := playerRef x; timerRef := b; startTimeRef := startTimeRef x;
       silenceTimerRef := silenceTimerRef x; isEndingRef := isEndingRef x;
       lastTranscriptRef := lastTranscriptRef x |})).

Definition setStartTimeRef (ms : Z) : Cmd :=
  modify (withRefs (fun x =>
    {| playerRef := playerRef x; timerRef := timerRef x; startTimeRef := ms;
       silenceTimerRef := silenceTimerRef x; isEndingRef := isEndingRef x;
       lastTranscriptRef := lastTranscriptRef x |})).

Definition setSilenceTimerRef (tm : option Timer) : Cmd :=
  modify (withRefs (fun x =>
    {| playerRef := playerRef x; timerRef := timerRef x;
       startTimeRef := startTimeRef x; silenceTimerRef := tm;
       isEndingRef := isEndingRef x; lastTranscriptRef := lastTranscriptRef x |})).

Definition setIsEndingRef (b : bool) : Cmd :=
  modify (withRefs (fun x =>
    {| playerRef := playerRef x; timerRef := timerRef x;
       startTimeRef := startTimeRef x; silenceTimerRef := silenceTimerRef x;
       isEndingRef := b; lastTranscriptRef := lastTranscriptRef x |})).

Definition setLastTranscriptRef (text : string) : Cmd :=
  modify (withRefs (fun x =>
    {| playerRef := playerRef x; timerRef := timerRef x;
       startTimeRef := startTimeRef x; silenceTimerRef := silenceTimerRef x;
       isEndingRef := isEndingRef x; lastTranscriptRef := text |})).

(** *** The callbacks of the hook *)

Definition startTimer (w : World) : Cmd :=
  setStartTimeRef (now w) ;;
  setTimerRef true ;;
  emit [ESetInterval 1000].

Definition stopTimer : Cmd :=
  read (fun s => timerRef (refs s)) (fun running =>
    if running then (emit [EClearInterval] ;; setTimerRef false) else skip).

(** [speakText] never throws: every failure is caught and only logged. *)
Definition speakText (w : World) (text : string) : Cmd :=
  setIsAISpeaking true ;;
  emit [EFetch (ApiTts text)] ;;
  match tts w with
  | TtsFails => skip
  | TtsAudio _ =>
      read (fun s => playerRef (refs s)) (fun p =>
        if p then skip else (setPlayerRef true ;; emit [EPlayerInit])) ;;
      emit [EPlayerPlay]
  end ;;
  setIsAISpeaking false.

(** [resetSilenceTimer] called at [time]; [c] is the closure of the callback
    it installs. *)
Definition resetSilenceTimer (time : Z) (c : Closure) : Cmd :=
  read (fun s => silenceTimerRef (refs s)) (fun tm =>
    match tm with
    | Some _ => emit [EClearTimeout SilenceTimer]
    | None => skip
    end) ;;
  setSilenceTimerRef
    (Some {| deadline := time + SILENCE_THRESHOLD_MS; closure := c; pending := true |}) ;;
  emit [ESetTimeout SilenceTimer SILENCE_THRESHOLD_MS].

Definition stopRecording : Cmd :=
  callRecorder (fun h => (snd (fst (RecorderHook.stopRecording h)),
                          snd (RecorderHook.stopRecording h))).

(** [deepgram.connect] and [recorder.startRecording] catch their own
    failures, so the [catch] of [startListening] is never entered. *)
Definition startListening (w : World) : Cmd :=
  read (fun s => phase (state s)) (fun p =>
    if negb (Phase.eqb p Phase.interviewing) then skip
    else
      setIsUserSpeaking true ;;
      setCurrentTranscript "" ;;
      callDeepgram (Deepgram.connect (sttToken w)) ;;
      callRecorder (fun h => (RecorderHook.onChunkAvailable h, [])) ;;
      callRecorder (RecorderHook.startRecording (browser w)) ;;
      resetSilenceTimer (listenAt w) (captured w)).

(** [endInterviewInternal]; [isRecording] is [recorder.isRecording] as the
    closure of the caller sees it. *)
Definition endInterviewInternal (isRecording : bool) (w : World) : Cmd :=
  read (fun s => isEndingRef (refs s)) (fun ending =>
    if ending then skip
    else
      setIsEndingRef true ;;
      setPhase Phase.processing ;;
      stopTimer ;;
      (if isRecording then stopRecording else skip) ;;
      callDeepgram Deepgram.disconnect ;;
      read (fun s => playerRef (refs s)) (fun p =>
        if p then emit [EPlayerStop] else skip) ;;
      read (fun s => silenceTimerRef (refs s)) (fun tm =>
        match tm with
        | Some _ => emit [EClearTimeout SilenceTimer] ;; setSilenceTimerRef None
        | None => skip
        end) ;;
      setIsAISpeaking false ;;
      setIsUserSpeaking false ;;
      emit [EFetch ApiScore] ;;
      match scoreResponse w with
      | Resolved _ => setPhase Phase.completed
      | Rejected _ => setPhase Phase.completed
      end).

(** [getAIResponse] up to its [await fetch]: the request is sent. *)
Definition requestTurn (userMessage : string) : Cmd :=
  setPhase Phase.processing ;;
  emit [EFetch (ApiChat userMessage)].

(** [getAIResponse] from the answer of the turn generator on.  Nothing is
    checked again after the [await]: neither the phase nor [isEndingRef]. *)
Definition receiveTurn (w : World) : Cmd :=
  match chatResponse w with
  | Rejected message =>
      setError (Some message) ;;
      setPhase Phase.error
  | Resolved (aiText, shouldEnd) =>
      setMessages (fun prev =>
        prev ++ [{| role := ai; content := aiText; timestamp := now w |}]) ;;
      setTurnCount (fun prev => prev + 1) ;;
      setPhase Phase.interviewing ;;
      speakText w aiText ;;
      match shouldEnd with
      | Some true => endInterviewInternal (c_isRecording (captured w)) w
      | _ => startListening w
      end
  end.

Definition getAIResponse (w : World) (userMessage : string) : Cmd :=
  read (fun s => phase (state s)) (fun p =>
    if negb (Phase.eqb p Phase.interviewing) then skip
    else requestTurn userMessage ;; receiveTurn w).

(** [handleUserFinishedSpeaking]; [c] is the closure it was created in. *)
Definition handleUserFinishedSpeaking (w : World) (c : Closure) : Cmd :=
  setIsUserSpeaking false ;;
  stopRecording ;;
  callDeepgram Deepgram.disconnect ;;
  read (fun s => lastTranscriptRef (refs s)) (fun last =>
    let userText := or (trim (c_fullTranscript c)) (trim last) in
    if negb (truthy userText) then startListening w
    else
      setMessages (fun prev =>
        prev ++ [{| role := respondent; content := userText; timestamp := now w |}]) ;;
      setCurrentTranscript "" ;;
      getAIResponse w userText).

Definition startInterview (w : World) : Cmd :=
  read (fun s => phase (state s)) (fun p =>
    if negb (Phase.eqb p Phase.idle) then skip
    else
      setIsEndingRef false ;;
      setPhase Phase.connecting ;;
      setError None ;;
      setMessages (fun _ => []) ;;
      setCurrentTranscript "" ;;
      setTurnCount (fun _ => 0) ;;
      setElapsedTime 0 ;;
      setPlayerRef true ;;
      emit [EPlayerInit] ;;
      emit [EFetch ApiStart] ;;
      match startResponse w with
      | Rejected message =>
          setError (Some message) ;;
          setPhase Phase.error
      | Resolved message =>
          let firstMessage := orOpt message "こんにちは。インタビューを始めましょう。" in
          setPhase Phase.interviewing ;;
          startTimer w ;;
          setMessages (fun _ =>
            [{| role := ai; content := firstMessage; timestamp := now w |}]) ;;
          setTurnCount (fun _ => 1) ;;
          speakText w firstMessage ;;
          startListening w
      end).

Definition endInterview (w : World) : Cmd :=
  endInterviewInternal (c_isRecording (captured w)) w.

(** The interval callback of [startTimer].  It is created once, in the first
    render, so the [endInterviewInternal] it calls is the one of that render:
    its [recorder.isRecording] is the initial [false]. *)
Definition timerTick (w : World) : Cmd :=
  read (fun s => startTimeRef (refs s)) (fun startTime =>
    let elapsed := now w - startTime in
    setElapsedTime elapsed ;;
    if MAX_INTERVIEW_DURATION_MS <=? elapsed
    then endInterviewInternal (c_isRecording firstRender) w
    else skip).

(** The callback installed by [resetSilenceTimer]. *)
Definition silenceTimeout (w : World) (c : Closure) : Cmd :=
  read (fun s => phase (state s)) (fun p =>
    if Phase.eqb p Phase.interviewing && c_isRecording c
    then handleUserFinishedSpeaking w c
    else skip).

(** *** Effects *)

(** The effect that copies the transcript of the client.  The
    [resetSilenceTimer] it calls is the one of the current render, created
    when [recorder.isRecording] last changed. *)
Definition transcriptSync (w : World) : Cmd :=
  read (fun s => s) (fun s =>
    let combined :=
      (Deepgram.fullTranscript (deepgram s) ++ Deepgram.transcript (deepgram s))%string in
    setCurrentTranscript combined ;;
    if negb (String.eqb combined (lastTranscriptRef (refs s))) && truthy (trim combined)
    then
      setLastTranscriptRef combined ;;
      resetSilenceTimer (now w)
        {| c_isRecording := RecorderHook.isRecording (recorder s);
           c_fullTranscript := c_fullTranscript (captured w) |}
    else skip).

Definition propagateError (e : option string) : Cmd :=
  read (fun s => phase (state s)) (fun p =>
    match e with
    | Some message =>
        if truthy message && Phase.eqb p Phase.interviewing
        then setError (Some message) else skip
    | None => skip
    end).

Definition optEqb (a b : option string) : bool :=
  match a, b with
  | Some x, Some y => String.eqb x y
  | None, None => true
  | _, _ => false
  end.

(** The effects run after an event, each one when one of its dependencies
    differs from its value [pre] before the event.  The transcript effect
    also depends on [resetSilenceTimer], which is created anew exactly when
    [recorder.isRecording] changes.

    The hook also renders inside a callback, each time an awaited call has
    changed [recorder.isRecording], and the transcript effect runs then as
    well.  These runs are left out.  They copy the text of the client into
    [currentTranscript], so that field holds here the value of the last
    [setCurrentTranscript] of the callback where the hook shows the text of
    the client, and no property below is about it.  They leave the silence
    timer alone: the text changes only with a message of the socket, and
    after the effect of that message it is blank or equal to
    [lastTranscriptRef] (lemma [render_inside_callback]). *)
Definition effects (pre : t) (w : World) : Cmd :=
  read (fun s => s) (fun s =>
    (if String.eqb (Deepgram.transcript (deepgram pre)) (Deepgram.transcript (deepgram s))
        && String.eqb (Deepgram.fullTranscript (deepgram pre))
                      (Deepgram.fullTranscript (deepgram s))
        && Bool.eqb (RecorderHook.isRecording (recorder pre))
                    (RecorderHook.isRecording (recorder s))
     then skip else transcriptSync w) ;;
    (if optEqb (Deepgram.error (deepgram pre)) (Deepgram.error (deepgram s))
     then skip else propagateError (Deepgram.error (deepgram s))) ;;
    (if optEqb (RecorderHook.error (recorder pre)) (RecorderHook.error (recorder s))
     then skip else propagateError (RecorderHook.error (recorder s)))).

(** *** Events *)

Inductive Event : Type :=
| StartInterview                    (* the start button *)
| EndInterview                      (* the stop button *)
| TimerTick                         (* the 1 s interval *)
| SilenceTimeout                    (* the silence timeout is due *)
| Socket (e : Deepgram.Event)       (* the socket, or the reconnection timer *)
| ChunkAvailable (data : Blob)      (* MediaRecorder.ondataavailable *)
| RecorderError.                    (* MediaRecorder.onerror *)

Definition markFired (tm : Timer) : Cmd :=
  setSilenceTimerRef
    (Some {| deadline := deadline tm; closure := closure tm; pending := false |}).

Definition withRecorderRef (f : AudioRecorder.t -> AudioRecorder.t) (h : RecorderHook.t)
  : RecorderHook.t :=
  {| RecorderHook.isRecording := RecorderHook.isRecording h;
     RecorderHook.audioBlob := RecorderHook.audioBlob h;
     RecorderHook.error := RecorderHook.error h;
     RecorderHook.recorderRef := option_map f (RecorderHook.recorderRef h);
     RecorderHook.chunkCallbackRef := RecorderHook.chunkCallbackRef h |}.

(** The callback registered by [startListening] sends the chunk to the
    client. *)
Definition chunkAvailable (data : Blob) : Cmd :=
  read (fun s => RecorderHook.recorderRef (recorder s)) (fun ref =>
    match ref with
    | Some r =>
        callRecorder (fun h =>
          (withRecorderRef (fun r => fst (AudioRecorder.ondataavailable data r)) h, [])) ;;
        if snd (AudioRecorder.ondataavailable data r)
        then read (fun s => deepgram s) (fun d => emit (Deepgram.sendAudio data d))
        else skip
    | None => skip
    end).

Definition handler (e : Event) (w : World) : Cmd :=
  match e with
  | StartInterview => startInterview w
  | EndInterview => endInterview w
  | TimerTick =>
      read (fun s => timerRef (refs s)) (fun running =>
        if running then timerTick w else skip)
  | SilenceTimeout =>
      read (fun s => silenceTimerRef (refs s)) (fun tm =>
        match tm with
        | Some tm =>
            if pending tm && (deadline tm <=? now w)
            then markFired tm ;; silenceTimeout w (closure tm)
            else skip
        | None => skip
        end)
  | Socket ev => callDeepgram (Deepgram.handle ev)
  | ChunkAvailable data => chunkAvailable data
  | RecorderError => callRecorder (fun h => (withRecorderRef AudioRecorder.onerror h, []))
  end.

(** One event: its handler runs to the end, then the effects. *)
Definition step (e : Event) (w : World) : Cmd :=
  fun r => effects (cur r) w (handler e w r).

Fixpoint exec (evs : list (Event * World)) (r : Run) : Run :=
  match evs with
  | [] => r
  | (e, w) :: rest => exec rest (step e w r)
  end.

Definition start : Run := {| cur := init; past := [] |}.

(** The runs in which every event is handled to the end of its callback
    before the next one.  A run in which an event arrives while a callback
    waits at an [await] is not among them. *)
Inductive reachable : Run -> Prop :=
| reachable_start : reachable start
| reachable_step (e : Event) (w : World) (r : Run) :
    reachable r -> reachable (step e w r).

(** Every state the run went through, the current one first. *)
Definition states (r : Run) : list t := cur r :: past r.

(** What a command appended to the log. *)
Definition emitted (c : Cmd) (r : Run) : list Effect :=
  skipn (length (log (cur r))) (log (cur (c r))).

(** *** Vocabulary of the properties *)

Definition bothSpeaking (s : t) : bool :=
  isAISpeaking (state s) && isUserSpeaking (state s).

(** The number of effects of a log that satisfy [p]. *)
Definition calls (p : Effect -> bool) (fx : list Effect) : nat :=
  length (filter p fx).

Definition isChat (e : Effect) : bool :=
  match e with EFetch (ApiChat _) => true | _ => false end.
Definition isTts (e : Effect) : bool :=
  match e with EFetch (ApiTts _) => true | _ => false end.
Definition isScore (e : Effect) : bool :=
  match e with EFetch ApiScore => true | _ => false end.
Definition isPlayerStop (e : Effect) : bool :=
  match e with EPlayerStop => true | _ => false end.
Definition isClearInterval (e : Effect) : bool :=
  match e with EClearInterval => true | _ => false end.
Definition isStart (e : Effect) : bool :=
  match e with EFetch ApiStart => true | _ => false end.

(** The effects of the two sub-hooks: the socket, its token, the
    reconnection timer and the MediaRecorder. *)
Definition isHookEffect (e : Effect) : bool :=
  match e with
  | EFetch ApiSttToken | EWsNew _ | EWsSendCloseStream | EWsSendAudio _
  | EWsClose _ | ESetTimeout ReconnectTimer _
  | EMediaStart _ | EMediaStop | ETrackStop => true
  | _ => false
  end.

(** The phases set by a list of effects, in order. *)
Definition phasesSet (fx : list Effect) : list Phase.InterviewPhase :=
  flat_map (fun e => match e with ESetPhase p => [p] | _ => [] end) fx.

(** The silence timeout, handled in [r] with the answers [w], signals the
    end of the turn: it is pending and due, and its callback passes its
    guard and calls [handleUserFinishedSpeaking]. *)
Definition signalsEndOfTurn (w : World) (r : Run) : bool :=
  match silenceTimerRef (refs (cur r)) with
  | Some tm =>
      pending tm && (deadline tm <=? now w)
      && Phase.eqb (phase (state (cur r))) Phase.interviewing
      && c_isRecording (closure tm)
  | None => false
  end.

(** A message re-arms the silence timer in [s]: it changes the text of the
    client, and the new accumulated text is not blank and differs from the
    one recorded last. *)
Definition rearms (m : Deepgram.Message) (s : t) : bool :=
  let d := Deepgram.onmessage m (deepgram s) in
  let combined := (Deepgram.fullTranscript d ++ Deepgram.transcript d)%string in
  negb (String.eqb (Deepgram.transcript (deepgram s)) (Deepgram.transcript d)
        && String.eqb (Deepgram.fullTranscript (deepgram s)) (Deepgram.fullTranscript d))
  && negb (String.eqb combined (lastTranscriptRef (refs s)))
  && truthy (trim combined).

(** The silence timeout, if one is pending, is not due before [bound]. *)
Definition timerNotBefore (bound : Z) (s : t) : Prop :=
  match silenceTimerRef (refs s) with
  | Some tm => pending tm = true -> bound <= deadline tm
  | None => True
  end.

(** The utterances of the respondent in the transcript, in order. *)
Definition respondentUtterances (s : t) : list string :=
  flat_map (fun m => match role m with respondent => [content m] | ai => [] end)
           (messages (state s)).

(** Holds in every state a run goes through. *)
Definition Sound (s : t) : Prop :=
  bothSpeaking s = false /\
  RecorderHook.wellFormed (recorder s) /\
  RecorderHook.consistent (recorder s).

(** Holds between two events. *)
Definition Quiescent (s : t) : Prop :=
  isAISpeaking (state s) = false /\
  (phase (state s) = Phase.idle ->
   isUserSpeaking (state s) = false /\ isEndingRef (refs s) = false) /\
  (isEndingRef (refs s) = true ->
   phase (state s) = Phase.completed /\ timerRef (refs s) = false) /\
  calls isScore (log s) = (if isEndingRef (refs s) then 1 else 0)%nat /\
  (calls isPlayerStop (log s) <= if isEndingRef (refs s) then 1 else 0)%nat /\
  (calls isClearInterval (log s) <= if isEndingRef (refs s) then 1 else 0)%nat.

(** The text of the client, as the transcript effect reads it. *)
Definition combinedText (s : t) : string :=
  (Deepgram.fullTranscript (deepgram s) ++ Deepgram.transcript (deepgram s))%string.

(** The transcript effect has seen the text of the client: the text is
    blank or the one recorded last, so the effect would not re-arm the
    silence timer. *)
Definition Settled (s : t) : Prop :=
  negb (String.eqb (combinedText s) (lastTranscriptRef (refs s)))
  && truthy (trim (combinedText s)) = false.

(** The command [c], run from [s] after states that all satisfy [I], ends in
    a state that satisfies [Q], and every state it goes through satisfies
    [I]. *)
Definition wp (c : Cmd) (I Q : t -> Prop) (s : t) : Prop :=
  forall p : list t,
    Forall I (s :: p) ->
    Q (cur (c {| cur := s; past := p |})) /\
    Forall I (states (c {| cur := s; past := p |})).

End Engine.

(* ------------------------------------------------------------------ *)
(** ** Concrete sessions *)

Module Scenario.
Import Js Engine.

Definition chrome : AudioRecorder.Browser :=
  {| AudioRecorder.hasMediaRecorder := true;
     AudioRecorder.isTypeSupported := fun _ => true;
     AudioRecorder.getUserMedia := AudioRecorder.MicGranted;
     AudioRecorder.defaultMimeType := "audio/webm" |}.

(** Every collaborator answers; the event is handled at [time], and the
    interviewer speaks for [speech] ms before listening starts. *)
Definition world (time speech : Z) (c : Closure) : World :=
  {| now := time; listenAt := time + speech;
     startResponse := Resolved (Some "Hello");
     chatResponse := Resolved ("Why?", None);
     tts := TtsAudio true; scoreResponse := Resolved tt;
     sttToken := Resolved "token"; browser := chrome; captured := c |}.

(** The same, but the turn generator fails. *)
Definition generatorDown (time : Z) (c : Closure) : World :=
  {| now := time; listenAt := time;
     startResponse := Resolved (Some "Hello");
     chatResponse := Rejected "AI応答の取得に失敗しました";
     tts := TtsAudio true; scoreResponse := Resolved tt;
     sttToken := Resolved "token"; browser := chrome; captured := c |}.

(** The closure of a callback created while the recorder records and the
    client holds the finalized text [full]. *)
Definition whileRecording (full : string) : Closure :=
  {| c_isRecording := true; c_fullTranscript := full |}.

Definition interim (text : string) : Event :=
  Socket (Deepgram.WsMessage (Deepgram.Results false [text])).
Definition final (text : string) : Event :=
  Socket (Deepgram.WsMessage (Deepgram.Results true [text])).

(** The session is started and the interviewer has spoken for 1.5 s. *)
Definition started : Run :=
  step StartInterview (world 0 1500 firstRender) start.

(** The socket is open: the first listening window. *)
Definition listening : Run :=
  step (Socket Deepgram.WsOpen) (world 1600 0 firstRender) started.

(** The respondent has said "hello", finalized at 3 s. *)
Definition heard : Run :=
  step (final "hello") (world 3000 0 (whileRecording "")) listening.

(** The stop button is pressed at 4 s. *)
Definition stopped : Run :=
  step EndInterview (world 4000 0 (whileRecording "")) heard.

(** The respondent has said "hello", the silence timeout has fired at 5 s,
    and [getAIResponse] waits for the turn generator: the session is in the
    middle of [processing]. *)
Definition awaitingGenerator : Run :=
  (read (fun s => silenceTimerRef (refs s)) (fun tm =>
     match tm with Some tm => markFired tm | None => skip end) ;;
   setIsUserSpeaking false ;;
   stopRecording ;;
   callDeepgram Deepgram.disconnect ;;
   setMessages (fun prev =>
     prev ++ [{| role := respondent; content := "hello"; timestamp := 5000 |}]) ;;
   setCurrentTranscript "" ;;
   requestTurn "hello") heard.

(** The stop button is pressed while the generator is awaited; the end
    routine runs to its end, and then the generator answers. *)
Definition stoppedWhileAwaiting : Run :=
  handler EndInterview (world 5500 0 firstRender) awaitingGenerator.

Definition answeredAfterStop : Run :=
  receiveTurn (world 7000 1500 firstRender) stoppedWhileAwaiting.

(** The silence timeout fires at 5 s and the turn generator fails. *)
Definition generatorFailed : Run :=
  step SilenceTimeout (generatorDown 5000 firstRender) heard.

(** The silence timeout fires at 5 s, the turn generator answers, the
    interviewer speaks for 1.5 s and the second listening window opens. *)
Definition answered : Run :=
  step SilenceTimeout (world 5000 1500 firstRender) heard.

Definition listeningAgain : Run :=
  step (Socket Deepgram.WsOpen) (world 6600 0 firstRender) answered.

(** In the second window the respondent says "world", finalized at 8 s.
    [snapshot] is the finalized text of the client in the render that
    created the callback of the silence timeout. *)
Definition heardAgain (snapshot : string) : Run :=
  step (final "world") (world 8000 0 (whileRecording snapshot)) listeningAgain.

Definition answeredAgain (snapshot : string) : Run :=
  step SilenceTimeout (world 10000 1500 firstRender) (heardAgain snapshot).

(** In the first window the client reports the interim text "a" at 3 s and
    the same interim text again at 4.5 s; it never reports a final one. *)
Definition murmur : Run :=
  step (interim "a") (world 3000 0 (whileRecording "")) listening.

Definition murmurAgain : Run :=
  step (interim "a") (world 4500 0 (whileRecording "")) murmur.

End Scenario.

(* ------------------------------------------------------------------ *)
(** ** Chunks and socket messages in sequence *)

Module Capture.

(** The MediaRecorder delivers [chunks] one after the other; the second
    component lists the chunks handed to the registered callback. *)
Fixpoint feed (chunks : list Blob) (r : AudioRecorder.t) : AudioRecorder.t * list Blob :=
  match chunks with
  | [] => (r, [])
  | c :: rest =>
      let '(r1, called) := AudioRecorder.ondataavailable c r in
      let '(r2, forwarded) := feed rest r1 in
      (r2, (if called then [c] else []) ++ forwarded)
  end.

Definition nonEmpty (c : Blob) : bool := 0 <? blob_size c.

(** The hook holds a recorder that holds a MediaStream: the microphone is
    in use. *)
Definition holdsStream (h : RecorderHook.t) : bool :=
  match RecorderHook.recorderRef h with
  | Some r => AudioRecorder.stream r
  | None => false
  end.

(** The effects on the MediaRecorder and on the MediaStream. *)
Definition isCaptureEffect (e : Effect) : bool :=
  match e with
  | EMediaStart _ | EMediaStop | ETrackStop => true
  | _ => false
  end.

Definition isTrackStop (e : Effect) : bool :=
  match e with ETrackStop => true | _ => false end.

Definition isMediaStop (e : Effect) : bool :=
  match e with EMediaStop => true | _ => false end.

End Capture.

Module Transcription.
Import Js Deepgram.

(** The messages of the socket, handled in order. *)
Definition receive (msgs : list Message) (d : t) : t :=
  fold_left (fun d m => onmessage m d) msgs d.

(** The text a message adds to the finalized transcript. *)
Definition finalText (m : Message) : string :=
  match m with
  | Results true (text :: _) => if truthy (trim text) then text else ""
  | _ => ""
  end.

Definition finalized (msgs : list Message) : string :=
  String.concat "" (map finalText msgs).

(** The interim text after the messages, [prev] being the one before. *)
Definition interimAfter (prev : string) (msgs : list Message) : string :=
  fold_left (fun text m =>
               match m with
               | Results is_final (t :: _) => if is_final then "" else t
               | _ => text
               end) msgs prev.

(** An outage: the socket closes with [code], the reconnection timer fires,
    the token is fetched and the new socket opens. *)
Definition outage (code : Z) (token : string) : list Event :=
  [WsClose code; ReconnectFires (Resolved token); WsOpen].

Fixpoint outages (n : nat) (code : Z) (token : string) : list Event :=
  match n with
  | O => []
  | S k => outage code token ++ outages k code token
  end.

(** A client whose first connection has opened. *)
Definition connected : t :=
  onopen (fst (connect (Resolved "token") init)).

(** No reconnection timer fires during the run. *)
Definition noTimerFires (evs : list Event) : bool :=
  forallb (fun e => match e with ReconnectFires _ => false | _ => true end) evs.

End Transcription.

(* ------------------------------------------------------------------ *)
(** ** The shape of the conversation *)

Module Dialogue.
Import Js Engine.

Definition isAi (m : InterviewMessage) : bool :=
  match role m with ai => true | respondent => false end.

(** The number of messages of the interviewer. *)
Definition aiTurns (l : list InterviewMessage) : Z :=
  Z.of_nat (length (filter isAi l)).

Definition sameRole (a b : Role) : bool :=
  match a, b with
  | ai, ai | respondent, respondent => true
  | _, _ => false
  end.

(** The role of the last message, [prev] when there is none. *)
Fixpoint lastRole (prev : option Role) (l : list InterviewMessage) : option Role :=
  match l with
  | [] => prev
  | m :: rest => lastRole (Some (role m)) rest
  end.

(** [m] may follow a message of role [prev]: the interviewer opens, and
    then the two take turns. *)
Definition follows (prev : option Role) (m : InterviewMessage) : bool :=
  match prev with
  | None => isAi m
  | Some p => negb (sameRole p (role m))
  end.

Fixpoint alternates (prev : option Role) (l : list InterviewMessage) : bool :=
  match l with
  | [] => true
  | m :: rest => follows prev m && alternates (Some (role m)) rest
  end.

(** A request to the turn generator whose message is empty. *)
Definition isBlankChat (e : Effect) : bool :=
  match e with EFetch (ApiChat message) => negb (truthy message) | _ => false end.

(** Holds between two events. *)
Definition Orderly (s : t) : Prop :=
  turnCount (state s) = aiTurns (messages (state s)) /\
  alternates None (messages (state s)) = true /\
  (phase (state s) = Phase.idle -> messages (state s) = []) /\
  (phase (state s) = Phase.interviewing -> lastRole None (messages (state s)) = Some ai) /\
  calls isBlankChat (log s) = 0%nat.

(** A silence timeout is pending. *)
Definition armed (s : t) : bool :=
  match silenceTimerRef (refs s) with
  | Some tm => pending tm
  | None => false
  end.

Definition isSilenceTimerEffect (e : Effect) : bool :=
  match e with
  | ESetTimeout SilenceTimer _ | EClearTimeout SilenceTimer => true
  | _ => false
  end.

End Dialogue.

(* ------------------------------------------------------------------ *)
(** ** More concrete sessions *)

Module Episode.
Import Js Engine.

(** In the first listening window the socket closes abnormally and the
    reconnection finds a token but never opens, three times over: the
    attempts are spent. *)
Definition retriesSpent : Run :=
  exec [(Socket (Deepgram.WsClose 1006), Scenario.world 2000 0 firstRender);
        (Socket (Deepgram.ReconnectFires (Resolved "token")), Scenario.world 4000 0 firstRender);
        (Socket (Deepgram.WsClose 1006), Scenario.world 4100 0 firstRender);
        (Socket (Deepgram.ReconnectFires (Resolved "token")), Scenario.world 8100 0 firstRender);
        (Socket (Deepgram.WsClose 1006), Scenario.world 8200 0 firstRender);
        (Socket (Deepgram.ReconnectFires (Resolved "token")), Scenario.world 16200 0 firstRender)]
       Scenario.listening.

(** The browser refuses the microphone. *)
Definition deaf : World :=
  {| now := 0; listenAt := 1500; startResponse := Resolved (Some "Hello");
     chatResponse := Resolved ("Why?", None); tts := TtsAudio true;
     scoreResponse := Resolved tt; sttToken := Resolved "token";
     browser := {| AudioRecorder.hasMediaRecorder := true;
                   AudioRecorder.isTypeSupported := fun _ => true;
                   AudioRecorder.getUserMedia := AudioRecorder.MicNotAllowed;
                   AudioRecorder.defaultMimeType := "audio/webm" |};
     captured := firstRender |}.

(** The turn generator answers with the end flag. *)
Definition closing : World :=
  {| now := 5000; listenAt := 6500; startResponse := Resolved (Some "Hello");
     chatResponse := Resolved ("Thank you, that is all.", Some true);
     tts := TtsAudio true; scoreResponse := Rejected "500";
     sttToken := Resolved "token"; browser := Scenario.chrome;
     captured := firstRender |}.

(** After [Scenario.answeredAfterStop] (the stop button was pressed while
    the turn generator was awaited, and the generator has answered since):
    the socket of the new listening window opens and the respondent says
    "more", finalized at 299 s. *)
Definition resumed : Run :=
  exec [(Socket Deepgram.WsOpen, Scenario.world 8600 0 firstRender);
        (Scenario.final "more", Scenario.world 299000 0 (Scenario.whileRecording "hello"))]
       Scenario.answeredAfterStop.

(** 300 s after the start of the session. *)
Definition overBudget : World := Scenario.world 300000 0 firstRender.

(** The interval timer is due at 300 s and the silence timeout at 301 s. *)
Definition stillTalking : Run :=
  step SilenceTimeout (Scenario.world 301000 1500 firstRender)
    (step TimerTick overBudget resumed).

End Episode.

(* ------------------------------------------------------------------ *)
(** ** lib/audio/player (class AudioPlayer)

    [play] and [stop] are called one at a time: no call arrives while a
    buffer is decoded or played.  What happens to a buffer is then decided by
    the AudioContext alone. *)

Module AudioPlayer.

(** An ArrayBuffer of audio data, by its content. *)
Definition ArrayBuffer : Type := string.

Record t : Type := {
  audioContext : bool;                 (* an AudioContext exists *)
  audioQueue : list ArrayBuffer;
  isPlaying : bool;
  currentSource : option ArrayBuffer;
  aborted : bool
}.

Definition new : t :=
  {| audioContext := false; audioQueue := []; isPlaying := false;
     currentSource := None; aborted := false |}.

(** What the AudioContext does with a buffer taken from the queue. *)
Inductive Fate : Type :=
| Plays            (* decoded, started, played to its end *)
| DecodeFails      (* decodeAudioData rejects *)
| ResumeFails.     (* the context is suspended and resume() rejects *)

Inductive Output : Type :=
| Started (data : ArrayBuffer)         (* source.start(0) *)
| Warned (data : ArrayBuffer)          (* console.warn: the buffer is skipped *)
| SourceStopped (data : ArrayBuffer)   (* currentSource.stop() *)
| ContextClosed.                       (* audioContext.close() *)

Definition init (p : t) : t :=
  if audioContext p then p
  else {| audioContext := true; audioQueue := audioQueue p; isPlaying := isPlaying p;
          currentSource := currentSource p; aborted := false |}.

(** The [while] loop of [processQueue] over the queue it finds; [aborted]
    is false and stays false. *)
Fixpoint drain (fate : ArrayBuffer -> Fate) (queue : list ArrayBuffer) : list Output :=
  match queue with
  | [] => []
  | data :: rest =>
      match fate data with
      | ResumeFails => drain fate rest
      | DecodeFails => Warned data :: drain fate rest
      | Plays => Started data :: drain fate rest
      end
  end.

Definition processQueue (fate : ArrayBuffer -> Fate) (p : t) : t * list Output :=
  if negb (audioContext p) then (p, [])
  else if aborted p then
    ({| audioContext := audioContext p; audioQueue := audioQueue p; isPlaying := false;
        currentSource := currentSource p; aborted := aborted p |}, [])
  else
    ({| audioContext := audioContext p; audioQueue := []; isPlaying := false;
        currentSource :=
          if existsb (fun data => match fate data with ResumeFails => false | _ => true end)
                     (audioQueue p)
          then None else currentSource p;
        aborted := aborted p |},
     drain fate (audioQueue p)).

Definition push (data : ArrayBuffer) (p : t) : t :=
  {| audioContext := audioContext p; audioQueue := audioQueue p ++ [data];
     isPlaying := isPlaying p; currentSource := currentSource p; aborted := aborted p |}.

Definition play (fate : ArrayBuffer -> Fate) (data : ArrayBuffer) (p : t) : t * list Output :=
  let p1 := push data (if audioContext p then p else init p) in
  if isPlaying p1 then (p1, []) else processQueue fate p1.

(** [stop]; the timeout it sets is [abortReset]. *)
Definition stop (p : t) : t * list Output :=
  ({| audioContext := audioContext p; audioQueue := []; isPlaying := false;
      currentSource := None; aborted := true |},
   match currentSource p with Some data => [SourceStopped data] | None => [] end).

Definition abortReset (p : t) : t :=
  {| audioContext := audioContext p; audioQueue := audioQueue p; isPlaying := isPlaying p;
     currentSource := currentSource p; aborted := false |}.

Definition getIsPlaying (p : t) : bool := isPlaying p.

Definition destroy (p : t) : t * list Output :=
  let '(p1, out) := stop p in
  if audioContext p1 then
    ({| audioContext := false; audioQueue := audioQueue p1; isPlaying := isPlaying p1;
        currentSource := currentSource p1; aborted := aborted p1 |},
     out ++ [ContextClosed])
  else (p1, out).

(** The buffers started by a list of outputs, in order. *)
Definition started (out : list Output) : list ArrayBuffer :=
  flat_map (fun o => match o with Started data => [data] | _ => [] end) out.

Definition plays (fate : ArrayBuffer -> Fate) (data : ArrayBuffer) : bool :=
  match fate data with Plays => true | _ => false end.

End AudioPlayer.

(* ------------------------------------------------------------------ *)
(** ** JSON bodies *)

Module Json.

Inductive value : Type :=
| JNull
| JBool (b : bool)
| JNumber (n : Z)
| JString (s : string).

(** An object: its fields in order. *)
Definition object : Type := list (string * value).

(** [data.key]; [None] is [undefined]. *)
Fixpoint get (key : string) (o : object) : option value :=
  match o with
  | [] => None
  | (k, v) :: rest => if String.eqb k key then Some v else get key rest
  end.

(** Truthiness of [data.key]. *)
Definition truthy (v : option value) : bool :=
  match v with
  | Some (JBool b) => b
  | Some (JNumber n) => negb (n =? 0)
  | Some (JString s) => Js.truthy s
  | Some JNull | None => false
  end.

End Json.

(* ------------------------------------------------------------------ *)
(** ** The route POST /api/ai/tts *)

Module TtsRoute.
Import Js.

(** The field of the JSON body the route reads. *)
Record Body : Type := { text : option string }.

(** The arguments of [openai.audio.speech.create]. *)
Record SpeechRequest : Type := {
  model : string; voice : string; input : string; response_format : string
}.

Inductive Payload : Type :=
| Audio (bytes : string)
| Error (message : string).

Record Response : Type := {
  status : Z;
  contentType : string;
  contentLength : option Z;
  payload : Payload
}.

Definition json (code : Z) (message : string) : Response :=
  {| status := code; contentType := "application/json"; contentLength := None;
     payload := Error message |}.

(** [request] is the outcome of [request.json()]; [speech] is the OpenAI
    client, its construction included.  The audio is a string of bytes. *)
Definition POST (request : Result Body) (speech : SpeechRequest -> Result string) : Response :=
  match request with
  | Rejected _ => json 500 "音声合成に失敗しました"
  | Resolved body =>
      if negb (truthy (nullish (text body) "")) then json 400 "textは必須です"
      else
        let t := nullish (text body) "" in
        if 4096 <? codeUnits t
        then json 400 "テキストが長すぎます（最大4096文字）"
        else
          match speech {| model := "tts-1"; voice := "nova"; input := t;
                          response_format := "mp3" |} with
          | Resolved buffer =>
              {| status := 200; contentType := "audio/mpeg";
                 contentLength := Some (Z.of_nat (String.length buffer));
                 payload := Audio buffer |}
          | Rejected _ => json 500 "音声合成に失敗しました"
          end
  end.

End TtsRoute.

(* ------------------------------------------------------------------ *)
(** ** The rows of the database the routes read and write *)

Module Db.

Record Question : Type := {
  q_text : string;
  orderIndex : Z;
  followUpPrompt : option string
}.

Record Transcript : Type := {
  speaker : string;
  t_text : string;
  startTime : Z;
  endTime : Z
}.

(** An interview session with its project, its respondent and its
    transcript rows. *)
Record Session : Type := {
  status : string;
  turnCount : Z;
  startedAt : option Z;
  completedAt : option Z;
  duration : option Z;
  title : string;
  description : option string;
  questions : list Question;
  respondentName : option string;
  transcripts : list Transcript
}.

Inductive Write : Type :=
| TranscriptCreate (row : Transcript)
| SessionStart (time : Z)                            (* status IN_PROGRESS, startedAt *)
| SessionTurn (completed : option (Z * option Z)).   (* turnCount + 1; COMPLETED, completedAt, duration *)

Definition apply (w : Write) (s : Session) : Session :=
  match w with
  | TranscriptCreate row =>
      {| status := status s; turnCount := turnCount s; startedAt := startedAt s;
         completedAt := completedAt s; duration := duration s; title := title s;
         description := description s; questions := questions s;
         respondentName := respondentName s; transcripts := transcripts s ++ [row] |}
  | SessionStart time =>
      {| status := "IN_PROGRESS"; turnCount := turnCount s; startedAt := Some time;
         completedAt := completedAt s; duration := duration s; title := title s;
         description := description s; questions := questions s;
         respondentName := respondentName s; transcripts := transcripts s |}
  | SessionTurn None =>
      {| status := status s; turnCount := turnCount s + 1; startedAt := startedAt s;
         completedAt := completedAt s; duration := duration s; title := title s;
         description := description s; questions := questions s;
         respondentName := respondentName s; transcripts := transcripts s |}
  | SessionTurn (Some (time, d)) =>
      {| status := "COMPLETED"; turnCount := turnCount s + 1; startedAt := startedAt s;
         completedAt := Some time; duration := d; title := title s;
         description := description s; questions := questions s;
         respondentName := respondentName s; transcripts := transcripts s |}
  end.

Definition applyAll (ws : list Write) (s : Session) : Session :=
  fold_left (fun s w => apply w s) ws s.

End Db.

(* ------------------------------------------------------------------ *)
(** ** lib/ai/interviewer (class AIInterviewer) *)

Module Interviewer.
Import Js.

Inductive Role : Type := ai | respondent.

Record InterviewConfig : Type := {
  projectTitle : string;
  projectDescription : option string;
  questions : list Db.Question;
  maxDurationSeconds : option Z;
  maxFollowUps : option Z
}.

Record ConversationMessage : Type := {
  role : Role;
  content : string;
  timestamp : Z
}.

Record InterviewerResponse : Type := {
  message : string;
  isFollowUp : bool;
  shouldEnd : bool;
  currentPhase : string;
  nextQuestionIndex : Z
}.

Record t : Type := {
  config : InterviewConfig;
  history : list ConversationMessage;
  startTime : Z;
  turnCount : Z;
  currentQuestionIndex : Z;
  maxDuration : Z;
  maxFollowUpsLimit : Z
}.

Definition default (a : option Z) (b : Z) : Z :=
  match a with Some x => x | None => b end.

(** [new AIInterviewer(config)]. *)
Definition new (c : option InterviewConfig) : t :=
  let cfg := match c with
             | Some cfg => cfg
             | None => {| projectTitle := ""; projectDescription := None; questions := [];
                          maxDurationSeconds := None; maxFollowUps := None |}
             end in
  {| config := cfg; history := []; startTime := 0; turnCount := 0;
     currentQuestionIndex := 0;
     maxDuration := default (maxDurationSeconds cfg) 300;
     maxFollowUpsLimit := default (maxFollowUps cfg) 10 |}.

(** The arguments of the four prompt builders: what the request to the
    model is made of. *)
Record ControlPromptParams : Type := {
  currentTurn : Z;
  maxTurns : Z;
  elapsedSeconds : Z;
  maxSeconds : Z;
  questionIndex : Z;
  totalQuestions : Z
}.

Record Request : Type := {
  projectContext : string * option string * list (string * option string);
  sessionContext : list (Role * string);
  control : ControlPromptParams
}.

(** The answer of the model after [parseResponse], which never throws;
    the index is missing when the answer gives none. *)
Record Parsed : Type := {
  p_message : string;
  p_isFollowUp : bool;
  p_shouldEnd : bool;
  p_currentPhase : string;
  p_nextQuestionIndex : option Z
}.

(** The model: [None] when the call or the reading of its answer throws. *)
Definition Claude : Type := Request -> option Parsed.

Definition request (now : Z) (p : t) : Request :=
  {| projectContext :=
       (projectTitle (config p), projectDescription (config p),
        map (fun q => (Db.q_text q, Db.followUpPrompt q)) (questions (config p)));
     sessionContext := map (fun m => (role m, content m)) (history p);
     control :=
       {| currentTurn := turnCount p;
          maxTurns := maxFollowUpsLimit p;
          elapsedSeconds := (now - startTime p) / 1000;
          maxSeconds := maxDuration p;
          questionIndex := currentQuestionIndex p;
          totalQuestions :=
            match questions (config p) with
            | [] => 1
            | qs => Z.of_nat (length qs)
            end |} |}.

Definition withHistory (h : list ConversationMessage) (p : t) : t :=
  {| config := config p; history := h; startTime := startTime p; turnCount := turnCount p;
     currentQuestionIndex := currentQuestionIndex p; maxDuration := maxDuration p;
     maxFollowUpsLimit := maxFollowUpsLimit p |}.

Definition apology : string :=
  "申し訳ございません、少し問題が発生しました。もう一度お話しいただけますか？".

Definition generateResponse (now : Z) (claude : Claude) (p : t) : InterviewerResponse * t :=
  match claude (request now p) with
  | Some parsed =>
      let answer :=
        {| message := p_message parsed; isFollowUp := p_isFollowUp parsed;
           shouldEnd := p_shouldEnd parsed; currentPhase := p_currentPhase parsed;
           nextQuestionIndex := default (p_nextQuestionIndex parsed) (currentQuestionIndex p) |} in
      (answer,
       {| config := config p;
          history := history p ++ [{| role := ai; content := message answer; timestamp := now |}];
          startTime := startTime p; turnCount := turnCount p + 1;
          currentQuestionIndex := nextQuestionIndex answer;
          maxDuration := maxDuration p; maxFollowUpsLimit := maxFollowUpsLimit p |})
  | None =>
      ({| message := apology; isFollowUp := false; shouldEnd := false;
          currentPhase := "main"; nextQuestionIndex := currentQuestionIndex p |},
       withHistory (history p ++ [{| role := ai; content := apology; timestamp := now |}]) p)
  end.

(** [start(session)]: the project of the session, when given, replaces the
    configuration. *)
Definition start (project : option (string * option string * list Db.Question))
    (now : Z) (claude : Claude) (p : t) : InterviewerResponse * t :=
  let cfg :=
    match project with
    | Some (title, description, qs) =>
        {| projectTitle := title; projectDescription := description; questions := qs;
           maxDurationSeconds := Some (maxDuration p);
           maxFollowUps := Some (maxFollowUpsLimit p) |}
    | None => config p
    end in
  generateResponse now claude
    {| config := cfg; history := []; startTime := now; turnCount := 0;
       currentQuestionIndex := 0; maxDuration := maxDuration p;
       maxFollowUpsLimit := maxFollowUpsLimit p |}.

(** The fields of the argument of [respond] that it reads. *)
Record Params : Type := {
  r_message : option string;
  r_turnCount : option Z
}.

Definition respond (params : option Params) (now : Z) (claude : Claude) (p : t)
  : InterviewerResponse * t :=
  let message := match params with Some x => nullish (r_message x) "" | None => "" end in
  let p1 :=
    if truthy message
    then withHistory (history p ++ [{| role := respondent; content := message;
                                        timestamp := now |}]) p
    else p in
  let p2 :=
    match params with
    | Some {| r_turnCount := Some n |} =>
        {| config := config p1; history := history p1; startTime := startTime p1;
           turnCount := n; currentQuestionIndex := currentQuestionIndex p1;
           maxDuration := maxDuration p1; maxFollowUpsLimit := maxFollowUpsLimit p1 |}
    | _ => p1
    end in
  generateResponse now claude p2.

Definition getHistory (p : t) : list ConversationMessage := history p.

Definition getStatus (now : Z) (p : t) : string * Z * Z :=
  ((if turnCount p =? 0 then "opening"
    else if maxFollowUpsLimit p <=? turnCount p then "closing" else "main"),
   turnCount p, (now - startTime p) / 1000).

End Interviewer.

(* ------------------------------------------------------------------ *)
(** ** src/app/api/ai/chat/route.ts *)

Module ChatRoute.
Import Js.

(** The fields of the JSON body the route reads. *)
Record Body : Type := {
  sessionId : option string;
  message : option string;
  turnCount : option Z;
  elapsedSeconds : option Z
}.

Record Response : Type := { status : Z; body : Json.object }.

Definition failure (code : Z) (text : string) : Response :=
  {| status := code; body := [("error", Json.JString text)] |}.

(** What the request of the fallback to the model is made of. *)
Record FallbackRequest : Type := {
  f_title : string;
  f_description : option string;
  f_questions : list string;
  f_phase : string;
  f_turn : Z;
  f_maxTurns : Z;
  f_minutes : Z;
  f_closing : bool;
  f_conversation : list (bool * string)      (* from the assistant?, content *)
}.

(** The collaborators: the clock, the database, the dynamic import and the
    constructor of the interviewer with the model behind it, and the model
    of the fallback ([None]: its answer has no text block). *)
Record World : Type := {
  now : Z;
  find : string -> Result (option Db.Session);
  writes : Db.Write -> bool;                     (* the write succeeds *)
  interviewer : Result Interviewer.Claude;
  anthropic : FallbackRequest -> Result (option string)
}.

(** [hay.includes(needle)]. *)
Fixpoint includes (needle hay : string) : bool :=
  String.prefix needle hay ||
  match hay with
  | EmptyString => false
  | String _ rest => includes needle rest
  end.

Record Turn : Type := {
  aiMessage : string;
  isFollowUp : bool;
  shouldEnd : bool;
  currentPhase : string
}.

(** The generation of the answer: the interviewer, or the fallback when
    its import, its construction or its call throws. *)
Definition generate (w : World) (b : Body) (session : Db.Session) (text : string)
  : Result Turn :=
  match interviewer w with
  | Resolved claude =>
      let result :=
        fst (Interviewer.respond
               (Some {| Interviewer.r_message := Some text;
                        Interviewer.r_turnCount :=
                          Some (Interviewer.default (turnCount b) (Db.turnCount session)) |})
               (now w) claude (Interviewer.new None)) in
      Resolved {| aiMessage := Interviewer.message result;
                  isFollowUp := Interviewer.isFollowUp result;
                  shouldEnd := Interviewer.shouldEnd result;
                  currentPhase := Interviewer.currentPhase result |}
  | Rejected _ =>
      let totalQuestions := Z.of_nat (length (Db.questions session)) in
      let currentTurn := Interviewer.default (turnCount b) (Db.turnCount session) in
      let elapsed := Interviewer.default (elapsedSeconds b) 0 in
      let maxTurns := totalQuestions * 3 + 2 in
      let ending := (maxTurns <=? currentTurn) || (1800 <? elapsed) in
      let phase :=
        if ending then "closing"
        else if currentTurn <=? 1 then "opening" else "questioning" in
      match anthropic w
              {| f_title := Db.title session; f_description := Db.description session;
                 f_questions := map Db.q_text (Db.questions session);
                 f_phase := phase; f_turn := currentTurn + 1; f_maxTurns := maxTurns;
                 f_minutes := elapsed / 60; f_closing := ending;
                 f_conversation :=
                   map (fun t => (String.eqb (Db.speaker t) "ai", Db.t_text t))
                       (Db.transcripts session) ++ [(false, text)] |} with
      | Rejected e => Rejected e
      | Resolved block =>
          let answer := nullish block "なるほど、ありがとうございます。" in
          Resolved {| aiMessage := answer;
                      isFollowUp := includes "具体的" answer || includes "もう少し" answer
                                    || includes "例えば" answer;
                      shouldEnd := ending;
                      currentPhase := phase |}
      end
  end.

Definition row (who text : string) (time : Z) : Db.Write :=
  Db.TranscriptCreate
    {| Db.speaker := who; Db.t_text := text; Db.startTime := time; Db.endTime := time |}.

(** [request] is the outcome of [request.json()].  The second component
    lists the writes made to the database, in order. *)
Definition POST (w : World) (request : Result Body) : Response * list Db.Write :=
  let crash := failure 500 "AI応答の生成に失敗しました" in
  match request with
  | Rejected _ => (crash, [])
  | Resolved b =>
      let id := nullish (sessionId b) "" in
      let text := nullish (message b) "" in
      if negb (truthy id) || negb (truthy text)
      then (failure 400 "sessionIdとmessageは必須です", [])
      else
        match find w id with
        | Rejected _ => (crash, [])
        | Resolved None => (failure 404 "セッションが見つかりません", [])
        | Resolved (Some session) =>
            if negb (String.eqb (Db.status session) "IN_PROGRESS")
            then (failure 400 "このセッションは進行中ではありません", [])
            else
              let currentTime := Interviewer.default (elapsedSeconds b) 0 in
              let asked := row "respondent" text currentTime in
              if negb (writes w asked) then (crash, [])
              else
                match generate w b session text with
                | Rejected _ => (crash, [asked])
                | Resolved turn =>
                    let answered := row "ai" (aiMessage turn) currentTime in
                    if negb (writes w answered) then (crash, [asked])
                    else
                      let update :=
                        Db.SessionTurn
                          (if shouldEnd turn then Some (now w, elapsedSeconds b) else None) in
                      if negb (writes w update) then (crash, [asked; answered])
                      else
                        ({| status := 200;
                            body := [("message", Json.JString (aiMessage turn));
                                     ("isFollowUp", Json.JBool (isFollowUp turn));
                                     ("shouldEnd", Json.JBool (shouldEnd turn));
                                     ("currentPhase", Json.JString (currentPhase turn));
                                     ("turnCount", Json.JNumber (Db.turnCount session + 1))] |},
                         [asked; answered; update])
                end
        end
  end.

End ChatRoute.

(* ------------------------------------------------------------------ *)
(** ** The route POST /api/interviews/:sessionId/start *)

Module StartRoute.
Import Js.

Record FallbackRequest : Type := {
  f_title : string;
  f_description : option string;
  f_questions : list string;
  f_respondent : string
}.

Record World : Type := {
  now : Z;
  find : string -> Result (option Db.Session);
  writes : Db.Write -> bool;
  interviewer : Result Interviewer.Claude;
  anthropic : FallbackRequest -> Result (option string)
}.

Definition generate (w : World) (session : Db.Session) : Result string :=
  match interviewer w with
  | Resolved claude =>
      Resolved
        (Interviewer.message
           (fst (Interviewer.start
                   (Some (Db.title session, Db.description session, Db.questions session))
                   (now w) claude (Interviewer.new None))))
  | Rejected _ =>
      match anthropic w
              {| f_title := Db.title session; f_description := Db.description session;
                 f_questions := map Db.q_text (Db.questions session);
                 f_respondent := orOpt (Db.respondentName session) "参加者" |} with
      | Rejected e => Rejected e
      | Resolved block => Resolved (nullish block "こんにちは。インタビューを始めましょう。")
      end
  end.

(** [sessionId] is the parameter of the path. *)
Definition POST (w : World) (sessionId : string) : ChatRoute.Response * list Db.Write :=
  let crash := ChatRoute.failure 500 "インタビューの開始に失敗しました" in
  match find w sessionId with
  | Rejected _ => (crash, [])
  | Resolved None => (ChatRoute.failure 404 "セッションが見つかりません", [])
  | Resolved (Some session) =>
      if negb (String.eqb (Db.status session) "PENDING")
      then (ChatRoute.failure 400 "このセッションは既に開始されているか、完了しています", [])
      else
        let started := Db.SessionStart (now w) in
        if negb (writes w started) then (crash, [])
        else
          match generate w session with
          | Rejected _ => (crash, [started])
          | Resolved text =>
              let opened := ChatRoute.row "ai" text 0 in
              if negb (writes w opened) then (crash, [started])
              else ({| ChatRoute.status := 200;
                       ChatRoute.body := [("message", Json.JString text)] |},
                    [started; opened])
          end
  end.

End StartRoute.

(* ------------------------------------------------------------------ *)
(** ** What the orchestrator sends to the routes and reads from them *)

Module Wire.
Import Js.

(** [response.ok]. *)
Definition ok (code : Z) : bool := (200 <=? code) && (code <=? 299).

(** The body of the request of [getAIResponse], as the chat route reads it:
    the route does not read [messages], and the orchestrator sends neither
    [turnCount] nor [elapsedSeconds]. *)
Definition chatRequest (sessionId userMessage : string) : ChatRoute.Body :=
  {| ChatRoute.sessionId := Some sessionId; ChatRoute.message := Some userMessage;
     ChatRoute.turnCount := None; ChatRoute.elapsedSeconds := None |}.

(** [getAIResponse] reads [data.response] and [data.shouldEnd ?? false]. *)
Definition readChat (r : ChatRoute.Response) : Result (option Json.value * bool) :=
  if ok (ChatRoute.status r)
  then Resolved (Json.get "response" (ChatRoute.body r),
                 match Json.get "shouldEnd" (ChatRoute.body r) with
                 | None | Some Json.JNull => false
                 | v => Json.truthy v
                 end)
  else Rejected "AI応答の取得に失敗しました".

(** [startInterview] reads [data.message]. *)
Definition readStart (r : ChatRoute.Response) : Result (option Json.value) :=
  if ok (ChatRoute.status r)
  then Resolved (Json.get "message" (ChatRoute.body r))
  else Rejected "インタビューセッションの開始に失敗しました".

(** The body of the request of [speakText], as the speech route reads it;
    [None] is [undefined], and [JSON.stringify] leaves such a field out. *)
Definition ttsRequest (text : option string) : TtsRoute.Body :=
  {| TtsRoute.text := text |}.

End Wire.

(* ------------------------------------------------------------------ *)
(** ** A concrete session on the server *)

Module Served.
Import Js.

Definition session : Db.Session :=
  {| Db.status := "IN_PROGRESS"; Db.turnCount := 1; Db.startedAt := Some 1000;
     Db.completedAt := None; Db.duration := None;
     Db.title := "Checkout"; Db.description := None;
     Db.questions := [{| Db.q_text := "What went wrong?"; Db.orderIndex := 0;
                         Db.followUpPrompt := None |}];
     Db.respondentName := Some "Aki";
     Db.transcripts := [{| Db.speaker := "ai"; Db.t_text := "Hello"; Db.startTime := 0;
                           Db.endTime := 0 |}] |}.

Definition pending : Db.Session :=
  {| Db.status := "PENDING"; Db.turnCount := 0; Db.startedAt := None;
     Db.completedAt := None; Db.duration := None;
     Db.title := "Checkout"; Db.description := None;
     Db.questions := Db.questions session;
     Db.respondentName := Some "Aki"; Db.transcripts := [] |}.

(** The model answers every request with the same question. *)
Definition claude : Interviewer.Claude :=
  fun _ => Some {| Interviewer.p_message := "Why?"; Interviewer.p_isFollowUp := true;
                   Interviewer.p_shouldEnd := false; Interviewer.p_currentPhase := "main";
                   Interviewer.p_nextQuestionIndex := None |}.

(** Every collaborator of the chat route answers. *)
Definition chat (stored : Db.Session) : ChatRoute.World :=
  {| ChatRoute.now := 61000;
     ChatRoute.find := fun _ => Resolved (Some stored);
     ChatRoute.writes := fun _ => true;
     ChatRoute.interviewer := Resolved claude;
     ChatRoute.anthropic := fun _ => Resolved (Some "I see.") |}.

(** The interviewer cannot be built and the model of the fallback fails. *)
Definition chatDown (stored : Db.Session) : ChatRoute.World :=
  {| ChatRoute.now := 61000;
     ChatRoute.find := fun _ => Resolved (Some stored);
     ChatRoute.writes := fun _ => true;
     ChatRoute.interviewer := Rejected "no key";
     ChatRoute.anthropic := fun _ => Rejected "overloaded" |}.

Definition start (stored : Db.Session) : StartRoute.World :=
  {| StartRoute.now := 1000;
     StartRoute.find := fun _ => Resolved (Some stored);
     StartRoute.writes := fun _ => true;
     StartRoute.interviewer := Resolved claude;
     StartRoute.anthropic := fun _ => Resolved (Some "Hello") |}.

Definition startDown (stored : Db.Session) : StartRoute.World :=
  {| StartRoute.now := 1000;
     StartRoute.find := fun _ => Resolved (Some stored);
     StartRoute.writes := fun _ => true;
     StartRoute.interviewer := Rejected "no key";
     StartRoute.anthropic := fun _ => Rejected "overloaded" |}.

End Served.

(* ================================================================== *)
(** * Properties *)

Import Js.

(* ------------------------------------------------------------------ *)
(** ** White space and length of strings *)

(** [trim] removes the white space of ECMAScript from both ends, whatever
    its length in bytes, and nothing else: here the space, the tab and the
    line feed, the no-break space (U+00A0), the ideographic space (U+3000)
    and the byte order mark (U+FEFF), around and inside Japanese text.  The
    next line character (U+0085) and the zero width space (U+200B) are no
    white space.  [codeUnits] is [length]: it counts UTF-16 code units. *)
Lemma trim_examples :
  let nbsp := String "194"%char (String "160"%char "") in
  let bom := String "239"%char (String "187"%char (String "191"%char "")) in
  let nel := String "194"%char (String "133"%char "") in
  let zwsp := String "226"%char (String "128"%char (String "139"%char "")) in
  Js.trim "  a b  " = "a b" /\
  Js.trim (String "009"%char (String "010"%char "a")) = "a" /\
  Js.trim "　はい　そうです　" = "はい　そうです" /\
  Js.trim "　" = "" /\
  Js.trim (nbsp ++ "a" ++ nbsp)%string = "a" /\
  Js.trim (bom ++ " ")%string = "" /\
  Js.trim "だ" = "だ" /\
  Js.trim nel = nel /\
  Js.trim zwsp = zwsp /\
  Js.codeUnits "だab" = 3 /\
  Js.codeUnits "𠮷" = 2 /\
  Js.codeUnits "　" = 1.
Proof. vm_compute. repeat split; reflexivity. Qed.

(* ------------------------------------------------------------------ *)
(** ** The token endpoint *)

(** C9: when the creation of the temporary key throws, the endpoint answers
    200 and the token of the body is the permanent API key of the server
    itself, so the credential it hands out is not always short-lived. *)
Theorem stt_token_falls_back_to_api_key :
  forall (env : SttToken.Env) (sdk : SttToken.KeyRequest -> SttToken.CreateProjectKey)
         (apiKey : string),
    SttToken.DEEPGRAM_API_KEY env = Some apiKey ->
    apiKey <> "" ->
    sdk (SttToken.keyRequest env) = SttToken.KeyThrows ->
    SttToken.GET env sdk =
      {| SttToken.status := 200;
         SttToken.body := SttToken.TokenBody apiKey "wss://api.deepgram.com/v1/listen" |}.
Proof.
  intros env sdk apiKey Hkey Hne Hsdk.
  unfold SttToken.GET. rewrite Hkey.
  assert (Ht : truthy apiKey = true).
  { unfold truthy. destruct (String.eqb_spec apiKey ""); [contradiction | reflexivity]. }
  rewrite Ht. cbn [negb]. rewrite Hsdk. reflexivity.
Qed.

Lemma stt_token_falls_back_to_api_key_witness :
  let env := {| SttToken.DEEPGRAM_API_KEY := Some "dg-secret";
                SttToken.DEEPGRAM_PROJECT_ID := None |} in
  SttToken.GET env (fun _ => SttToken.KeyThrows) =
    {| SttToken.status := 200;
       SttToken.body := SttToken.TokenBody "dg-secret" "wss://api.deepgram.com/v1/listen" |}.
Proof.
  intro env.
  apply (stt_token_falls_back_to_api_key env (fun _ => SttToken.KeyThrows) "dg-secret").
  - reflexivity.
  - discriminate.
  - reflexivity.
Defined.

(* ------------------------------------------------------------------ *)
(** ** The capture pipeline *)

Lemma stopRecording_not_capturing (h : RecorderHook.t) :
  RecorderHook.capturing h = false -> RecorderHook.stopRecording h = (None, h, []).
Proof.
  unfold RecorderHook.capturing, RecorderHook.stopRecording.
  destruct (RecorderHook.recorderRef h) as [r|]; [|reflexivity].
  intros ->. reflexivity.
Qed.

Lemma stopRecording_stops (h : RecorderHook.t) :
  RecorderHook.wellFormed h ->
  RecorderHook.capturing (snd (fst (RecorderHook.stopRecording h))) = false.
Proof.
  unfold RecorderHook.stopRecording, RecorderHook.wellFormed, RecorderHook.capturing.
  destruct (RecorderHook.recorderRef h) as [r|] eqn:Href.
  - intros Hwf.
    destruct (AudioRecorder.isRecording r) eqn:Hrec; cbn [negb].
    + unfold AudioRecorder.stop. unfold AudioRecorder.isRecording in Hrec.
      rewrite Hrec. destruct (AudioRecorder.mediaRecorder r) eqn:Hmr.
      * reflexivity.
      * exfalso. apply (Hwf Hrec). exact Hmr.
    + cbn. rewrite Href. exact Hrec.
  - intros _. cbn. rewrite Href. reflexivity.
Qed.

Lemma stopRecording_wellFormed (h : RecorderHook.t) :
  RecorderHook.wellFormed h ->
  RecorderHook.wellFormed (snd (fst (RecorderHook.stopRecording h))).
Proof.
  unfold RecorderHook.stopRecording, RecorderHook.wellFormed.
  destruct (RecorderHook.recorderRef h) as [r|] eqn:Href; cbn.
  - intros Hwf.
    destruct (AudioRecorder.isRecording r) eqn:Hrec; cbn [negb].
    + unfold AudioRecorder.stop. unfold AudioRecorder.isRecording in Hrec.
      rewrite Hrec. destruct (AudioRecorder.mediaRecorder r) eqn:Hmr; cbn.
      * intros Hf. discriminate Hf.
      * exact Hwf.
    + cbn. rewrite Href. exact Hwf.
  - intros _. rewrite Href. exact I.
Qed.

(** C7 (amended): the [stopRecording] of the capture hook is idempotent:
    on a hook that is not capturing it resolves to null and changes nothing,
    and the hook is not capturing after any call, so a second call in a row
    is such a no-op.  The [stop] of the recorder class under it is not: on a
    recorder that is not recording it rejects. *)
Theorem stopRecording_idempotent :
  forall h : RecorderHook.t,
    RecorderHook.wellFormed h ->
    (RecorderHook.capturing h = false ->
     RecorderHook.stopRecording h = (None, h, [])) /\
    (let h1 := snd (fst (RecorderHook.stopRecording h)) in
     RecorderHook.stopRecording h1 = (None, h1, [])) /\
    (forall r : AudioRecorder.t,
       AudioRecorder.isRecording r = false ->
       AudioRecorder.stop r = (Rejected "録音中ではありません", r, [])).
Proof.
  intros h Hwf. split; [|split].
  - apply stopRecording_not_capturing.
  - cbv zeta. apply stopRecording_not_capturing. apply stopRecording_stops. exact Hwf.
  - intros r Hr. unfold AudioRecorder.stop. unfold AudioRecorder.isRecording in Hr.
    rewrite Hr. destruct (AudioRecorder.mediaRecorder r); reflexivity.
Qed.

Lemma stopRecording_idempotent_witness :
  let chrome :=
    {| AudioRecorder.hasMediaRecorder := true;
       AudioRecorder.isTypeSupported := fun _ => true;
       AudioRecorder.getUserMedia := AudioRecorder.MicGranted;
       AudioRecorder.defaultMimeType := "audio/webm" |} in
  let h := fst (RecorderHook.startRecording chrome RecorderHook.init) in
  RecorderHook.wellFormed h /\
  (let h1 := snd (fst (RecorderHook.stopRecording h)) in
   RecorderHook.stopRecording h1 = (None, h1, [])).
Proof.
  intros chrome h.
  assert (Hwf : RecorderHook.wellFormed h).
  { unfold RecorderHook.wellFormed, AudioRecorder.wellFormed. cbn. discriminate. }
  split.
  - exact Hwf.
  - exact (proj1 (proj2 (stopRecording_idempotent h Hwf))).
Defined.

(** C7 (as stated) fails on the recorder class: stopping a recorder a second
    time in a row, and stopping one that never recorded, both reject with the
    error "not recording". *)
Lemma recorder_stop_twice_rejects :
  let chrome :=
    {| AudioRecorder.hasMediaRecorder := true;
       AudioRecorder.isTypeSupported := fun _ => true;
       AudioRecorder.getUserMedia := AudioRecorder.MicGranted;
       AudioRecorder.defaultMimeType := "audio/webm" |} in
  let r1 := snd (fst (AudioRecorder.start chrome AudioRecorder.new)) in
  let r2 := snd (fst (AudioRecorder.stop r1)) in
  fst (fst (AudioRecorder.stop r1)) <> Rejected "録音中ではありません" /\
  fst (fst (AudioRecorder.stop r2)) = Rejected "録音中ではありません" /\
  fst (fst (AudioRecorder.stop AudioRecorder.new)) = Rejected "録音中ではありません".
Proof.
  cbv zeta. split; [|split].
  - cbn. discriminate.
  - reflexivity.
  - reflexivity.
Qed.

(* ------------------------------------------------------------------ *)
(** ** The reconnection policy of the transcription client *)

Lemma run_app (evs1 evs2 : list Deepgram.Event) (d : Deepgram.t) :
  Deepgram.run (evs1 ++ evs2) d =
    (fst (Deepgram.run evs2 (fst (Deepgram.run evs1 d))),
     snd (Deepgram.run evs1 d) ++ snd (Deepgram.run evs2 (fst (Deepgram.run evs1 d)))).
Proof.
  revert d. induction evs1 as [|e evs1 IH]; intros d.
  - cbn. destruct (Deepgram.run evs2 d). reflexivity.
  - cbn [app Deepgram.run]. destruct (Deepgram.handle e d) as [d1 fx1].
    rewrite IH. destruct (Deepgram.run evs1 d1) as [d2 fx2]. cbn [fst snd].
    destruct (Deepgram.run evs2 d2) as [d3 fx3]. cbn [fst snd].
    rewrite app_assoc. reflexivity.
Qed.

Lemma reconnectDelays_app (a b : list Effect) :
  Deepgram.reconnectDelays (a ++ b) =
    Deepgram.reconnectDelays a ++ Deepgram.reconnectDelays b.
Proof. unfold Deepgram.reconnectDelays. apply flat_map_app. Qed.

Lemma connect_reconnect (token : Result string) (d : Deepgram.t) :
  Deepgram.reconnectDelays (snd (Deepgram.connect token d)) = [] /\
  Deepgram.reconnectAttemptRef (fst (Deepgram.connect token d)) =
    Deepgram.reconnectAttemptRef d /\
  (Deepgram.intentionalCloseRef d = false ->
   Deepgram.intentionalCloseRef (fst (Deepgram.connect token d)) = false).
Proof.
  unfold Deepgram.connect.
  destruct (Deepgram.wsRef d) as [[]|], token; cbn; auto.
Qed.

(** One event of a run in which no connection opens. *)
Lemma handle_backoff (e : Deepgram.Event) (d : Deepgram.t) :
  Deepgram.isOpen e = false ->
  Deepgram.intentionalCloseRef d = false ->
  0 <= Deepgram.reconnectAttemptRef d <= 3 ->
  let d' := fst (Deepgram.handle e d) in
  let k := Deepgram.reconnectAttemptRef d in
  Deepgram.intentionalCloseRef d' = false /\
  (if Deepgram.isAbnormalClose e then
     Deepgram.reconnectAttemptRef d' = Z.min 3 (k + 1) /\
     Deepgram.reconnectDelays (snd (Deepgram.handle e d)) =
       firstn 1 (skipn (Z.to_nat k) [2000; 4000; 8000])
   else
     Deepgram.reconnectAttemptRef d' = k /\
     Deepgram.reconnectDelays (snd (Deepgram.handle e d)) = []).
Proof.
  intros Hopen Hint Hk. cbv zeta.
  destruct e as [|m| |code|token]; try discriminate Hopen; cbn [Deepgram.handle Deepgram.isAbnormalClose fst snd].
  - split; [|split; [|reflexivity]].
    + destruct m as [| |f alts]; cbn; auto.
      destruct alts; cbn; auto. destruct f; [destruct (truthy _)|]; cbn; auto.
    + destruct m as [| |f alts]; cbn; auto.
      destruct alts; cbn; auto. destruct f; [destruct (truthy _)|]; cbn; auto.
  - cbn. auto.
  - unfold Deepgram.onclose. rewrite Hint. cbn [negb andb].
    destruct (code =? 1000) eqn:Hc; cbn [negb fst snd].
    + cbn. auto.
    + destruct (Deepgram.reconnectAttemptRef d <? 3) eqn:Hlt; cbn [fst snd].
      * apply Z.ltb_lt in Hlt.
        assert (Hcases : Deepgram.reconnectAttemptRef d = 0 \/
                         Deepgram.reconnectAttemptRef d = 1 \/
                         Deepgram.reconnectAttemptRef d = 2) by lia.
        cbn [Deepgram.intentionalCloseRef Deepgram.reconnectAttemptRef].
        destruct Hcases as [-> | [-> | ->]]; repeat split; auto.
      * apply Z.ltb_ge in Hlt.
        assert (Hk3 : Deepgram.reconnectAttemptRef d = 3) by lia.
        cbn [Deepgram.intentionalCloseRef Deepgram.reconnectAttemptRef].
        rewrite Hk3. repeat split; auto.
  - destruct (connect_reconnect token d) as (H1 & H2 & H3). auto.
Qed.

Lemma run_backoff (evs : list Deepgram.Event) :
  forall d : Deepgram.t,
    Deepgram.neverOpens evs = true ->
    Deepgram.intentionalCloseRef d = false ->
    0 <= Deepgram.reconnectAttemptRef d <= 3 ->
    let k := Deepgram.reconnectAttemptRef d in
    let n := Deepgram.abnormalCloses evs in
    Deepgram.intentionalCloseRef (fst (Deepgram.run evs d)) = false /\
    Deepgram.reconnectAttemptRef (fst (Deepgram.run evs d)) = Z.min 3 (k + Z.of_nat n) /\
    Deepgram.reconnectDelays (snd (Deepgram.run evs d)) =
      firstn n (skipn (Z.to_nat k) [2000; 4000; 8000]).
Proof.
  induction evs as [|e evs IH]; intros d Hno Hint Hk; cbv zeta.
  - cbn. repeat split; auto. lia.
  - cbn [Deepgram.neverOpens forallb] in Hno. apply andb_prop in Hno.
    destruct Hno as [He Hno]. apply negb_true_iff in He.
    pose proof (handle_backoff e d He Hint Hk) as Hh. cbv zeta in Hh.
    cbn [Deepgram.run]. destruct (Deepgram.handle e d) as [d1 fx1] eqn:Hd1.
    cbn [fst snd] in Hh. destruct Hh as [Hint1 Hh].
    unfold Deepgram.abnormalCloses. cbn [filter].
    destruct (Deepgram.isAbnormalClose e) eqn:Hab; destruct Hh as [Hat Hfx].
    + assert (Hk1 : 0 <= Deepgram.reconnectAttemptRef d1 <= 3) by lia.
      specialize (IH d1 Hno Hint1 Hk1). cbv zeta in IH.
      destruct (Deepgram.run evs d1) as [d2 fx2]. cbn [fst snd] in *.
      destruct IH as (IH1 & IH2 & IH3).
      cbn [length].
      change (length (filter Deepgram.isAbnormalClose evs))
        with (Deepgram.abnormalCloses evs).
      split; [exact IH1|]. split.
      * rewrite IH2, Hat. lia.
      * rewrite reconnectDelays_app, Hfx, IH3, Hat.
        set (n := Deepgram.abnormalCloses evs).
        assert (Hcases : Deepgram.reconnectAttemptRef d = 0 \/
                         Deepgram.reconnectAttemptRef d = 1 \/
                         Deepgram.reconnectAttemptRef d = 2 \/
                         Deepgram.reconnectAttemptRef d = 3) by lia.
        destruct Hcases as [-> | [-> | [-> | ->]]]; cbn; try reflexivity.
        destruct n; reflexivity.
    + assert (Hk1 : 0 <= Deepgram.reconnectAttemptRef d1 <= 3) by lia.
      specialize (IH d1 Hno Hint1 Hk1). cbv zeta in IH.
      destruct (Deepgram.run evs d1) as [d2 fx2]. cbn [fst snd] in *.
      destruct IH as (IH1 & IH2 & IH3).
      change (length (filter Deepgram.isAbnormalClose evs))
        with (Deepgram.abnormalCloses evs).
      split; [exact IH1|]. split.
      * rewrite IH2, Hat. reflexivity.
      * rewrite reconnectDelays_app, Hfx, IH3, Hat. reflexivity.
Qed.

(** C5 (amended): starting from a client whose attempt counter is zero (a
    fresh one, or one whose last connection opened), along any run of socket
    events and reconnection timers in which no connection opens, the reconnection
    delays scheduled are, in order, the first of 2000, 4000, 8000 ms, one per
    abnormal closure (close code other than 1000): never more than three.
    After three of them, the next abnormal closure schedules nothing and
    sets the terminal connection error. *)
Theorem reconnection_backoff :
  forall (d : Deepgram.t) (evs : list Deepgram.Event),
    Deepgram.reconnectAttemptRef d = 0 ->
    Deepgram.intentionalCloseRef d = false ->
    Deepgram.neverOpens evs = true ->
    Deepgram.reconnectDelays (snd (Deepgram.run evs d)) =
      firstn (Deepgram.abnormalCloses evs) [2000; 4000; 8000] /\
    (length (Deepgram.reconnectDelays (snd (Deepgram.run evs d))) <= 3)%nat /\
    (forall code : Z,
       code <> 1000 ->
       (3 <= Deepgram.abnormalCloses evs)%nat ->
       let last := Deepgram.handle (Deepgram.WsClose code) (fst (Deepgram.run evs d)) in
       snd last = [] /\
       Deepgram.error (fst last) =
         Some "Deepgramへの接続が切断されました。再接続に失敗しました。").
Proof.
  intros d evs Hk Hint Hno.
  assert (Hk3 : 0 <= Deepgram.reconnectAttemptRef d <= 3) by lia.
  pose proof (run_backoff evs d Hno Hint Hk3) as H. cbv zeta in H.
  destruct H as (H1 & H2 & H3). rewrite Hk in H2, H3. cbn [Z.to_nat skipn] in H3.
  split; [exact H3|]. split.
  - rewrite H3. rewrite length_firstn. cbn [length]. lia.
  - intros code Hcode Hn. cbv zeta. cbn [Deepgram.handle].
    unfold Deepgram.onclose. rewrite H1. cbn [negb andb].
    apply Z.eqb_neq in Hcode. rewrite Hcode. cbn [negb].
    assert (Ha : Deepgram.reconnectAttemptRef (fst (Deepgram.run evs d)) = 3) by lia.
    rewrite Ha. cbn. split; reflexivity.
Qed.

Lemma reconnection_backoff_witness :
  let evs :=
    [Deepgram.WsClose 1006;
     Deepgram.ReconnectFires (Resolved "token"); Deepgram.WsError; Deepgram.WsClose 1006;
     Deepgram.ReconnectFires (Resolved "token"); Deepgram.WsError; Deepgram.WsClose 1006;
     Deepgram.ReconnectFires (Resolved "token"); Deepgram.WsError] in
  Deepgram.reconnectDelays (snd (Deepgram.run evs Deepgram.init)) = [2000; 4000; 8000] /\
  (let last := Deepgram.handle (Deepgram.WsClose 1006) (fst (Deepgram.run evs Deepgram.init)) in
   snd last = [] /\
   Deepgram.error (fst last) =
     Some "Deepgramへの接続が切断されました。再接続に失敗しました。").
Proof.
  intro evs.
  destruct (reconnection_backoff Deepgram.init evs) as (H1 & _ & H3);
    [reflexivity | reflexivity | reflexivity |].
  split.
  - exact H1.
  - apply H3; [discriminate | cbn; lia].
Defined.

(** C5 (as stated) fails: a connection that opens sets the attempt counter
    back to zero.  The socket of a connected client closes abnormally four
    times in a row, and each time the reconnection opens: four reconnection
    attempts are made, each one 2000 ms after the closure, and no terminal
    error is set; a fifth abnormal closure schedules a fifth attempt. *)
Lemma reconnection_unbounded_when_reopened :
  let evs := Transcription.outages 4 1006 "token" in
  let r := Deepgram.run evs Transcription.connected in
  Deepgram.abnormalCloses evs = 4%nat /\
  Deepgram.reconnectDelays (snd r) = [2000; 2000; 2000; 2000] /\
  Deepgram.reconnectDelays (snd r) <>
    firstn (Deepgram.abnormalCloses evs) [2000; 4000; 8000] /\
  (3 < length (Deepgram.reconnectDelays (snd r)))%nat /\
  Deepgram.error (fst r) = None /\
  Deepgram.isConnected (fst r) = true /\
  snd (Deepgram.handle (Deepgram.WsClose 1006) (fst r)) =
    [ESetTimeout ReconnectTimer 2000].
Proof.
  vm_compute. repeat split; try reflexivity; discriminate.
Qed.

(* ------------------------------------------------------------------ *)
(** ** A program logic for commands

    [wp c I Q s] is proved by running [c] symbolically from [s]: one rule
    per constructor of commands.  [I] is checked at every update, [Q] at the
    end. *)

Section ProgramLogic.
Import Engine.
Variable I : t -> Prop.

Lemma wp_skip (Q : t -> Prop) s : Q s -> wp skip I Q s.
Proof. intros H p Hp. split; assumption. Qed.

Lemma wp_modify f (Q : t -> Prop) s :
  (I s -> I (f s)) -> (I (f s) -> Q (f s)) -> wp (modify f) I Q s.
Proof.
  intros HI HQ p Hp. pose proof (Forall_inv Hp) as Hs.
  split; [exact (HQ (HI Hs)) | constructor; [exact (HI Hs) | exact Hp]].
Qed.

Lemma wp_seq a b Q s : wp a I (wp b I Q) s -> wp (a ;; b) I Q s.
Proof.
  intros H p Hp. destruct (H p Hp) as [Hb Hs]. unfold seq.
  destruct (a {| cur := s; past := p |}) as [s1 p1]. exact (Hb p1 Hs).
Qed.

Lemma wp_read {A : Type} (f : t -> A) k Q s : wp (k (f s)) I Q s -> wp (read f k) I Q s.
Proof. intros H p Hp. exact (H p Hp). Qed.

Lemma wp_conseq c (Q Q' : t -> Prop) s :
  (forall s', Q s' -> Q' s') -> wp c I Q s -> wp c I Q' s.
Proof. intros HQ H p Hp. destruct (H p Hp). split; auto. Qed.

(** An event is its handler followed by the effects. *)
Lemma wp_step e w Q s :
  wp (handler e w) I (wp (effects s w) I Q) s -> wp (step e w) I Q s.
Proof.
  intros H p Hp. destruct (H p Hp) as [Hb Hs]. unfold step. cbn [cur].
  destruct (handler e w {| cur := s; past := p |}) as [s1 p1]. exact (Hb p1 Hs).
Qed.

End ProgramLogic.

Import Engine.

(** Reduces the projections of a state built by updates. *)
Ltac proj :=
  cbn [cur past state refs recorder deepgram log
       phase messages currentTranscript elapsedTime turnCount
       isAISpeaking isUserSpeaking error
       playerRef timerRef startTimeRef silenceTimerRef isEndingRef lastTranscriptRef
       withState withRefs fst snd negb andb orb Phase.eqb
       deadline closure pending c_isRecording c_fullTranscript firstRender].

(** Unfolds the callbacks down to [modify], [read] and [seq]. *)
Ltac wp_unfold :=
  unfold effects, handler, startInterview, endInterview, timerTick, silenceTimeout,
    handleUserFinishedSpeaking, getAIResponse, requestTurn, receiveTurn,
    endInterviewInternal, startListening,
    stopRecording, resetSilenceTimer, speakText, stopTimer, startTimer, transcriptSync,
    propagateError, chunkAvailable, markFired,
    setPhase, setMessages, setCurrentTranscript, setElapsedTime, setTurnCount,
    setIsAISpeaking, setIsUserSpeaking, setError, setPlayerRef, setTimerRef, setStartTimeRef,
    setSilenceTimerRef, setIsEndingRef, setLastTranscriptRef,
    emit, callRecorder, callDeepgram.

(** Rewrites the fields of the state whose value is known. *)
Ltac known :=
  repeat match goal with
         | H : ?f (state ?s) = _ |- context [?f (state ?s)] => rewrite H
         | H : ?f (refs ?s) = _ |- context [?f (refs ?s)] => rewrite H
         end.

(** Case analysis on [b], unless its value is already known. *)
Ltac decide_on b :=
  lazymatch goal with
  | H : b = _ |- _ => rewrite H
  | _ => destruct b eqn:?
  end.

(** Symbolic execution of a command; [inv] proves that the invariant is
    kept by one update, from the hypothesis that it held before. *)
Ltac wp_go inv :=
  repeat (proj; known; proj;
    lazymatch goal with
    | |- wp (seq _ _) _ _ _ => apply wp_seq
    | |- wp (modify _) _ _ _ =>
        apply wp_modify; [ let H := fresh "Hinv" in intro H; proj; inv H
                         | intros _ ]
    | |- wp (read _ _) _ _ _ => apply wp_read
    | |- wp skip _ _ _ => apply wp_skip
    | |- wp (if ?b then _ else _) _ _ _ => decide_on b
    | |- wp (match ?x with _ => _ end) _ _ _ => decide_on x
    | |- wp (let _ := _ in _) _ _ _ => cbv zeta
    | |- wp _ _ _ _ => progress wp_unfold
    end).

(** *** The recorder stays well formed and the hook consistent *)

Lemma startRecording_sound b h :
  RecorderHook.wellFormed (fst (RecorderHook.startRecording b h)) /\
  RecorderHook.consistent (fst (RecorderHook.startRecording b h)).
Proof.
  unfold RecorderHook.startRecording, RecorderHook.wellFormed, RecorderHook.consistent,
    RecorderHook.capturing, AudioRecorder.wellFormed, AudioRecorder.start.
  destruct (RecorderHook.recorderRef h) as [old|], (RecorderHook.chunkCallbackRef h),
    (AudioRecorder.getUserMedia b), (AudioRecorder.hasMediaRecorder b);
    cbn; split; intros; try discriminate; auto.
Qed.

Lemma stopRecording_sound h :
  RecorderHook.wellFormed h ->
  RecorderHook.wellFormed (snd (fst (RecorderHook.stopRecording h))) /\
  RecorderHook.consistent (snd (fst (RecorderHook.stopRecording h))).
Proof.
  intros Hwf. split.
  - apply stopRecording_wellFormed, Hwf.
  - unfold RecorderHook.consistent. rewrite stopRecording_stops by exact Hwf. discriminate.
Qed.

Lemma onChunkAvailable_sound h :
  RecorderHook.wellFormed h -> RecorderHook.consistent h ->
  RecorderHook.wellFormed (RecorderHook.onChunkAvailable h) /\
  RecorderHook.consistent (RecorderHook.onChunkAvailable h).
Proof.
  unfold RecorderHook.wellFormed, RecorderHook.consistent, RecorderHook.capturing,
    RecorderHook.onChunkAvailable, AudioRecorder.wellFormed.
  destruct (RecorderHook.recorderRef h) as [r|]; cbn; auto.
Qed.

Lemma ondataavailable_sound data h :
  RecorderHook.wellFormed h -> RecorderHook.consistent h ->
  RecorderHook.wellFormed
    (withRecorderRef (fun r => fst (AudioRecorder.ondataavailable data r)) h) /\
  RecorderHook.consistent
    (withRecorderRef (fun r => fst (AudioRecorder.ondataavailable data r)) h).
Proof.
  unfold RecorderHook.wellFormed, RecorderHook.consistent, RecorderHook.capturing,
    withRecorderRef, AudioRecorder.wellFormed, AudioRecorder.ondataavailable.
  destruct (RecorderHook.recorderRef h) as [r|]; cbn; auto.
  destruct (0 <? blob_size data); cbn; auto.
Qed.

Lemma onerror_sound h :
  RecorderHook.wellFormed h -> RecorderHook.consistent h ->
  RecorderHook.wellFormed (withRecorderRef AudioRecorder.onerror h) /\
  RecorderHook.consistent (withRecorderRef AudioRecorder.onerror h).
Proof.
  unfold RecorderHook.wellFormed, RecorderHook.consistent, RecorderHook.capturing,
    withRecorderRef, AudioRecorder.wellFormed.
  destruct (RecorderHook.recorderRef h) as [r|]; cbn; auto.
  split; intros; discriminate.
Qed.

(** [Sound] is kept by one update; [H] says that it held before. *)
Ltac sound H :=
  unfold Sound, bothSpeaking in *; proj;
  cbn [cur past state refs recorder deepgram isAISpeaking isUserSpeaking] in H;
  destruct H as (Hf & Hw & Hc);
  repeat match goal with H : _ = _ |- _ => rewrite H end;
  split; [ first [ reflexivity | assumption | apply andb_false_r | idtac ]
         | first [ split; assumption
                 | apply startRecording_sound
                 | apply stopRecording_sound; assumption
                 | apply onChunkAvailable_sound; assumption
                 | apply ondataavailable_sound; assumption
                 | apply onerror_sound; assumption ] ].

(** *** What the sub-hooks emit *)

Lemma calls_app p a b : calls p (a ++ b) = (calls p a + calls p b)%nat.
Proof. unfold calls. rewrite filter_app, length_app. reflexivity. Qed.

Lemma calls_hook p fx :
  (forall e, isHookEffect e = true -> p e = false) ->
  forallb isHookEffect fx = true -> calls p fx = 0%nat.
Proof.
  intros Hp. induction fx as [|e fx IH]; [reflexivity|].
  cbn [forallb]. intros H. apply andb_prop in H. destruct H as [He Hfx].
  unfold calls in *. cbn [filter]. rewrite (Hp e He). auto.
Qed.

Lemma phasesSet_app a b : phasesSet (a ++ b) = phasesSet a ++ phasesSet b.
Proof. unfold phasesSet. apply flat_map_app. Qed.

Lemma phasesSet_hook fx : forallb isHookEffect fx = true -> phasesSet fx = [].
Proof.
  induction fx as [|e fx IH]; [reflexivity|].
  cbn [forallb]. intros H. apply andb_prop in H. destruct H as [He Hfx].
  destruct e; try discriminate He; cbn; auto.
Qed.

Lemma hook_connect tok d : forallb isHookEffect (snd (Deepgram.connect tok d)) = true.
Proof. unfold Deepgram.connect. destruct (Deepgram.wsRef d) as [[]|], tok; reflexivity. Qed.

Lemma hook_disconnect d : forallb isHookEffect (snd (Deepgram.disconnect d)) = true.
Proof. unfold Deepgram.disconnect. destruct (Deepgram.wsRef d) as [[]|]; reflexivity. Qed.

Lemma hook_handle ev d : forallb isHookEffect (snd (Deepgram.handle ev d)) = true.
Proof.
  destruct ev; cbn [Deepgram.handle snd]; try reflexivity.
  - unfold Deepgram.onclose.
    destruct (negb (Deepgram.intentionalCloseRef d) && negb (code =? 1000));
      [destruct (Deepgram.reconnectAttemptRef d <? 3)|]; reflexivity.
  - apply hook_connect.
Qed.

Lemma hook_sendAudio data d : forallb isHookEffect (Deepgram.sendAudio data d) = true.
Proof. unfold Deepgram.sendAudio. destruct (Deepgram.wsRef d) as [[]|]; reflexivity. Qed.

Lemma hook_startRecording b h :
  forallb isHookEffect (snd (RecorderHook.startRecording b h)) = true.
Proof.
  unfold RecorderHook.startRecording, AudioRecorder.start, AudioRecorder.destroy.
  destruct (RecorderHook.recorderRef h) as [old|]; cbn.
  - destruct (AudioRecorder.mediaRecorder old), (AudioRecorder.recording old),
      (AudioRecorder.stream old), (RecorderHook.chunkCallbackRef h),
      (AudioRecorder.getUserMedia b), (AudioRecorder.hasMediaRecorder b); reflexivity.
  - destruct (RecorderHook.chunkCallbackRef h), (AudioRecorder.getUserMedia b),
      (AudioRecorder.hasMediaRecorder b); reflexivity.
Qed.

Lemma hook_stopRecording h :
  forallb isHookEffect (snd (RecorderHook.stopRecording h)) = true.
Proof.
  unfold RecorderHook.stopRecording, AudioRecorder.stop, AudioRecorder.isRecording.
  destruct (RecorderHook.recorderRef h) as [r|]; [|reflexivity].
  destruct (AudioRecorder.recording r); [|reflexivity].
  destruct (AudioRecorder.mediaRecorder r); reflexivity.
Qed.

(** The effects of an operation of a sub-hook are effects of sub-hooks. *)
Ltac hook :=
  first [ apply hook_connect | apply hook_disconnect | apply hook_handle
        | apply hook_sendAudio | apply hook_startRecording | apply hook_stopRecording
        | reflexivity ].

(** A predicate on effects that holds of no effect of the sub-hooks. *)
Ltac blind :=
  let e := fresh "e" in
  intros e; destruct e as [[]| | | | |[]| | | | | | | | | |]; intros;
  (reflexivity || discriminate).

(** Counts the calls of a log built by appending. *)
Ltac count :=
  repeat rewrite calls_app;
  repeat match goal with
         | |- context [calls ?p (snd ?x)] => rewrite (calls_hook p (snd x)) by (blind || hook)
         | |- context [calls ?p (Deepgram.sendAudio ?a ?b)] =>
             rewrite (calls_hook p (Deepgram.sendAudio a b)) by (blind || hook)
         end;
  cbn [calls filter length isChat isTts isScore isPlayerStop isClearInterval isStart Nat.add].

(** *** The invariant between events *)

(** [Quiescent] holds of the state a path of the symbolic execution ends
    in. *)
Ltac fin :=
  unfold Quiescent; proj; known; proj; count;
  repeat match goal with H : calls _ _ = _ |- _ => rewrite H end;
  repeat split; intros; try reflexivity; try discriminate; try assumption; try lia.

(** The cases of [Quiescent s]: the phase, [isUserSpeaking] and
    [isEndingRef] of [s], the impossible ones removed. *)
Ltac quiescent_cases s :=
  let HQ := fresh "HQ" in
  intros HQ; unfold Quiescent in HQ; revert HQ;
  destruct (phase (state s)) eqn:HP;
  destruct (isUserSpeaking (state s)) eqn:HU;
  destruct (isEndingRef (refs s)) eqn:HE;
  intros (H1 & H2 & H3 & H4 & H5 & H6);
  try (destruct (H2 eq_refl); discriminate);
  try (destruct (H3 eq_refl); discriminate);
  clear H2;
  try (destruct (H3 eq_refl) as [_ HT]); clear H3.

Lemma handler_quiescent e w s :
  Quiescent s -> wp (handler e w) Sound Quiescent s.
Proof.
  quiescent_cases s.
  all: destruct e.
  all: wp_go sound.
  all: fin.
Qed.

Lemma effects_quiescent pre w s :
  Quiescent s -> wp (effects pre w) Sound Quiescent s.
Proof.
  quiescent_cases s.
  all: wp_go sound.
  all: fin.
Qed.

Lemma step_quiescent e w s :
  Quiescent s -> wp (step e w) Sound Quiescent s.
Proof.
  intros HQ. apply wp_step.
  eapply wp_conseq; [|apply handler_quiescent; exact HQ].
  intros s' Hs'. apply effects_quiescent. exact Hs'.
Qed.

(** Every reachable run is quiescent now and was sound in every state it
    went through. *)
Lemma reachable_quiescent r :
  reachable r -> Quiescent (cur r) /\ Forall Sound (states r).
Proof.
  induction 1 as [|e w r Hr [HQ HS]].
  - split.
    + unfold Quiescent. cbn. repeat split; auto; intros; discriminate.
    + repeat constructor; cbn; try discriminate.
  - destruct r as [s p]. exact (step_quiescent e w s HQ p HS).
Qed.

(* ------------------------------------------------------------------ *)
(** ** The speaking flags *)


Lemma reachable_started : reachable Scenario.started.
Proof. unfold Scenario.started. apply reachable_step, reachable_start. Qed.

Lemma reachable_listening : reachable Scenario.listening.
Proof. unfold Scenario.listening. apply reachable_step, reachable_started. Qed.

Lemma reachable_heard : reachable Scenario.heard.
Proof. unfold Scenario.heard. apply reachable_step, reachable_listening. Qed.

Lemma reachable_stopped : reachable Scenario.stopped.
Proof. unfold Scenario.stopped. apply reachable_step, reachable_heard. Qed.


(* ------------------------------------------------------------------ *)
(** ** Ending the session *)

(** No invariant on the intermediate states. *)
Ltac trivial_inv H := exact I.

(** Once the end routine has run, the session stays completed and the turn
    generator is not called any more. *)
Lemma step_ended e w s :
  isEndingRef (refs s) = true ->
  phase (state s) = Phase.completed ->
  timerRef (refs s) = false ->
  wp (step e w) (fun _ => True)
     (fun s' => isEndingRef (refs s') = true /\
                phase (state s') = Phase.completed /\
                timerRef (refs s') = false /\
                calls isChat (log s') = calls isChat (log s)) s.
Proof.
  intros HE HP HT. apply wp_step. destruct e.
  all: wp_go trivial_inv.
  all: proj; known; count; repeat split; try reflexivity; lia.
Qed.

Lemma exec_ended evs :
  forall r : Run,
    isEndingRef (refs (cur r)) = true ->
    phase (state (cur r)) = Phase.completed ->
    timerRef (refs (cur r)) = false ->
    phase (state (cur (exec evs r))) = Phase.completed /\
    calls isChat (log (cur (exec evs r))) = calls isChat (log (cur r)).
Proof.
  induction evs as [|[e w] evs IH]; intros r HE HP HT.
  - split; [exact HP | reflexivity].
  - cbn [exec]. destruct r as [s p]. cbn [cur] in *.
    assert (Hp : Forall (fun _ : t => True) (s :: p)) by (apply Forall_forall; auto).
    destruct (step_ended e w s HE HP HT p Hp) as [(HE' & HP' & HT' & Hc) _].
    destruct (IH _ HE' HP' HT') as [IH1 IH2].
    split; [exact IH1 | congruence].
Qed.

Lemma optEqb_refl (a : option string) : optEqb a a = true.
Proof. destruct a; cbn; [apply String.eqb_refl | reflexivity]. Qed.

(** The effects do nothing when no dependency changed. *)
Lemma effects_unchanged (w : World) (r : Run) : effects (cur r) w r = r.
Proof.
  unfold effects, read, seq.
  rewrite !String.eqb_refl, Bool.eqb_reflx, !optEqb_refl. reflexivity.
Qed.

(** C10: between two events of any run, once [isEndingRef] is set every end
    request returns at its guard and changes nothing (the end routine called
    with any closure, the stop button, the tick of the deadline), the flag
    stays set through every later event, and the log holds at most one
    scoring call, one stop of the player and one stop of the interval
    timer. *)
Theorem end_is_idempotent :
  forall r : Run, reachable r ->
    (isEndingRef (refs (cur r)) = true ->
     (forall (isRecording : bool) (w : World), endInterviewInternal isRecording w r = r) /\
     (forall w : World, handler EndInterview w r = r) /\
     (forall w : World, step EndInterview w r = r) /\
     (forall w : World, step TimerTick w r = r) /\
     (forall (e : Event) (w : World), isEndingRef (refs (cur (step e w r))) = true)) /\
    (calls isScore (log (cur r)) <= 1)%nat /\
    (calls isPlayerStop (log (cur r)) <= 1)%nat /\
    (calls isClearInterval (log (cur r)) <= 1)%nat.
Proof.
  intros r Hr. destruct (reachable_quiescent r Hr) as [HQ _].
  destruct HQ as (H1 & H2 & H3 & H4 & H5 & H6).
  split; [|destruct (isEndingRef (refs (cur r))); repeat split; lia].
  intros HE. destruct (H3 HE) as [HP HT].
  assert (Hend : forall b w, endInterviewInternal b w r = r).
  { intros b w. unfold endInterviewInternal, read. rewrite HE. reflexivity. }
  repeat split.
  - exact Hend.
  - intros w. cbn [handler]. unfold endInterview. apply Hend.
  - intros w. unfold step. cbn [handler]. unfold endInterview. rewrite Hend.
    apply effects_unchanged.
  - intros w. unfold step. cbn [handler]. unfold read. rewrite HT.
    apply effects_unchanged.
  - intros e w. destruct r as [s p]. cbn [cur] in *.
    assert (Hp : Forall (fun _ : t => True) (s :: p)) by (apply Forall_forall; auto).
    exact (proj1 (proj1 (step_ended e w s HE HP HT p Hp))).
Qed.

Lemma end_is_idempotent_witness :
  isEndingRef (refs (cur Scenario.stopped)) = true /\
  step EndInterview (Scenario.world 4500 0 firstRender) Scenario.stopped = Scenario.stopped /\
  (calls isScore (log (cur Scenario.stopped)) <= 1)%nat.
Proof.
  assert (HE : isEndingRef (refs (cur Scenario.stopped)) = true)
    by (vm_compute; reflexivity).
  destruct (end_is_idempotent Scenario.stopped reachable_stopped) as (H & Hs & _).
  destruct (H HE) as (_ & _ & Hstop & _).
  split; [exact HE | split; [apply Hstop | exact Hs]].
Defined.

(* ------------------------------------------------------------------ *)
(** ** The deadline *)

(** Splits a log built by appending into the old log and what was added. *)
Ltac added :=
  proj; rewrite <- ?app_assoc; eexists; split; [reflexivity|].

Ltac phases :=
  repeat rewrite phasesSet_app;
  repeat match goal with
         | |- context [phasesSet (snd ?x)] => rewrite (phasesSet_hook (snd x)) by hook
         end;
  cbn [phasesSet flat_map app].

Lemma tick_deadline (w : World) (s : t) :
  timerRef (refs s) = true ->
  isEndingRef (refs s) = false ->
  (MAX_INTERVIEW_DURATION_MS <=? now w - startTimeRef (refs s)) = true ->
  wp (step TimerTick w) (fun _ => True)
     (fun s' => (exists fx, log s' = log s ++ fx /\
                   phasesSet fx = [Phase.processing; Phase.completed] /\
                   calls isChat fx = 0%nat) /\
                phase (state s') = Phase.completed /\
                isEndingRef (refs s') = true /\
                timerRef (refs s') = false) s.
Proof.
  intros HT HE Hmax. apply wp_step.
  wp_go trivial_inv.
  all: proj; known; proj; (split; [added; split; [phases; reflexivity | count; reflexivity] | ]);
    repeat split; reflexivity.
Qed.

Lemma emitted_added (c : Cmd) (r : Run) (fx : list Effect) :
  log (cur (c r)) = log (cur r) ++ fx -> emitted c r = fx.
Proof.
  intros H. unfold emitted. rewrite H. rewrite skipn_app, skipn_all, Nat.sub_diag. reflexivity.
Qed.

(** The deadline in a run whose events were handled one at a time: between
    two events of such a run, when the interval timer ticks in the
    interviewing phase with at least 300000 ms elapsed, the phases set by
    the tick are processing and then completed (never error), the tick makes
    no call to the turn generator, it leaves the session completed, and
    whatever events follow, the session stays completed and the turn
    generator is not called again. *)
Lemma deadline_completes :
  forall (r : Run) (w : World),
    reachable r ->
    timerRef (refs (cur r)) = true ->
    phase (state (cur r)) = Phase.interviewing ->
    MAX_INTERVIEW_DURATION_MS <= now w - startTimeRef (refs (cur r)) ->
    phasesSet (emitted (step TimerTick w) r) = [Phase.processing; Phase.completed] /\
    calls isChat (emitted (step TimerTick w) r) = 0%nat /\
    phase (state (cur (step TimerTick w r))) = Phase.completed /\
    (forall evs : list (Event * World),
       phase (state (cur (exec evs (step TimerTick w r)))) = Phase.completed /\
       calls isChat (log (cur (exec evs (step TimerTick w r)))) =
         calls isChat (log (cur r))).
Proof.
  intros r w Hr HT HP Hmax.
  destruct (reachable_quiescent r Hr) as [(_ & _ & H3 & _) _].
  assert (HE : isEndingRef (refs (cur r)) = false).
  { destruct (isEndingRef (refs (cur r))); [|reflexivity].
    destruct (H3 eq_refl) as [_ H]. congruence. }
  apply Z.leb_le in Hmax.
  destruct r as [s p]. cbn [cur] in *.
  assert (Hp : Forall (fun _ : t => True) (s :: p)) by (apply Forall_forall; auto).
  destruct (tick_deadline w s HT HE Hmax p Hp) as [((fx & Hlog & Hph & Hch) & HP' & HE' & HT') _].
  rewrite (emitted_added _ _ fx Hlog).
  split; [exact Hph|]. split; [exact Hch|]. split; [exact HP'|].
  intros evs. destruct (exec_ended evs _ HE' HP' HT') as [H1 H2].
  split; [exact H1|]. rewrite H2, Hlog, calls_app, Hch. cbn [cur]. lia.
Qed.

Lemma deadline_completes_witness :
  phasesSet (emitted (step TimerTick (Scenario.world 300000 0 firstRender)) Scenario.listening)
    = [Phase.processing; Phase.completed] /\
  phase (state (cur (step TimerTick (Scenario.world 300000 0 firstRender) Scenario.listening)))
    = Phase.completed.
Proof.
  assert (HT : timerRef (refs (cur Scenario.listening)) = true) by (vm_compute; reflexivity).
  assert (HP : phase (state (cur Scenario.listening)) = Phase.interviewing)
    by (vm_compute; reflexivity).
  assert (Hmax : MAX_INTERVIEW_DURATION_MS
                 <= now (Scenario.world 300000 0 firstRender)
                    - startTimeRef (refs (cur Scenario.listening))).
  { apply Z.leb_le. vm_compute. reflexivity. }
  destruct (deadline_completes Scenario.listening (Scenario.world 300000 0 firstRender)
              reachable_listening HT HP Hmax) as (H1 & _ & H3 & _).
  split; [exact H1 | exact H3].
Defined.

(** C3 (violated by the code): the stop button is pressed while
    [getAIResponse] waits for the turn generator, and the generator answers
    afterwards.  [getAIResponse] checks nothing after its [await]: it sets
    the phase back to interviewing and opens a listening window, while the
    interval timer stays cleared and [isEndingRef] stays set.  When 300 s
    have elapsed, in the interviewing phase, nothing happens: no interval is
    left to tick, and the interval callback, were it called, would return at
    the guard of the end routine, setting no phase.  The next turn of the
    respondent, at 301 s, is sent to the turn generator, and the session is
    interviewing after it. *)
Theorem deadline_missed_after_late_answer :
  phase (state (cur Episode.resumed)) = Phase.interviewing /\
  timerRef (refs (cur Episode.resumed)) = false /\
  isEndingRef (refs (cur Episode.resumed)) = true /\
  MAX_INTERVIEW_DURATION_MS
    <= now Episode.overBudget - startTimeRef (refs (cur Episode.resumed)) /\
  step TimerTick Episode.overBudget Episode.resumed = Episode.resumed /\
  emitted (timerTick Episode.overBudget) Episode.resumed = [] /\
  phase (state (cur (timerTick Episode.overBudget Episode.resumed))) = Phase.interviewing /\
  calls isChat (log (cur Episode.resumed)) = 1%nat /\
  calls isChat (log (cur Episode.stillTalking)) = 2%nat /\
  phasesSet (emitted (exec [(TimerTick, Episode.overBudget);
                            (SilenceTimeout, Scenario.world 301000 1500 firstRender)])
               Episode.resumed)
    = [Phase.processing; Phase.interviewing] /\
  phase (state (cur Episode.stillTalking)) = Phase.interviewing.
Proof.
  vm_compute. repeat split; try reflexivity. intros H. discriminate H.
Qed.

(* ------------------------------------------------------------------ *)
(** ** The stop request *)

Lemma stopRecording_effects (h : RecorderHook.t) :
  RecorderHook.wellFormed h ->
  snd (RecorderHook.stopRecording h) =
    if RecorderHook.capturing h then [EMediaStop] else [].
Proof.
  unfold RecorderHook.stopRecording, RecorderHook.wellFormed, RecorderHook.capturing,
    AudioRecorder.wellFormed, AudioRecorder.stop, AudioRecorder.isRecording.
  destruct (RecorderHook.recorderRef h) as [r|]; [|reflexivity].
  intros Hwf. destruct (AudioRecorder.recording r); [|reflexivity].
  destruct (AudioRecorder.mediaRecorder r); [reflexivity|].
  exfalso. apply Hwf; reflexivity.
Qed.

(** What the teardown of the end routine emits, in order: the capture
    pipeline, the transcription client, the playback queue, the silence
    timer. *)
Lemma endInterview_teardown (w : World) (s : t) :
  isEndingRef (refs s) = false ->
  RecorderHook.wellFormed (recorder s) ->
  RecorderHook.consistent (recorder s) ->
  c_isRecording (captured w) = RecorderHook.isRecording (recorder s) ->
  wp (endInterview w) (fun _ => True)
     (fun s' =>
        log s' = log s
          ++ [ESetPhase Phase.processing]
          ++ (if timerRef (refs s) then [EClearInterval] else [])
          ++ (if RecorderHook.capturing (recorder s) then [EMediaStop] else [])
          ++ snd (Deepgram.disconnect (deepgram s))
          ++ (if playerRef (refs s) then [EPlayerStop] else [])
          ++ (match silenceTimerRef (refs s) with
              | Some _ => [EClearTimeout SilenceTimer]
              | None => []
              end)
          ++ [EFetch ApiScore; ESetPhase Phase.completed] /\
        phase (state s') = Phase.completed /\
        RecorderHook.capturing (recorder s') = false /\
        Deepgram.wsRef (deepgram s') = None /\
        Deepgram.isConnected (deepgram s') = false /\
        silenceTimerRef (refs s') = None /\
        timerRef (refs s') = false) s.
Proof.
  intros HE Hwf Hcons Hfresh.
  assert (Hcap : RecorderHook.isRecording (recorder s) = false ->
                 RecorderHook.capturing (recorder s) = false).
  { intros Hrec. destruct (RecorderHook.capturing (recorder s)) eqn:Hc; [|reflexivity].
    rewrite (Hcons Hc) in Hrec. discriminate Hrec. }
  unfold endInterview. rewrite Hfresh.
  destruct (RecorderHook.isRecording (recorder s)) eqn:Hrec.
  - wp_go trivial_inv.
    all: proj; known; rewrite (stopRecording_effects _ Hwf), (stopRecording_stops _ Hwf);
      rewrite <- ?app_assoc; cbn [app]; repeat split; reflexivity.
  - specialize (Hcap eq_refl).
    wp_go trivial_inv.
    all: proj; known; rewrite Hcap; rewrite <- ?app_assoc; cbn [app]; repeat split; reflexivity.
Qed.

(** The end routine when it passes its guard: a stop request in a state in
    which no end routine has begun, the button holding the callback of the
    current render, emits exactly: processing, the stop of the interval
    timer, the stop of the capture pipeline, the disconnection of the
    transcription client (the close message and the close of an open socket,
    the close of a socket in another state), the stop of the playback queue,
    the cancellation of the silence timer, the scoring call, completed.
    After it the hook does not capture, the client holds no socket and no
    silence timer is held. *)
Lemma stop_tears_down_in_order :
  forall (r : Run) (w : World),
    Phase.terminal (phase (state (cur r))) = false ->
    isEndingRef (refs (cur r)) = false ->
    RecorderHook.wellFormed (recorder (cur r)) ->
    RecorderHook.consistent (recorder (cur r)) ->
    c_isRecording (captured w) = RecorderHook.isRecording (recorder (cur r)) ->
    emitted (handler EndInterview w) r =
      [ESetPhase Phase.processing]
      ++ (if timerRef (refs (cur r)) then [EClearInterval] else [])
      ++ (if RecorderHook.capturing (recorder (cur r)) then [EMediaStop] else [])
      ++ (match Deepgram.wsRef (deepgram (cur r)) with
          | Some Deepgram.OPEN => [EWsSendCloseStream; EWsClose (Some 1000)]
          | Some _ => [EWsClose (Some 1000)]
          | None => []
          end)
      ++ (if playerRef (refs (cur r)) then [EPlayerStop] else [])
      ++ (match silenceTimerRef (refs (cur r)) with
          | Some _ => [EClearTimeout SilenceTimer]
          | None => []
          end)
      ++ [EFetch ApiScore; ESetPhase Phase.completed] /\
    phasesSet (emitted (handler EndInterview w) r) = [Phase.processing; Phase.completed] /\
    phase (state (cur (handler EndInterview w r))) = Phase.completed /\
    RecorderHook.capturing (recorder (cur (handler EndInterview w r))) = false /\
    Deepgram.wsRef (deepgram (cur (handler EndInterview w r))) = None /\
    Deepgram.isConnected (deepgram (cur (handler EndInterview w r))) = false /\
    silenceTimerRef (refs (cur (handler EndInterview w r))) = None.
Proof.
  intros r w _ HE Hwf Hcons Hfresh.
  destruct r as [s p]. cbn [cur handler] in *.
  assert (Hp : Forall (fun _ : t => True) (s :: p)) by (apply Forall_forall; auto).
  destruct (endInterview_teardown w s HE Hwf Hcons Hfresh p Hp)
    as [(Hlog & HP & Hcap & Hws & Hconn & Htm & _) _].
  rewrite (emitted_added _ _ _ Hlog).
  repeat split; try assumption.
  phases.
  destruct (timerRef (refs s)), (RecorderHook.capturing (recorder s)), (playerRef (refs s)),
    (silenceTimerRef (refs s)); reflexivity.
Qed.

Lemma stop_tears_down_in_order_witness :
  phase (state (cur Scenario.awaitingGenerator)) = Phase.processing /\
  phasesSet (emitted (handler EndInterview (Scenario.world 5500 0 firstRender))
               Scenario.awaitingGenerator)
    = [Phase.processing; Phase.completed] /\
  phase (state (cur (handler EndInterview (Scenario.world 5500 0 firstRender)
                       Scenario.awaitingGenerator))) = Phase.completed.
Proof.
  assert (HP : phase (state (cur Scenario.awaitingGenerator)) = Phase.processing)
    by (vm_compute; reflexivity).
  assert (HT : Phase.terminal (phase (state (cur Scenario.awaitingGenerator))) = false)
    by (vm_compute; reflexivity).
  assert (HE : isEndingRef (refs (cur Scenario.awaitingGenerator)) = false)
    by (vm_compute; reflexivity).
  assert (Hwf : RecorderHook.wellFormed (recorder (cur Scenario.awaitingGenerator))).
  { vm_compute. intros H. discriminate H. }
  assert (Hcons : RecorderHook.consistent (recorder (cur Scenario.awaitingGenerator))).
  { vm_compute. intros H. exact H. }
  assert (Hfresh : c_isRecording (captured (Scenario.world 5500 0 firstRender))
                   = RecorderHook.isRecording (recorder (cur Scenario.awaitingGenerator)))
    by (vm_compute; reflexivity).
  destruct (stop_tears_down_in_order Scenario.awaitingGenerator
              (Scenario.world 5500 0 firstRender) HT HE Hwf Hcons Hfresh)
    as (_ & H2 & H3 & _).
  split; [exact HP | split; [exact H2 | exact H3]].
Defined.

(** [Scenario.awaitingGenerator] is the silence timeout of 5 s stopped at
    the [await] of [getAIResponse]: when the generator answers at once, the
    rest of the callback and the effects give the run in which the timeout
    is handled in one piece. *)
Lemma awaitingGenerator_is_midway :
  let w := Scenario.world 5000 1500 firstRender in
  effects (cur Scenario.heard) w (receiveTurn w Scenario.awaitingGenerator) =
    step SilenceTimeout w Scenario.heard.
Proof. vm_compute. reflexivity. Qed.

(** The end routine does not cancel a turn that waits for the turn
    generator.  When the stop button is pressed in the middle of
    [processing], the session is completed; when the generator then answers,
    the rest of [getAIResponse] sets the phase back to interviewing, speaks,
    and opens a listening window: the microphone records again. *)
Lemma pending_turn_survives_stop :
  phase (state (cur Scenario.stoppedWhileAwaiting)) = Phase.completed /\
  isEndingRef (refs (cur Scenario.stoppedWhileAwaiting)) = true /\
  phase (state (cur Scenario.answeredAfterStop)) = Phase.interviewing /\
  isUserSpeaking (state (cur Scenario.answeredAfterStop)) = true /\
  RecorderHook.capturing (recorder (cur Scenario.answeredAfterStop)) = true.
Proof. vm_compute. repeat split; reflexivity. Qed.

(** C4 (violated by the code): the stop button is pressed in the middle of
    [processing], while [getAIResponse] waits for the turn generator.  The
    end routine stops the interval timer and the playback queue, clears the
    silence timer (the recorder and the socket were stopped when the turn
    ended), calls the scoring route and sets completed.  It does not cancel
    the waiting turn, and [getAIResponse] checks nothing after its [await]:
    when the generator answers, the phase is set back to interviewing, the
    answer is spoken, and a new socket, a new recording and a new silence
    timeout are started.  The session is left in a non-terminal phase with
    the microphone recording, and a second stop request returns at the guard
    of the end routine: it emits nothing and changes nothing.

    When no turn is waiting (the stop button is pressed while the respondent
    speaks) the capture pipeline, the transcription client, the playback
    queue and the silence timer are torn down in that order, before
    completed is set. *)
Theorem stop_does_not_cancel_pending_turn :
  let stop := handler EndInterview (Scenario.world 5500 0 firstRender) in
  let answer := receiveTurn (Scenario.world 7000 1500 firstRender) in
  let again := Scenario.world 9000 0 (Scenario.whileRecording "") in
  phase (state (cur Scenario.awaitingGenerator)) = Phase.processing /\
  emitted stop Scenario.awaitingGenerator =
    [ESetPhase Phase.processing; EClearInterval; EPlayerStop;
     EClearTimeout SilenceTimer; EFetch ApiScore; ESetPhase Phase.completed] /\
  phase (state (cur Scenario.stoppedWhileAwaiting)) = Phase.completed /\
  emitted answer Scenario.stoppedWhileAwaiting =
    [ESetPhase Phase.interviewing; EFetch (ApiTts "Why?"); EPlayerPlay;
     EFetch ApiSttToken; EWsNew "token"; ETrackStop; EMediaStart 250;
     ESetTimeout SilenceTimer 2000] /\
  phase (state (cur Scenario.answeredAfterStop)) = Phase.interviewing /\
  Phase.terminal (phase (state (cur Scenario.answeredAfterStop))) = false /\
  isUserSpeaking (state (cur Scenario.answeredAfterStop)) = true /\
  RecorderHook.capturing (recorder (cur Scenario.answeredAfterStop)) = true /\
  Deepgram.wsRef (deepgram (cur Scenario.answeredAfterStop)) = Some Deepgram.CONNECTING /\
  Dialogue.armed (cur Scenario.answeredAfterStop) = true /\
  isEndingRef (refs (cur Scenario.answeredAfterStop)) = true /\
  emitted (step EndInterview again) Scenario.answeredAfterStop = [] /\
  handler EndInterview again Scenario.answeredAfterStop = Scenario.answeredAfterStop /\
  emitted (step EndInterview (Scenario.world 4000 0 (Scenario.whileRecording "")))
    Scenario.heard =
    [ESetPhase Phase.processing; EClearInterval; EMediaStop;
     EWsSendCloseStream; EWsClose (Some 1000); EPlayerStop;
     EClearTimeout SilenceTimer; EFetch ApiScore; ESetPhase Phase.completed].
Proof. vm_compute. repeat split; reflexivity. Qed.

(* ------------------------------------------------------------------ *)
(** ** Failing collaborators *)






(* ------------------------------------------------------------------ *)
(** ** The text of a turn *)

(** The orchestrator never clears the finalized text of the client: no
    event shortens [fullTranscriptRef]. *)
Lemma step_keeps_finalized (e : Event) (w : World) (s : t) :
  wp (step e w) (fun _ => True)
     (fun s' => exists suffix,
        Deepgram.fullTranscriptRef (deepgram s') =
          (Deepgram.fullTranscriptRef (deepgram s) ++ suffix)%string) s.
Proof.
  assert (Hnil : forall x : string, x = (x ++ "")%string).
  { induction x as [|c x IH]; cbn; [reflexivity | f_equal; exact IH]. }
  assert (Hconn : forall tok d,
            Deepgram.fullTranscriptRef (fst (Deepgram.connect tok d)) =
            Deepgram.fullTranscriptRef d).
  { intros tok d. unfold Deepgram.connect.
    destruct (Deepgram.wsRef d) as [[]|], tok; reflexivity. }
  apply wp_step. destruct e.
  all: wp_go trivial_inv.
  all: proj; cbn [Deepgram.disconnect Deepgram.fullTranscriptRef fst];
    rewrite ?Hconn; cbn [Deepgram.disconnect Deepgram.fullTranscriptRef fst].
  all: try (exists ""; apply Hnil).
  all: destruct e as [|m| |code|tok]; cbn [Deepgram.handle fst].
  all: try (exists ""; apply Hnil).
  all: try (rewrite Hconn; exists ""; apply Hnil).
  all: try (unfold Deepgram.onclose;
            destruct (negb (Deepgram.intentionalCloseRef (deepgram s)) && negb (code =? 1000));
            [destruct (Deepgram.reconnectAttemptRef (deepgram s) <? 3)|];
            exists ""; apply Hnil).
  all: destruct m as [| |is_final alts]; cbn [Deepgram.onmessage]; try (exists ""; apply Hnil).
  all: destruct alts as [|text alts]; try (exists ""; apply Hnil).
  all: destruct is_final; [destruct (truthy (trim text))|]; cbn;
    first [ exists ""; apply Hnil | exists text; reflexivity ].
Qed.

(** C2 (violated by the code): the respondent says "hello" in the first
    listening window and "world" in the second.  The orchestrator never
    calls [reset], so the client still holds "hello" when the second window
    opens and has accumulated "helloworld" at its end.  The utterance
    finalized for the second turn is "hello" when the callback reads the
    finalized text of the render in which the second window opened, and
    "helloworld" when it falls back on the last combined text: either way
    it includes the finalized text of the first turn. *)
Theorem second_turn_repeats_first :
  respondentUtterances (cur Scenario.answered) = ["hello"] /\
  Deepgram.fullTranscript (deepgram (cur Scenario.listeningAgain)) = "hello" /\
  Deepgram.fullTranscript (deepgram (cur (Scenario.heardAgain "hello"))) = "helloworld" /\
  respondentUtterances (cur (Scenario.answeredAgain "hello")) = ["hello"; "hello"] /\
  respondentUtterances (cur (Scenario.answeredAgain "")) = ["hello"; "helloworld"].
Proof. vm_compute. repeat split; reflexivity. Qed.

(* ------------------------------------------------------------------ *)
(** ** The silence timer *)

(** No event brings the silence timeout forward: a timeout that is pending
    after an event handled at [now w] or later is due 2 s after that time at
    the earliest. *)
Lemma step_timerNotBefore (bound : Z) (e : Event) (w : World) (s : t) :
  timerNotBefore bound s ->
  bound <= now w + SILENCE_THRESHOLD_MS ->
  bound <= listenAt w + SILENCE_THRESHOLD_MS ->
  wp (step e w) (fun _ => True) (timerNotBefore bound) s.
Proof.
  unfold timerNotBefore. intros Htm Hnow Hlisten.
  apply wp_step. destruct (silenceTimerRef (refs s)) as [tm|] eqn:Href.
  all: destruct e.
  all: wp_go trivial_inv.
  all: proj; known; proj; first [ exact I | assumption | intros; discriminate | intros; assumption ].
Qed.

Lemma exec_timerNotBefore (bound : Z) (evs : list (Event * World)) :
  forall r : Run,
    timerNotBefore bound (cur r) ->
    Forall (fun ew => bound <= now (snd ew) + SILENCE_THRESHOLD_MS /\
                      bound <= listenAt (snd ew) + SILENCE_THRESHOLD_MS) evs ->
    timerNotBefore bound (cur (exec evs r)).
Proof.
  induction evs as [|[e w] evs IH]; intros r Hr Hevs.
  - exact Hr.
  - cbn [exec]. apply IH.
    + destruct r as [s p]. cbn [cur] in *.
      assert (Hp : Forall (fun _ : t => True) (s :: p)) by (apply Forall_forall; auto).
      apply Forall_inv in Hevs. cbn [snd] in Hevs.
      exact (proj1 (step_timerNotBefore bound e w s Hr (proj1 Hevs) (proj2 Hevs) p Hp)).
    + exact (Forall_inv_tail Hevs).
Qed.

(** What a message of the socket does to the silence timer. *)
Lemma message_timer (m : Deepgram.Message) (w : World) (s : t) :
  wp (step (Socket (Deepgram.WsMessage m)) w) (fun _ => True)
     (fun s' =>
        silenceTimerRef (refs s') =
          if rearms m s
          then Some {| deadline := now w + SILENCE_THRESHOLD_MS;
                       closure := {| c_isRecording := RecorderHook.isRecording (recorder s);
                                     c_fullTranscript := c_fullTranscript (captured w) |};
                       pending := true |}
          else silenceTimerRef (refs s)) s.
Proof.
  apply wp_step. cbn [handler]. unfold callDeepgram.
  apply wp_modify; [intros _; exact I | intros _].
  unfold effects. apply wp_read. proj. cbn [Deepgram.handle fst].
  unfold rearms. cbv zeta. rewrite Bool.eqb_reflx, andb_true_r.
  unfold transcriptSync.
  destruct (String.eqb (Deepgram.transcript (deepgram s))
              (Deepgram.transcript (Deepgram.onmessage m (deepgram s)))
            && String.eqb (Deepgram.fullTranscript (deepgram s))
                 (Deepgram.fullTranscript (Deepgram.onmessage m (deepgram s)))) eqn:Hsame.
  - cbn [negb andb]. wp_go trivial_inv. all: reflexivity.
  - cbn [negb andb]. apply wp_seq. apply wp_read. proj. apply wp_seq.
    apply wp_modify; [intros _; exact I | intros _]. proj.
    destruct (negb (String.eqb
                (Deepgram.fullTranscript (Deepgram.onmessage m (deepgram s)) ++
                 Deepgram.transcript (Deepgram.onmessage m (deepgram s)))
                (lastTranscriptRef (refs s)))
              && truthy (trim (Deepgram.fullTranscript (Deepgram.onmessage m (deepgram s)) ++
                 Deepgram.transcript (Deepgram.onmessage m (deepgram s))))) eqn:Hnew.
    + wp_go trivial_inv. all: reflexivity.
    + wp_go trivial_inv. all: reflexivity.
Qed.

(** C6 (amended): a transcription event, interim or final, that changes the
    text of the client to a non-blank accumulated text different from the
    one recorded last re-arms the silence timer for 2 s from the time it is
    handled, and after it, whatever events follow, the detector does not
    signal the end of the turn earlier than 2 s after that time.  An event
    that leaves the text unchanged, or the accumulated text blank or equal
    to the one recorded last, does not touch the timer. *)
Theorem silence_follows_last_change :
  forall (r : Run) (w : World) (m : Deepgram.Message),
    (rearms m (cur r) = true ->
     silenceTimerRef (refs (cur (step (Socket (Deepgram.WsMessage m)) w r))) =
       Some {| deadline := now w + SILENCE_THRESHOLD_MS;
               closure := {| c_isRecording := RecorderHook.isRecording (recorder (cur r));
                             c_fullTranscript := c_fullTranscript (captured w) |};
               pending := true |} /\
     forall (evs : list (Event * World)) (wT : World),
       Forall (fun ew => now w <= now (snd ew) /\ now w <= listenAt (snd ew)) evs ->
       signalsEndOfTurn wT (exec evs (step (Socket (Deepgram.WsMessage m)) w r)) = true ->
       now w + SILENCE_THRESHOLD_MS <= now wT) /\
    (rearms m (cur r) = false ->
     silenceTimerRef (refs (cur (step (Socket (Deepgram.WsMessage m)) w r))) =
       silenceTimerRef (refs (cur r))).
Proof.
  intros r w m. destruct r as [s p]. cbn [cur].
  assert (Hp : Forall (fun _ : t => True) (s :: p)) by (apply Forall_forall; auto).
  destruct (message_timer m w s p Hp) as [Htm _].
  split; intros Hre; rewrite Hre in Htm.
  - split; [exact Htm|].
    intros evs wT Hevs Hsig.
    assert (H1 : timerNotBefore (now w + SILENCE_THRESHOLD_MS)
                   (cur (step (Socket (Deepgram.WsMessage m)) w {| cur := s; past := p |}))).
    { unfold timerNotBefore. rewrite Htm. cbn [deadline]. intros _. lia. }
    assert (H2 : timerNotBefore (now w + SILENCE_THRESHOLD_MS)
                   (cur (exec evs (step (Socket (Deepgram.WsMessage m)) w
                                        {| cur := s; past := p |})))).
    { apply exec_timerNotBefore; [exact H1|].
      eapply Forall_impl; [|exact Hevs]. cbv beta. intros ew [Ha Hb]. split; lia. }
    unfold signalsEndOfTurn in Hsig. unfold timerNotBefore in H2.
    revert Hsig H2.
    destruct (silenceTimerRef
                (refs (cur (exec evs (step (Socket (Deepgram.WsMessage m)) w
                                           {| cur := s; past := p |}))))) as [tm|];
      intros Hsig H2; [|discriminate Hsig].
    apply andb_prop in Hsig. destruct Hsig as [Hsig _].
    apply andb_prop in Hsig. destruct Hsig as [Hsig _].
    apply andb_prop in Hsig. destruct Hsig as [Hpend Hdue].
    apply Z.leb_le in Hdue. specialize (H2 Hpend). lia.
  - exact Htm.
Qed.

Lemma silence_follows_last_change_witness :
  rearms (Deepgram.Results false ["a"]) (cur Scenario.listening) = true /\
  (signalsEndOfTurn (Scenario.world 5000 0 firstRender) Scenario.murmurAgain = true ->
   3000 + SILENCE_THRESHOLD_MS <= 5000).
Proof.
  assert (Hre : rearms (Deepgram.Results false ["a"]) (cur Scenario.listening) = true)
    by (vm_compute; reflexivity).
  split; [exact Hre|].
  destruct (silence_follows_last_change Scenario.listening
              (Scenario.world 3000 0 (Scenario.whileRecording ""))
              (Deepgram.Results false ["a"])) as [H _].
  destruct (H Hre) as [_ Hbound].
  pose proof (Hbound [(Socket (Deepgram.WsMessage (Deepgram.Results false ["a"])),
                       Scenario.world 4500 0 (Scenario.whileRecording ""))]
                     (Scenario.world 5000 0 firstRender)) as Hb.
  cbn [exec] in Hb.
  unfold Scenario.murmurAgain, Scenario.murmur, Scenario.interim.
  intros Hsig. 
  assert (Hevs : Forall (fun ew : Event * World =>
                   now (Scenario.world 3000 0 (Scenario.whileRecording "")) <= now (snd ew) /\
                   now (Scenario.world 3000 0 (Scenario.whileRecording "")) <= listenAt (snd ew))
                  [(Socket (Deepgram.WsMessage (Deepgram.Results false ["a"])),
                    Scenario.world 4500 0 (Scenario.whileRecording ""))]).
  { repeat constructor; cbn; lia. }
  exact (Hb Hevs Hsig).
Defined.

(** C6 (as stated) fails: the client reports the interim text "a" at 3 s
    and the same interim text again at 4.5 s, and never a final text.  The
    second event changes nothing, so the timer armed at 3 s stays; it fires
    at 5 s, only 0.5 s after the most recent event, and the turn is ended
    with the utterance "a". *)
Lemma silence_signalled_after_repeated_interim :
  signalsEndOfTurn (Scenario.world 5000 0 firstRender) Scenario.murmurAgain = true /\
  now (Scenario.world 5000 0 firstRender) < 4500 + SILENCE_THRESHOLD_MS /\
  respondentUtterances
    (cur (step SilenceTimeout (Scenario.world 5000 0 firstRender) Scenario.murmurAgain))
    = ["a"].
Proof. vm_compute. repeat split; reflexivity. Qed.

(** White space is the one of [String.prototype.trim]: an interim text that
    holds nothing but an ideographic space (U+3000), reported at 4.5 s after
    the interim text "a" at 3 s, leaves the accumulated text blank and does
    not re-arm the timer, which fires at 5 s. *)
Lemma ideographic_space_does_not_rearm :
  rearms (Deepgram.Results false ["　"]) (cur Scenario.murmur) = false /\
  signalsEndOfTurn (Scenario.world 5000 0 firstRender)
    (step (Scenario.interim "　") (Scenario.world 4500 0 (Scenario.whileRecording ""))
       Scenario.murmur) = true.
Proof. vm_compute. split; reflexivity. Qed.

(* ================================================================== *)
(** * Further properties *)

(* ------------------------------------------------------------------ *)
(** ** Formats, chunks and restarts of the capture pipeline *)


Lemma feed_chunks (chunks : list Blob) :
  forall r : AudioRecorder.t,
    fst (Capture.feed chunks r) =
      {| AudioRecorder.mediaRecorder := AudioRecorder.mediaRecorder r;
         AudioRecorder.audioChunks :=
           AudioRecorder.audioChunks r ++ filter Capture.nonEmpty chunks;
         AudioRecorder.stream := AudioRecorder.stream r;
         AudioRecorder.dataCallback := AudioRecorder.dataCallback r;
         AudioRecorder.recording := AudioRecorder.recording r |} /\
    snd (Capture.feed chunks r) =
      if AudioRecorder.dataCallback r then filter Capture.nonEmpty chunks else [].
Proof.
  induction chunks as [|c rest IH]; intros r.
  - cbn. rewrite app_nil_r. destruct r, dataCallback; split; reflexivity.
  - cbn [Capture.feed filter]. unfold AudioRecorder.ondataavailable.
    replace (Capture.nonEmpty c) with (0 <? blob_size c) by reflexivity.
    destruct (0 <? blob_size c) eqn:Hc.
    + match goal with |- context [Capture.feed rest ?x] => specialize (IH x) end.
      destruct (Capture.feed rest _) as [r2 fw]. cbn [fst snd] in *.
      destruct IH as [-> ->]. cbn. rewrite <- app_assoc. cbn.
      destruct (AudioRecorder.dataCallback r); split; reflexivity.
    + specialize (IH r). destruct (Capture.feed rest r) as [r2 fw]. cbn [fst snd] in *.
      destruct IH as [-> ->]. cbn. split; reflexivity.
Qed.


(** X2: once a recording has started, the chunks the MediaRecorder
    delivers are kept in order, the empty ones left out; the registered
    callback is called with exactly the non-empty ones; and [stop] resolves
    with a blob whose size is the sum of their sizes and whose type is the
    type chosen at the start, after which no chunk is left and the recorder
    does not record. *)
Theorem recording_round_trip :
  forall (b : AudioRecorder.Browser) (r r1 : AudioRecorder.t) (fx : list Effect)
         (chunks : list Blob),
    AudioRecorder.start b r = (Resolved tt, r1, fx) ->
    let fed := Capture.feed chunks r1 in
    let blob :=
      {| blob_size := AudioRecorder.sumSizes (filter Capture.nonEmpty chunks);
         blob_type := or (or (AudioRecorder.getSupportedMimeType b)
                             (AudioRecorder.defaultMimeType b))
                         "audio/webm;codecs=opus" |} in
    snd fed = (if AudioRecorder.dataCallback r then filter Capture.nonEmpty chunks else []) /\
    fst (fst (AudioRecorder.stop (fst fed))) = Resolved blob /\
    snd (AudioRecorder.stop (fst fed)) = [EMediaStop] /\
    AudioRecorder.audioChunks (snd (fst (AudioRecorder.stop (fst fed)))) = [] /\
    AudioRecorder.recording (snd (fst (AudioRecorder.stop (fst fed)))) = false.
Proof.
  intros b r r1 fx chunks Hstart fed blob. subst fed blob.
  unfold AudioRecorder.start in Hstart.
  destruct (AudioRecorder.recording r); [discriminate|].
  destruct (AudioRecorder.getUserMedia b); try discriminate.
  destruct (AudioRecorder.hasMediaRecorder b); [|discriminate]. cbn [negb] in Hstart.
  injection Hstart as <- _.
  destruct (feed_chunks chunks
    {| AudioRecorder.mediaRecorder :=
         Some (if truthy (AudioRecorder.getSupportedMimeType b)
               then AudioRecorder.getSupportedMimeType b
               else AudioRecorder.defaultMimeType b);
       AudioRecorder.audioChunks := []; AudioRecorder.stream := true;
       AudioRecorder.dataCallback := AudioRecorder.dataCallback r;
       AudioRecorder.recording := true |}) as [Hf Hs].
  rewrite Hs, Hf. cbn. repeat split; reflexivity.
Qed.

Lemma recording_round_trip_witness :
  let chunks := [ {| blob_size := 120; blob_type := "audio/webm" |};
                  {| blob_size := 0; blob_type := "audio/webm" |};
                  {| blob_size := 80; blob_type := "audio/webm" |} ] in
  let r1 := snd (fst (AudioRecorder.start Scenario.chrome
                        (AudioRecorder.onDataAvailable AudioRecorder.new))) in
  fst (fst (AudioRecorder.stop (fst (Capture.feed chunks r1)))) =
    Resolved {| blob_size := 200; blob_type := "audio/webm;codecs=opus" |}.
Proof.
  intros chunks r1.
  exact (proj1 (proj2 (recording_round_trip Scenario.chrome
                         (AudioRecorder.onDataAvailable AudioRecorder.new) r1
                         [EMediaStart 250] chunks eq_refl))).
Defined.

(** X3: [startRecording] on a hook that already holds a recorder
    never fails with "already recording": it first destroys the old
    recorder (its MediaRecorder is stopped if it records, its tracks are
    stopped if it holds a stream), clears the last blob, and starts a new
    recorder that inherits the chunk callback and no chunk (the browser
    has a MediaRecorder and grants the microphone).  When the
    microphone cannot be opened the old recorder is destroyed all the same:
    the hook records nothing, holds no stream and reports an error. *)
Theorem restart_replaces_recorder :
  forall (b : AudioRecorder.Browser) (h : RecorderHook.t),
    RecorderHook.wellFormed h ->
    let h' := fst (RecorderHook.startRecording b h) in
    let fx := snd (RecorderHook.startRecording b h) in
    let released :=
      (if RecorderHook.capturing h then [EMediaStop] else []) ++
      (if Capture.holdsStream h then [ETrackStop] else []) in
    RecorderHook.audioBlob h' = None /\
    RecorderHook.chunkCallbackRef h' = RecorderHook.chunkCallbackRef h /\
    (AudioRecorder.hasMediaRecorder b = true ->
     AudioRecorder.getUserMedia b = AudioRecorder.MicGranted ->
     fx = released ++ [EMediaStart 250] /\
     RecorderHook.isRecording h' = true /\ RecorderHook.capturing h' = true /\
     RecorderHook.error h' = None /\
     option_map AudioRecorder.dataCallback (RecorderHook.recorderRef h') =
       Some (RecorderHook.chunkCallbackRef h) /\
     option_map AudioRecorder.audioChunks (RecorderHook.recorderRef h') = Some []) /\
    (AudioRecorder.getUserMedia b <> AudioRecorder.MicGranted ->
     fx = released /\
     RecorderHook.isRecording h' = false /\ RecorderHook.capturing h' = false /\
     Capture.holdsStream h' = false /\
     RecorderHook.error h' <> None).
Proof.
  intros b h Hwf. cbv zeta.
  unfold RecorderHook.startRecording, RecorderHook.capturing, Capture.holdsStream,
    AudioRecorder.start, AudioRecorder.destroy, AudioRecorder.isRecording.
  unfold RecorderHook.wellFormed, AudioRecorder.wellFormed in Hwf.
  destruct (RecorderHook.recorderRef h) as [old|].
  - destruct (AudioRecorder.recording old) eqn:Hrec.
    + destruct (AudioRecorder.mediaRecorder old) eqn:Hmr; [|exfalso; exact (Hwf eq_refl eq_refl)].
      destruct (RecorderHook.chunkCallbackRef h), (AudioRecorder.stream old),
        (AudioRecorder.getUserMedia b), (AudioRecorder.hasMediaRecorder b); cbn;
        repeat split; intros; try reflexivity; try discriminate; try contradiction.
    + destruct (AudioRecorder.mediaRecorder old), (RecorderHook.chunkCallbackRef h),
        (AudioRecorder.stream old), (AudioRecorder.getUserMedia b),
        (AudioRecorder.hasMediaRecorder b); cbn;
        repeat split; intros; try reflexivity; try discriminate; try contradiction.
  - destruct (RecorderHook.chunkCallbackRef h), (AudioRecorder.getUserMedia b),
      (AudioRecorder.hasMediaRecorder b); cbn;
      repeat split; intros; try reflexivity; try discriminate; try contradiction.
Qed.

Lemma restart_replaces_recorder_witness :
  let h := fst (RecorderHook.startRecording Scenario.chrome RecorderHook.init) in
  snd (RecorderHook.startRecording Scenario.chrome h) =
    [EMediaStop; ETrackStop; EMediaStart 250].
Proof.
  intros h.
  assert (Hwf : RecorderHook.wellFormed h).
  { unfold RecorderHook.wellFormed, AudioRecorder.wellFormed. cbn. discriminate. }
  exact (proj1 (proj1 (proj2 (proj2 (restart_replaces_recorder Scenario.chrome h Hwf)))
                 eq_refl eq_refl)).
Defined.

(* ------------------------------------------------------------------ *)
(** ** Further properties of the transcription client *)

Lemma append_empty_r (s : string) : (s ++ "")%string = s.
Proof. induction s as [|c s IH]; cbn; [reflexivity | rewrite IH; reflexivity]. Qed.

Lemma append_assoc (a b c : string) : ((a ++ b) ++ c)%string = (a ++ (b ++ c))%string.
Proof. induction a as [|x a IH]; cbn; [reflexivity | rewrite IH; reflexivity]. Qed.

Lemma finalized_cons (m : Deepgram.Message) (msgs : list Deepgram.Message) :
  Transcription.finalized (m :: msgs) =
    (Transcription.finalText m ++ Transcription.finalized msgs)%string.
Proof.
  unfold Transcription.finalized. cbn [map String.concat].
  destruct (map Transcription.finalText msgs) eqn:Hm.
  - cbn. symmetry. apply append_empty_r.
  - reflexivity.
Qed.

Lemma receive_accumulates (msgs : list Deepgram.Message) :
  forall d : Deepgram.t,
    Deepgram.fullTranscriptRef d = Deepgram.fullTranscript d ->
    Transcription.receive msgs d =
      {| Deepgram.isConnected := Deepgram.isConnected d;
         Deepgram.transcript := Transcription.interimAfter (Deepgram.transcript d) msgs;
         Deepgram.fullTranscript :=
           (Deepgram.fullTranscript d ++ Transcription.finalized msgs)%string;
         Deepgram.error := Deepgram.error d;
         Deepgram.wsRef := Deepgram.wsRef d;
         Deepgram.fullTranscriptRef :=
           (Deepgram.fullTranscript d ++ Transcription.finalized msgs)%string;
         Deepgram.reconnectAttemptRef := Deepgram.reconnectAttemptRef d;
         Deepgram.intentionalCloseRef := Deepgram.intentionalCloseRef d |}.
Proof.
  induction msgs as [|m msgs IH]; intros d Href.
  - cbn. rewrite append_empty_r. destruct d; cbn in *. subst. reflexivity.
  - unfold Transcription.receive, Transcription.interimAfter in *. cbn [fold_left].
    rewrite finalized_cons.
    destruct m as [| |is_final [|text alts]]; cbn [Deepgram.onmessage Transcription.finalText].
    + rewrite IH by exact Href. reflexivity.
    + rewrite IH by exact Href. reflexivity.
    + rewrite IH by exact Href. destruct is_final; reflexivity.
    + destruct is_final.
      * destruct (truthy (trim text)).
        -- rewrite IH by reflexivity. cbn. rewrite Href, append_assoc. reflexivity.
        -- rewrite IH by exact Href. reflexivity.
      * rewrite IH by exact Href. reflexivity.
Qed.

(** X4: whatever messages arrive, the finalized transcript of the
    client is the one it had followed by the first alternatives of the final
    results whose text is not blank, in order; malformed messages, other
    message types, results without alternative and blank finals add nothing;
    the state and the ref of the finalized text stay equal; the interim text
    is the one of the last result, empty after a final one; and the
    connection is not touched.  After [reset] the finalized transcript is
    exactly what the following messages finalize. *)
Theorem transcript_accumulates_finals :
  forall (msgs : list Deepgram.Message) (d : Deepgram.t),
    (Deepgram.fullTranscriptRef d = Deepgram.fullTranscript d ->
     let d' := Transcription.receive msgs d in
     Deepgram.fullTranscript d' =
       (Deepgram.fullTranscript d ++ Transcription.finalized msgs)%string /\
     Deepgram.fullTranscriptRef d' = Deepgram.fullTranscript d' /\
     Deepgram.transcript d' = Transcription.interimAfter (Deepgram.transcript d) msgs /\
     Deepgram.wsRef d' = Deepgram.wsRef d /\
     Deepgram.isConnected d' = Deepgram.isConnected d /\
     Deepgram.error d' = Deepgram.error d /\
     Deepgram.reconnectAttemptRef d' = Deepgram.reconnectAttemptRef d) /\
    (let fresh := Transcription.receive msgs (Deepgram.reset d) in
     Deepgram.fullTranscript fresh = Transcription.finalized msgs /\
     Deepgram.transcript fresh = Transcription.interimAfter "" msgs /\
     Deepgram.wsRef fresh = Deepgram.wsRef d /\
     Deepgram.reconnectAttemptRef fresh = Deepgram.reconnectAttemptRef d).
Proof.
  intros msgs d. split.
  - intros Href. cbv zeta. rewrite (receive_accumulates msgs d Href).
    repeat split; reflexivity.
  - cbv zeta. rewrite (receive_accumulates msgs (Deepgram.reset d) eq_refl).
    repeat split; reflexivity.
Qed.

Lemma transcript_accumulates_finals_witness :
  Deepgram.fullTranscript
    (Transcription.receive
       [Deepgram.Results false ["he"]; Deepgram.Results true ["hello"];
        Deepgram.Malformed; Deepgram.Results true ["  "];
        Deepgram.Results true ["　"]; Deepgram.Results true [];
        Deepgram.Results true [" world"]; Deepgram.Results false ["ag"]]
       Deepgram.init) = "hello world".
Proof.
  exact (proj1 (proj1 (transcript_accumulates_finals
                  [Deepgram.Results false ["he"]; Deepgram.Results true ["hello"];
                   Deepgram.Malformed; Deepgram.Results true ["  "];
                   Deepgram.Results true ["　"]; Deepgram.Results true [];
                   Deepgram.Results true [" world"]; Deepgram.Results false ["ag"]]
                  Deepgram.init) eq_refl)).
Defined.

Lemma disconnected_handle (e : Deepgram.Event) (d : Deepgram.t) :
  Deepgram.intentionalCloseRef d = true ->
  Deepgram.wsRef d = None ->
  match e with Deepgram.ReconnectFires _ => false | _ => true end = true ->
  snd (Deepgram.handle e d) = [] /\
  Deepgram.intentionalCloseRef (fst (Deepgram.handle e d)) = true /\
  Deepgram.wsRef (fst (Deepgram.handle e d)) = None /\
  (Deepgram.error (fst (Deepgram.handle e d)) = Deepgram.error d \/
   Deepgram.error (fst (Deepgram.handle e d)) =
     Some "Deepgramへの接続でエラーが発生しました").
Proof.
  intros Hi Hw He. destruct e; try discriminate He; cbn [Deepgram.handle fst snd].
  - cbn. rewrite Hw. auto.
  - destruct m as [| |f [|text alts]]; cbn; auto.
    destruct f; [destruct (truthy (trim text))|]; cbn; auto.
  - cbn. auto.
  - unfold Deepgram.onclose. rewrite Hi. cbn. auto.
Qed.

Lemma disconnected_run (evs : list Deepgram.Event) :
  forall d : Deepgram.t,
    Deepgram.intentionalCloseRef d = true ->
    Deepgram.wsRef d = None ->
    Transcription.noTimerFires evs = true ->
    snd (Deepgram.run evs d) = [] /\
    Deepgram.intentionalCloseRef (fst (Deepgram.run evs d)) = true /\
    Deepgram.wsRef (fst (Deepgram.run evs d)) = None /\
    (Deepgram.error (fst (Deepgram.run evs d)) = Deepgram.error d \/
     Deepgram.error (fst (Deepgram.run evs d)) =
       Some "Deepgramへの接続でエラーが発生しました").
Proof.
  induction evs as [|e evs IH]; intros d Hi Hw Hq.
  - cbn. auto.
  - cbn [Transcription.noTimerFires forallb] in Hq. apply andb_prop in Hq.
    destruct Hq as [He Hq]. cbn [Deepgram.run].
    destruct (disconnected_handle e d Hi Hw He) as (Hfx & Hi' & Hw' & He').
    destruct (Deepgram.handle e d) as [d1 fx1]. cbn [fst snd] in *.
    destruct (IH d1 Hi' Hw' Hq) as (Hfx2 & Hi2 & Hw2 & He2).
    destruct (Deepgram.run evs d1) as [d2 fx2]. cbn [fst snd] in *.
    subst. repeat split; auto.
    destruct He2 as [He2|He2]; [rewrite He2; exact He' | right; exact He2].
Qed.

(** X5: after a deliberate [disconnect], and as long as no
    reconnection timer fires, the client does nothing to the outside:
    whatever the socket reports (any close code, errors, messages, a late
    open), no reconnection is scheduled, no audio chunk is sent, and the
    only error message that can appear is the one of [onerror], never the
    one of a failed reconnection. *)
Theorem disconnect_silences_client :
  forall (d : Deepgram.t) (evs : list Deepgram.Event) (chunk : Blob),
    Transcription.noTimerFires evs = true ->
    let d' := fst (Deepgram.run evs (fst (Deepgram.disconnect d))) in
    snd (Deepgram.run evs (fst (Deepgram.disconnect d))) = [] /\
    Deepgram.sendAudio chunk d' = [] /\
    (Deepgram.error d' = Deepgram.error d \/
     Deepgram.error d' = Some "Deepgramへの接続でエラーが発生しました").
Proof.
  intros d evs chunk Hq. cbv zeta.
  destruct (disconnected_run evs (fst (Deepgram.disconnect d)) eq_refl eq_refl Hq)
    as (Hfx & _ & Hw & He).
  repeat split.
  - exact Hfx.
  - unfold Deepgram.sendAudio. rewrite Hw. reflexivity.
  - exact He.
Qed.

Lemma disconnect_silences_client_witness :
  snd (Deepgram.run [Deepgram.WsClose 1006; Deepgram.WsError; Deepgram.WsClose 1011]
         (fst (Deepgram.disconnect (Deepgram.onopen
            (fst (Deepgram.connect (Resolved "token") Deepgram.init)))))) = [].
Proof.
  exact (proj1 (disconnect_silences_client
                  (Deepgram.onopen (fst (Deepgram.connect (Resolved "token") Deepgram.init)))
                  [Deepgram.WsClose 1006; Deepgram.WsError; Deepgram.WsClose 1011]
                  {| blob_size := 1; blob_type := "" |} eq_refl)).
Defined.

Lemma outage_from_open (code : Z) (token : string) (d : Deepgram.t) :
  code <> 1000 ->
  Deepgram.intentionalCloseRef d = false ->
  Deepgram.reconnectAttemptRef d = 0 ->
  let r := Deepgram.run (Transcription.outage code token) d in
  Deepgram.reconnectDelays (snd r) = [2000] /\
  Deepgram.intentionalCloseRef (fst r) = false /\
  Deepgram.reconnectAttemptRef (fst r) = 0 /\
  Deepgram.wsRef (fst r) = Some Deepgram.OPEN /\
  Deepgram.error (fst r) = None.
Proof.
  intros Hc Hi Ha. unfold Transcription.outage. cbn [Deepgram.run Deepgram.handle].
  unfold Deepgram.onclose. rewrite Hi, Ha.
  apply Z.eqb_neq in Hc. rewrite Hc. cbn. auto.
Qed.

Lemma outages_from_open (n : nat) (code : Z) (token : string) :
  forall d : Deepgram.t,
    code <> 1000 ->
    Deepgram.intentionalCloseRef d = false ->
    Deepgram.reconnectAttemptRef d = 0 ->
    let r := Deepgram.run (Transcription.outages n code token) d in
    Deepgram.reconnectDelays (snd r) = repeat 2000 n /\
    Deepgram.reconnectAttemptRef (fst r) = 0 /\
    Deepgram.intentionalCloseRef (fst r) = false /\
    (n <> O -> Deepgram.wsRef (fst r) = Some Deepgram.OPEN /\ Deepgram.error (fst r) = None).
Proof.
  induction n as [|n IH]; intros d Hc Hi Ha; cbv zeta.
  - cbn. split; [reflexivity | split; [exact Ha | split; [exact Hi | intros Hn; contradiction]]].
  - cbn [Transcription.outages]. rewrite run_app. cbn [fst snd].
    rewrite reconnectDelays_app.
    destruct (outage_from_open code token d Hc Hi Ha) as (H1 & H2 & H3 & H4 & H5).
    cbv zeta in H1, H2, H3, H4, H5.
    destruct (IH (fst (Deepgram.run (Transcription.outage code token) d)) Hc H2 H3)
      as (I1 & I2 & I3 & I4).
    cbv zeta in I1, I2, I3, I4.
    rewrite H1, I1. split; [reflexivity | split; [exact I2 | split; [exact I3 |]]].
    intros _. destruct n as [|n]; [split; [exact H4 | exact H5] | apply I4; discriminate].
Qed.

(** X6: every successful open resets the count of reconnection
    attempts.  A connection that drops abnormally and re-opens [n] times in
    a row is therefore reconnected [n] times, each time after 2000 ms, with
    no error message: the limit of three attempts bounds one outage, not the
    session. *)
Theorem open_restores_retry_budget :
  forall (n : nat) (code : Z) (token : string) (d : Deepgram.t),
    code <> 1000 ->
    Deepgram.intentionalCloseRef d = false ->
    let r := Deepgram.run (Transcription.outages n code token) (Deepgram.onopen d) in
    Deepgram.reconnectDelays (snd r) = repeat 2000 n /\
    Deepgram.reconnectAttemptRef (fst r) = 0 /\
    (n <> O -> Deepgram.error (fst r) = None).
Proof.
  intros n code token d Hc Hi.
  destruct (outages_from_open n code token (Deepgram.onopen d) Hc Hi eq_refl)
    as (H1 & H2 & _ & H4).
  cbv zeta in *. split; [exact H1 | split; [exact H2 |]]. intros Hn. apply H4, Hn.
Qed.

Lemma open_restores_retry_budget_witness :
  Deepgram.reconnectDelays
    (snd (Deepgram.run (Transcription.outages 5 1006 "token") (Deepgram.onopen Deepgram.init)))
  = [2000; 2000; 2000; 2000; 2000].
Proof.
  refine (proj1 (open_restores_retry_budget 5 1006 "token" Deepgram.init _ eq_refl)).
  discriminate.
Defined.

(** X7: [disconnect] does not cancel a reconnection that an abnormal
    close has scheduled.  When its timer fires after the deliberate
    disconnect, [connect] fetches a token, opens a new socket and clears the
    mark of the deliberate close. *)
Theorem pending_reconnect_survives_disconnect :
  forall (d : Deepgram.t) (code : Z) (token : string),
    Deepgram.intentionalCloseRef d = false ->
    code <> 1000 ->
    Deepgram.reconnectAttemptRef d < 3 ->
    let closed := Deepgram.onclose code d in
    let left := Deepgram.disconnect (fst closed) in
    let fired := Deepgram.connect (Resolved token) (fst left) in
    snd closed =
      [ESetTimeout ReconnectTimer
         (Deepgram.reconnectDelay (Deepgram.reconnectAttemptRef d + 1))] /\
    snd left = [] /\
    snd fired = [EFetch ApiSttToken; EWsNew token] /\
    Deepgram.wsRef (fst fired) = Some Deepgram.CONNECTING /\
    Deepgram.intentionalCloseRef (fst fired) = false.
Proof.
  intros d code token Hi Hc Ha. cbv zeta.
  unfold Deepgram.onclose. rewrite Hi. apply Z.eqb_neq in Hc. rewrite Hc.
  apply Z.ltb_lt in Ha. rewrite Ha. cbn. auto.
Qed.

Lemma pending_reconnect_survives_disconnect_witness :
  let d := Deepgram.onopen (fst (Deepgram.connect (Resolved "token") Deepgram.init)) in
  snd (Deepgram.connect (Resolved "again")
         (fst (Deepgram.disconnect (fst (Deepgram.onclose 1006 d))))) =
    [EFetch ApiSttToken; EWsNew "again"].
Proof.
  intros d.
  refine (proj1 (proj2 (proj2
    (pending_reconnect_survives_disconnect d 1006 "again" eq_refl _ _)))).
  - discriminate.
  - reflexivity.
Defined.

(* ------------------------------------------------------------------ *)
(** ** Further properties of the token endpoint *)

(** X8: the token endpoint answers 500 with the configuration error,
    whatever the SDK would return, when the API key is missing or empty;
    otherwise it answers 200 with the Deepgram URL and a token that is the
    temporary key when the SDK returned one and the API key of the server in
    every other case. *)
Theorem stt_token_answers :
  forall (env : SttToken.Env) (sdk : SttToken.KeyRequest -> SttToken.CreateProjectKey),
    let answer := SttToken.GET env sdk in
    (orOpt (SttToken.DEEPGRAM_API_KEY env) "" = "" ->
     answer = {| SttToken.status := 500;
                 SttToken.body := SttToken.ErrorBody "Deepgram APIキーが設定されていません" |}) /\
    (forall apiKey : string,
       SttToken.DEEPGRAM_API_KEY env = Some apiKey -> apiKey <> "" ->
       exists token : string,
         answer = {| SttToken.status := 200;
                     SttToken.body :=
                       SttToken.TokenBody token "wss://api.deepgram.com/v1/listen" |} /\
         (token = apiKey \/
          sdk (SttToken.keyRequest env) = SttToken.KeyReturns (Some (Some token))) /\
         (forall k, sdk (SttToken.keyRequest env) = SttToken.KeyReturns (Some (Some k)) ->
                    token = k)).
Proof.
  intros env sdk answer. subst answer. unfold SttToken.GET. split.
  - destruct (SttToken.DEEPGRAM_API_KEY env) as [k|]; cbn; [|reflexivity].
    unfold or, truthy. destruct (String.eqb_spec k "") as [->|Hk]; cbn.
    + reflexivity.
    + intros ->. contradiction.
  - intros apiKey -> Hne.
    assert (Ht : truthy apiKey = true).
    { unfold truthy. destruct (String.eqb_spec apiKey ""); [contradiction | reflexivity]. }
    rewrite Ht. cbn [negb].
    destruct (sdk (SttToken.keyRequest env)) as [|[[k|]|]]; cbn.
    + exists apiKey. repeat split; auto. intros k H; discriminate H.
    + exists k. repeat split; auto. intros k' H. injection H as <-. reflexivity.
    + exists apiKey. repeat split; auto. intros k H; discriminate H.
    + exists apiKey. repeat split; auto. intros k H; discriminate H.
Qed.

Lemma stt_token_answers_witness :
  SttToken.GET {| SttToken.DEEPGRAM_API_KEY := Some "";
                  SttToken.DEEPGRAM_PROJECT_ID := Some "project" |}
               (fun _ => SttToken.KeyReturns (Some (Some "temporary"))) =
    {| SttToken.status := 500;
       SttToken.body := SttToken.ErrorBody "Deepgram APIキーが設定されていません" |}.
Proof.
  exact (proj1 (stt_token_answers
                  {| SttToken.DEEPGRAM_API_KEY := Some "";
                     SttToken.DEEPGRAM_PROJECT_ID := Some "project" |}
                  (fun _ => SttToken.KeyReturns (Some (Some "temporary")))) eq_refl).
Defined.

(* ------------------------------------------------------------------ *)
(** ** The shape of the conversation *)

Lemma aiTurns_snoc (l : list InterviewMessage) (m : InterviewMessage) :
  Dialogue.aiTurns (l ++ [m]) = Dialogue.aiTurns l + (if Dialogue.isAi m then 1 else 0).
Proof.
  unfold Dialogue.aiTurns. rewrite filter_app, length_app. cbn [filter].
  destruct (Dialogue.isAi m); cbn [length]; lia.
Qed.

Lemma lastRole_snoc (l : list InterviewMessage) (m : InterviewMessage) :
  forall prev, Dialogue.lastRole prev (l ++ [m]) = Some (role m).
Proof. induction l as [|x l IH]; intros prev; cbn; [reflexivity | apply IH]. Qed.

Lemma alternates_snoc (l : list InterviewMessage) (m : InterviewMessage) :
  forall prev,
    Dialogue.alternates prev (l ++ [m]) =
      Dialogue.alternates prev l && Dialogue.follows (Dialogue.lastRole prev l) m.
Proof.
  induction l as [|x l IH]; intros prev; cbn [app Dialogue.alternates Dialogue.lastRole].
  - rewrite andb_true_r. reflexivity.
  - rewrite IH, andb_assoc. reflexivity.
Qed.

(** [Orderly] holds of the state a path of the symbolic execution ends in. *)
Ltac orderly :=
  unfold Dialogue.Orderly; proj; known; proj;
  repeat rewrite calls_app;
  repeat match goal with
         | |- context [calls ?p (snd ?x)] => rewrite (calls_hook p (snd x)) by (blind || hook)
         | |- context [calls ?p (Deepgram.sendAudio ?a ?b)] =>
             rewrite (calls_hook p (Deepgram.sendAudio a b)) by (blind || hook)
         end;
  cbn [calls filter length Dialogue.isBlankChat Nat.add];
  repeat rewrite aiTurns_snoc; repeat rewrite alternates_snoc; repeat rewrite lastRole_snoc;
  cbn [Dialogue.isAi Dialogue.follows Dialogue.sameRole Dialogue.aiTurns Dialogue.alternates
       Dialogue.lastRole role filter length negb andb Z.of_nat];
  repeat match goal with
         | H : negb ?b = false |- context [negb ?b] => rewrite H
         | H : calls _ _ = _ |- _ => rewrite H
         | H : Dialogue.alternates _ _ = _ |- _ => rewrite H
         | H : Dialogue.lastRole _ _ = _ |- _ => rewrite H
         end;
  cbn [Dialogue.isAi Dialogue.follows Dialogue.sameRole role filter length negb andb app
       calls Nat.add];
  repeat split; intros; try reflexivity; try discriminate; try assumption; try lia.

(** The cases of [Orderly s] by the phase of [s]. *)
Ltac orderly_cases s :=
  let HO := fresh "HO" in
  intros HO; unfold Dialogue.Orderly in HO; revert HO;
  destruct (phase (state s)) eqn:HP;
  intros (O1 & O2 & O3 & O4 & O5);
  try (pose proof (O3 eq_refl) as HM);
  try (pose proof (O4 eq_refl) as HL);
  clear O3 O4.

Lemma handler_orderly e w s :
  Dialogue.Orderly s -> wp (handler e w) (fun _ => True) Dialogue.Orderly s.
Proof.
  orderly_cases s.
  all: destruct e.
  all: wp_go trivial_inv.
  all: orderly.
Qed.

Lemma effects_orderly pre w s :
  Dialogue.Orderly s -> wp (effects pre w) (fun _ => True) Dialogue.Orderly s.
Proof.
  orderly_cases s.
  all: wp_go trivial_inv.
  all: orderly.
Qed.

Lemma step_orderly e w s :
  Dialogue.Orderly s -> wp (step e w) (fun _ => True) Dialogue.Orderly s.
Proof.
  intros HO. apply wp_step.
  eapply wp_conseq; [|apply handler_orderly; exact HO].
  intros s' Hs'. apply effects_orderly. exact Hs'.
Qed.

Lemma reachable_orderly r : reachable r -> Dialogue.Orderly (cur r).
Proof.
  induction 1 as [|e w r Hr HO].
  - unfold Dialogue.Orderly. cbn. repeat split; auto; intros; discriminate.
  - destruct r as [s p].
    assert (Hp : Forall (fun _ : t => True) (s :: p)) by (apply Forall_forall; auto).
    exact (proj1 (step_orderly e w s HO p Hp)).
Qed.

(** X9: between two events of any run, [turnCount] is the number of
    utterances of the interviewer in the transcript.  Handlers run one at a
    time, each to its end. *)
Theorem turn_count_counts_interviewer_turns :
  forall r : Run,
    reachable r ->
    turnCount (state (cur r)) = Dialogue.aiTurns (messages (state (cur r))).
Proof. intros r Hr. exact (proj1 (reachable_orderly r Hr)). Qed.

Lemma reachable_answered : reachable Scenario.answered.
Proof. unfold Scenario.answered. apply reachable_step, reachable_heard. Qed.

Lemma turn_count_counts_interviewer_turns_witness :
  turnCount (state (cur Scenario.answered)) =
    Dialogue.aiTurns (messages (state (cur Scenario.answered))).
Proof. exact (turn_count_counts_interviewer_turns Scenario.answered reachable_answered). Defined.

(** X10: between two events of any run, the transcript opens with the
    interviewer and the two speakers alternate; while the session is
    interviewing, the last utterance is the one of the interviewer.
    Handlers run one at a time, each to its end. *)
Theorem speakers_alternate :
  forall r : Run,
    reachable r ->
    Dialogue.alternates None (messages (state (cur r))) = true /\
    (phase (state (cur r)) = Phase.interviewing ->
     Dialogue.lastRole None (messages (state (cur r))) = Some ai).
Proof.
  intros r Hr. destruct (reachable_orderly r Hr) as (_ & H2 & _ & H4 & _).
  split; assumption.
Qed.

Lemma speakers_alternate_witness :
  Dialogue.alternates None (messages (state (cur Scenario.answered))) = true.
Proof. exact (proj1 (speakers_alternate Scenario.answered reachable_answered)). Defined.

(** X11: in any run of events handled one at a time, every request sent
    to the turn generator carries a non-empty message. *)
Theorem generator_never_asked_with_empty_message :
  forall r : Run,
    reachable r ->
    forall message : string,
      In (EFetch (ApiChat message)) (log (cur r)) -> message <> "".
Proof.
  intros r Hr message Hin.
  destruct (reachable_orderly r Hr) as (_ & _ & _ & _ & H5).
  unfold calls in H5. intros ->.
  assert (Hf : In (EFetch (ApiChat "")) (filter Dialogue.isBlankChat (log (cur r)))).
  { apply filter_In. split; [exact Hin | reflexivity]. }
  destruct (filter Dialogue.isBlankChat (log (cur r))); [exact Hf | discriminate H5].
Qed.

Lemma generator_never_asked_with_empty_message_witness :
  In (EFetch (ApiChat "hello")) (log (cur Scenario.answered)) /\ "hello" <> "".
Proof.
  assert (Hin : In (EFetch (ApiChat "hello")) (log (cur Scenario.answered))).
  { vm_compute. repeat (first [left; reflexivity | right]). }
  split; [exact Hin|].
  exact (generator_never_asked_with_empty_message Scenario.answered reachable_answered
           "hello" Hin).
Defined.






(* ------------------------------------------------------------------ *)
(** ** What the effects of the hook leave alone *)

Lemma calls_silence p fx :
  (forall e, Dialogue.isSilenceTimerEffect e = true -> p e = false) ->
  forallb Dialogue.isSilenceTimerEffect fx = true -> calls p fx = 0%nat.
Proof.
  intros Hp. induction fx as [|e fx IH]; [reflexivity|].
  cbn [forallb]. intros H. apply andb_prop in H. destruct H as [He Hfx].
  unfold calls in *. cbn [filter]. rewrite (Hp e He). auto.
Qed.

Lemma phasesSet_silence fx :
  forallb Dialogue.isSilenceTimerEffect fx = true -> phasesSet fx = [].
Proof.
  induction fx as [|e fx IH]; [reflexivity|].
  cbn [forallb]. intros H. apply andb_prop in H. destruct H as [He Hfx].
  destruct e; try discriminate He; cbn; auto.
Qed.

(** A predicate on effects that holds of no effect on the silence timer. *)
Ltac silent :=
  let e := fresh "e" in
  intros e; destruct e as [[]| | | | |[]|[]| | | | | | | | |]; intros;
  (reflexivity || discriminate).

(** The effects only copy texts and messages and re-arm the silence
    timer. *)
Lemma effects_frame pre w s :
  wp (effects pre w) (fun _ => True)
     (fun s' =>
        messages (state s') = messages (state s) /\
        turnCount (state s') = turnCount (state s) /\
        phase (state s') = phase (state s) /\
        isAISpeaking (state s') = isAISpeaking (state s) /\
        isUserSpeaking (state s') = isUserSpeaking (state s) /\
        recorder s' = recorder s /\
        deepgram s' = deepgram s /\
        isEndingRef (refs s') = isEndingRef (refs s) /\
        timerRef (refs s') = timerRef (refs s) /\
        (exists fx, log s' = log s ++ fx /\
                    forallb Dialogue.isSilenceTimerEffect fx = true) /\
        (Dialogue.armed s = true -> Dialogue.armed s' = true)) s.
Proof.
  wp_go trivial_inv.
  all: unfold Dialogue.armed; proj; rewrite <- ?app_assoc;
    repeat match goal with
           | |- _ /\ _ => split
           | |- exists _, _ =>
               first [ exists []; rewrite app_nil_r; split; reflexivity
                     | eexists; split; reflexivity ]
           end; try reflexivity; auto.
Qed.

(* ------------------------------------------------------------------ *)
(** ** Renders inside a callback *)

Lemma connect_full tok d :
  Deepgram.fullTranscript (fst (Deepgram.connect tok d)) = Deepgram.fullTranscript d.
Proof. unfold Deepgram.connect. destruct (Deepgram.wsRef d) as [[]|], tok; reflexivity. Qed.

Lemma connect_interim tok d :
  Deepgram.transcript (fst (Deepgram.connect tok d)) = Deepgram.transcript d.
Proof. unfold Deepgram.connect. destruct (Deepgram.wsRef d) as [[]|], tok; reflexivity. Qed.

Lemma onclose_full code d :
  Deepgram.fullTranscript (fst (Deepgram.onclose code d)) = Deepgram.fullTranscript d.
Proof.
  unfold Deepgram.onclose.
  destruct (negb (Deepgram.intentionalCloseRef d) && negb (code =? 1000));
    [destruct (Deepgram.reconnectAttemptRef d <? 3)|]; reflexivity.
Qed.

Lemma onclose_interim code d :
  Deepgram.transcript (fst (Deepgram.onclose code d)) = Deepgram.transcript d.
Proof.
  unfold Deepgram.onclose.
  destruct (negb (Deepgram.intentionalCloseRef d) && negb (code =? 1000));
    [destruct (Deepgram.reconnectAttemptRef d <? 3)|]; reflexivity.
Qed.

(** [Settled] is kept by one update that leaves the text of the client and
    the text recorded last alone; [H] says that it held before. *)
Ltac settled H :=
  unfold Settled, combinedText in *; proj;
  cbn [cur past state refs recorder deepgram log lastTranscriptRef withState withRefs fst snd]
    in H;
  cbn [Deepgram.disconnect Deepgram.onopen Deepgram.onerror Deepgram.handle
       Deepgram.fullTranscript Deepgram.transcript fst] in H |- *;
  rewrite ?connect_full, ?connect_interim, ?onclose_full, ?onclose_interim;
  rewrite ?connect_full, ?connect_interim, ?onclose_full, ?onclose_interim in H;
  exact H.

Lemma sync_settled (w : World) (r : Run) :
  Settled (cur r) ->
  transcriptSync w r = setCurrentTranscript (combinedText (cur r)) r.
Proof.
  unfold Settled, combinedText. intros H.
  unfold transcriptSync, read, seq.
  unfold setCurrentTranscript at 1. unfold modify at 1. proj. rewrite H. reflexivity.
Qed.

Lemma handler_settled (e : Event) (w : World) (s : t) :
  match e with Socket (Deepgram.WsMessage _) => False | _ => True end ->
  wp (handler e w) Settled Settled s.
Proof.
  intros He p Hp. pose proof (Forall_inv Hp) as HS. revert p Hp.
  change (wp (handler e w) Settled Settled s).
  destruct e; try (destruct e; try contradiction).
  all: wp_go settled.
  all: settled HS.
Qed.

Lemma effects_settled (pre : t) (w : World) (s : t) :
  (String.eqb (Deepgram.transcript (deepgram pre)) (Deepgram.transcript (deepgram s))
   && String.eqb (Deepgram.fullTranscript (deepgram pre)) (Deepgram.fullTranscript (deepgram s))
   = true -> Settled s) ->
  wp (effects pre w) (fun _ => True) Settled s.
Proof.
  intros H. unfold effects. apply wp_read. apply wp_seq.
  destruct (String.eqb (Deepgram.transcript (deepgram pre)) (Deepgram.transcript (deepgram s))
            && String.eqb (Deepgram.fullTranscript (deepgram pre))
                 (Deepgram.fullTranscript (deepgram s))) eqn:Hsame; cbn [andb].
  - specialize (H eq_refl). unfold Settled, combinedText in H.
    destruct (Bool.eqb _ _).
    + wp_go trivial_inv. all: exact H.
    + unfold transcriptSync. apply wp_read. apply wp_seq.
      unfold setCurrentTranscript. apply wp_modify; [intros _; exact I | intros _]. proj.
      rewrite H. wp_go trivial_inv. all: exact H.
  - unfold transcriptSync. apply wp_read. apply wp_seq.
    unfold setCurrentTranscript. apply wp_modify; [intros _; exact I | intros _]. proj.
    destruct (negb (String.eqb _ _) && truthy _) eqn:Htest.
    + wp_go trivial_inv.
      all: unfold Settled, combinedText; proj; rewrite String.eqb_refl; reflexivity.
    + wp_go trivial_inv.
      all: unfold Settled, combinedText; proj; exact Htest.
Qed.

Lemma handler_text (e : Event) (w : World) (s : t) :
  match e with Socket (Deepgram.WsMessage _) => False | _ => True end ->
  wp (handler e w) (fun _ => True)
     (fun s' => combinedText s' = combinedText s /\
                lastTranscriptRef (refs s') = lastTranscriptRef (refs s)) s.
Proof.
  intros He. destruct e; try (destruct e; try contradiction).
  all: wp_go trivial_inv.
  all: unfold combinedText; proj;
    cbn [Deepgram.disconnect Deepgram.onopen Deepgram.onerror Deepgram.handle
         Deepgram.fullTranscript Deepgram.transcript fst];
    rewrite ?connect_full, ?connect_interim, ?onclose_full, ?onclose_interim;
    split; reflexivity.
Qed.

Lemma step_settled (e : Event) (w : World) (s : t) :
  Settled s -> wp (step e w) (fun _ => True) Settled s.
Proof.
  intros HS. apply wp_step.
  assert (Hmsg : (exists m, e = Socket (Deepgram.WsMessage m)) \/
                 match e with Socket (Deepgram.WsMessage _) => False | _ => True end).
  { destruct e; auto. destruct e; eauto. }
  destruct Hmsg as [[m ->] | He].
  - cbn [handler]. unfold callDeepgram. apply wp_modify; [intros _; exact I | intros _].
    apply effects_settled. proj. cbn [Deepgram.handle fst].
    intros Hsame. apply andb_prop in Hsame. destruct Hsame as [Ht Hf].
    apply String.eqb_eq in Ht, Hf. unfold Settled, combinedText in *. proj.
    rewrite <- Ht, <- Hf. exact HS.
  - eapply wp_conseq; [|apply handler_text; exact He].
    intros s' (Ht & Hl). apply effects_settled. intros _.
    unfold Settled in *. rewrite Ht, Hl. exact HS.
Qed.

(** Between two events the text of the client is blank or the one recorded
    last. *)
Lemma reachable_settled (r : Run) : reachable r -> Settled (cur r).
Proof.
  induction 1 as [|e w r Hr IH].
  - reflexivity.
  - destruct r as [s p]. cbn [cur] in IH.
    assert (Hp : Forall (fun _ : t => True) (s :: p)) by (apply Forall_forall; auto).
    exact (proj1 (step_settled e w s IH p Hp)).
Qed.

(** The transcript effect, run in any state that a callback goes through
    (the renders inside a callback run it when [recorder.isRecording] has
    changed), only copies the text of the client into [currentTranscript]:
    it records no text and does not touch the silence timer.  The handler of
    a message of the socket has no such render: its effect is the one of
    [effects]. *)
Lemma render_inside_callback (r : Run) (e : Event) (w w' : World) (s' : t) (p' : list t) :
  reachable r ->
  match e with Socket (Deepgram.WsMessage _) => False | _ => True end ->
  In s' (states (handler e w {| cur := cur r; past := [] |})) ->
  transcriptSync w' {| cur := s'; past := p' |} =
    setCurrentTranscript (combinedText s') {| cur := s'; past := p' |}.
Proof.
  intros Hr He Hin.
  assert (Hs : Forall Settled [cur r]).
  { constructor; [exact (reachable_settled r Hr) | constructor]. }
  destruct (handler_settled e w (cur r) He [] Hs) as [_ Hall].
  rewrite Forall_forall in Hall.
  exact (sync_settled w' {| cur := s'; past := p' |} (Hall s' Hin)).
Qed.

(* ------------------------------------------------------------------ *)
(** ** Silence with nothing recognised *)




(* ------------------------------------------------------------------ *)
(** ** The socket and the session *)

Lemma socket_frame (ev : Deepgram.Event) (w : World) (s : t) :
  wp (step (Socket ev) w) (fun _ => True)
     (fun s' =>
        messages (state s') = messages (state s) /\
        turnCount (state s') = turnCount (state s) /\
        phase (state s') = phase (state s) /\
        isAISpeaking (state s') = isAISpeaking (state s) /\
        isUserSpeaking (state s') = isUserSpeaking (state s) /\
        recorder s' = recorder s /\
        isEndingRef (refs s') = isEndingRef (refs s) /\
        timerRef (refs s') = timerRef (refs s) /\
        (exists fx, log s' = log s ++ fx /\
                    phasesSet fx = [] /\ calls isChat fx = 0%nat /\
                    calls isScore fx = 0%nat /\ calls isTts fx = 0%nat)) s.
Proof.
  apply wp_step. unfold handler, callDeepgram.
  apply wp_modify; [intros _; exact I | intros _].
  eapply wp_conseq; [|apply effects_frame].
  intros s' (H1 & H2 & H3 & H4 & H5 & H6 & _ & H8 & H9 & (fx & Hlog & Hfx) & _).
  revert H1 H2 H3 H4 H5 H6 H8 H9 Hlog. proj. intros.
  repeat split; try assumption.
  exists (snd (Deepgram.handle ev (deepgram s)) ++ fx).
  rewrite Hlog, <- app_assoc. split; [reflexivity|].
  rewrite phasesSet_app, !calls_app.
  rewrite (phasesSet_hook _ (hook_handle ev (deepgram s))), (phasesSet_silence _ Hfx).
  rewrite (calls_hook isChat _ ltac:(blind) (hook_handle ev (deepgram s))).
  rewrite (calls_hook isScore _ ltac:(blind) (hook_handle ev (deepgram s))).
  rewrite (calls_hook isTts _ ltac:(blind) (hook_handle ev (deepgram s))).
  rewrite (calls_silence isChat _ ltac:(silent) Hfx).
  rewrite (calls_silence isScore _ ltac:(silent) Hfx).
  rewrite (calls_silence isTts _ ltac:(silent) Hfx).
  repeat split; reflexivity.
Qed.

(** X14: no event of the socket or of the reconnection timer, effects
    included, changes the phase, the transcript, the turn count, the
    speaking flags or the recorder, and none calls the turn generator or the
    scoring endpoint. *)
Theorem socket_events_leave_the_session_alone :
  forall (r : Run) (ev : Deepgram.Event) (w : World),
    let r' := step (Socket ev) w r in
    phase (state (cur r')) = phase (state (cur r)) /\
    messages (state (cur r')) = messages (state (cur r)) /\
    turnCount (state (cur r')) = turnCount (state (cur r)) /\
    isAISpeaking (state (cur r')) = isAISpeaking (state (cur r)) /\
    isUserSpeaking (state (cur r')) = isUserSpeaking (state (cur r)) /\
    recorder (cur r') = recorder (cur r) /\
    phasesSet (emitted (step (Socket ev) w) r) = [] /\
    calls isChat (emitted (step (Socket ev) w) r) = 0%nat /\
    calls isScore (emitted (step (Socket ev) w) r) = 0%nat.
Proof.
  intros r ev w. cbv zeta. destruct r as [s p]. cbn [cur] in *.
  assert (Hp : Forall (fun _ : t => True) (s :: p)) by (apply Forall_forall; auto).
  destruct (socket_frame ev w s p Hp)
    as [(H1 & H2 & H3 & H4 & H5 & H6 & _ & _ & (fx & Hlog & Hph & Hc & Hs & _)) _].
  rewrite (emitted_added _ _ fx Hlog). repeat split; assumption.
Qed.

Lemma optEqb_neq (a b : option string) : a <> b -> optEqb a b = false.
Proof.
  destruct a as [x|], b as [y|]; cbn; intros H; try reflexivity.
  - destruct (String.eqb_spec x y) as [->|]; [contradiction H|]; reflexivity.
  - contradiction H; reflexivity.
Qed.

(** X15: when the socket closes abnormally after the three
    reconnection attempts are spent, during the interviewing phase, the
    orchestrator only copies the error message of the client: the phase
    stays interviewing, the speaking flag of the respondent and the
    recorder are unchanged, no socket is left and nothing is emitted. *)
Theorem reconnect_exhaustion_is_not_fatal :
  forall (r : Run) (w : World) (code : Z),
    phase (state (cur r)) = Phase.interviewing ->
    Deepgram.intentionalCloseRef (deepgram (cur r)) = false ->
    code <> 1000 ->
    3 <= Deepgram.reconnectAttemptRef (deepgram (cur r)) ->
    Deepgram.error (deepgram (cur r)) <>
      Some "Deepgramへの接続が切断されました。再接続に失敗しました。" ->
    let r' := step (Socket (Deepgram.WsClose code)) w r in
    error (state (cur r')) =
      Some "Deepgramへの接続が切断されました。再接続に失敗しました。" /\
    phase (state (cur r')) = Phase.interviewing /\
    isUserSpeaking (state (cur r')) = isUserSpeaking (state (cur r)) /\
    recorder (cur r') = recorder (cur r) /\
    Deepgram.wsRef (deepgram (cur r')) = None /\
    emitted (step (Socket (Deepgram.WsClose code)) w) r = [].
Proof.
  intros r w code HP Hi Hc Ha He. cbv zeta.
  assert (Hclose : Deepgram.onclose code (deepgram (cur r)) =
            ({| Deepgram.isConnected := false;
                Deepgram.transcript := Deepgram.transcript (deepgram (cur r));
                Deepgram.fullTranscript := Deepgram.fullTranscript (deepgram (cur r));
                Deepgram.error :=
                  Some "Deepgramへの接続が切断されました。再接続に失敗しました。";
                Deepgram.wsRef := None;
                Deepgram.fullTranscriptRef := Deepgram.fullTranscriptRef (deepgram (cur r));
                Deepgram.reconnectAttemptRef := Deepgram.reconnectAttemptRef (deepgram (cur r));
                Deepgram.intentionalCloseRef := false |}, [])).
  { unfold Deepgram.onclose. rewrite Hi. apply Z.eqb_neq in Hc. rewrite Hc.
    assert (Hlt : (Deepgram.reconnectAttemptRef (deepgram (cur r)) <? 3) = false)
      by (apply Z.ltb_ge; exact Ha).
    rewrite Hlt. reflexivity. }
  unfold emitted, step, handler, callDeepgram, modify, effects, read, seq, skip.
  cbn [cur past Deepgram.handle]. rewrite Hclose.
  cbn [fst snd deepgram recorder state refs log Deepgram.transcript Deepgram.fullTranscript
       Deepgram.error].
  rewrite !String.eqb_refl, Bool.eqb_reflx, optEqb_refl, (optEqb_neq _ _ He).
  cbn [andb]. unfold propagateError, read, setError, modify, withState.
  cbn [cur past state phase]. rewrite HP.
  cbn. rewrite app_nil_r, skipn_all. repeat split; try reflexivity; assumption.
Qed.

Lemma reconnect_exhaustion_is_not_fatal_witness :
  let w := Scenario.world 16300 0 firstRender in
  error (state (cur (step (Socket (Deepgram.WsClose 1006)) w Episode.retriesSpent))) =
    Some "Deepgramへの接続が切断されました。再接続に失敗しました。" /\
  phase (state (cur (step (Socket (Deepgram.WsClose 1006)) w Episode.retriesSpent))) =
    Phase.interviewing.
Proof.
  intros w.
  assert (HP : phase (state (cur Episode.retriesSpent)) = Phase.interviewing)
    by (vm_compute; reflexivity).
  assert (Hi : Deepgram.intentionalCloseRef (deepgram (cur Episode.retriesSpent)) = false)
    by (vm_compute; reflexivity).
  assert (Hc : 1006 <> 1000) by discriminate.
  assert (Ha : 3 <= Deepgram.reconnectAttemptRef (deepgram (cur Episode.retriesSpent))).
  { apply Z.leb_le. vm_compute. reflexivity. }
  assert (He : Deepgram.error (deepgram (cur Episode.retriesSpent)) <>
               Some "Deepgramへの接続が切断されました。再接続に失敗しました。").
  { vm_compute. intros H. discriminate H. }
  destruct (reconnect_exhaustion_is_not_fatal Episode.retriesSpent w 1006 HP Hi Hc Ha He)
    as (H1 & H2 & _).
  split; [exact H1 | exact H2].
Defined.

(* ------------------------------------------------------------------ *)
(** ** A microphone that cannot be opened *)

Lemma startInterview_listens (w : World) (s : t) (message : option string) :
  phase (state s) = Phase.idle ->
  startResponse w = Resolved message ->
  wp (startInterview w) (fun _ => True)
     (fun s' =>
        phase (state s') = Phase.interviewing /\
        isUserSpeaking (state s') = true /\
        isAISpeaking (state s') = false /\
        error (state s') = None /\
        recorder s' =
          fst (RecorderHook.startRecording (browser w)
                 (RecorderHook.onChunkAvailable (recorder s))) /\
        deepgram s' = fst (Deepgram.connect (sttToken w) (deepgram s)) /\
        Dialogue.armed s' = true /\
        timerRef (refs s') = true /\
        (exists fx, log s' = log s ++ fx /\
                    phasesSet fx = [Phase.connecting; Phase.interviewing])) s.
Proof.
  intros HP Hstart. unfold startInterview. apply wp_read. rewrite HP, Hstart.
  cbn [Phase.eqb negb].
  wp_go trivial_inv.
  all: unfold Dialogue.armed; proj; known; proj;
    repeat match goal with
           | |- _ /\ _ => split
           | |- exists _, _ => added; phases; reflexivity
           end; try reflexivity.
Qed.

Lemma connect_keeps_texts (token : Result string) (d : Deepgram.t) :
  Deepgram.transcript (fst (Deepgram.connect token d)) = Deepgram.transcript d /\
  Deepgram.fullTranscript (fst (Deepgram.connect token d)) = Deepgram.fullTranscript d.
Proof.
  unfold Deepgram.connect. destruct (Deepgram.wsRef d) as [[]|], token; split; reflexivity.
Qed.

Lemma connect_clears_error (token : string) (d : Deepgram.t) :
  Deepgram.error d = None ->
  Deepgram.error (fst (Deepgram.connect (Resolved token) d)) = None.
Proof.
  intros H. unfold Deepgram.connect. destruct (Deepgram.wsRef d) as [[]|]; cbn; auto.
Qed.

Lemma startRecording_denied (b : AudioRecorder.Browser) (h : RecorderHook.t) :
  AudioRecorder.getUserMedia b <> AudioRecorder.MicGranted ->
  RecorderHook.isRecording (fst (RecorderHook.startRecording b h)) = false /\
  RecorderHook.capturing (fst (RecorderHook.startRecording b h)) = false /\
  exists message : string,
    RecorderHook.error (fst (RecorderHook.startRecording b h)) = Some message /\
    truthy message = true.
Proof.
  intros Hmic. unfold RecorderHook.startRecording, RecorderHook.capturing,
    AudioRecorder.start, AudioRecorder.destroy.
  destruct (RecorderHook.recorderRef h) as [old|], (RecorderHook.chunkCallbackRef h),
    (AudioRecorder.getUserMedia b); try contradiction; cbn;
    (split; [reflexivity | split; [reflexivity | eexists; split; reflexivity]]).
Qed.

(** X16: when the session starts and the microphone cannot be opened,
    the session still enters the interviewing phase (the phases set are
    connecting and interviewing, never error) with the respondent shown as
    speaking; nothing is captured, and the only trace is the error message
    of the recorder, copied into the state. *)
Theorem microphone_failure_is_not_fatal :
  forall (r : Run) (w : World) (message : option string) (token : string),
    phase (state (cur r)) = Phase.idle ->
    startResponse w = Resolved message ->
    sttToken w = Resolved token ->
    AudioRecorder.getUserMedia (browser w) <> AudioRecorder.MicGranted ->
    RecorderHook.isRecording (recorder (cur r)) = false ->
    RecorderHook.error (recorder (cur r)) = None ->
    Deepgram.error (deepgram (cur r)) = None ->
    let r' := step StartInterview w r in
    phase (state (cur r')) = Phase.interviewing /\
    isUserSpeaking (state (cur r')) = true /\
    RecorderHook.capturing (recorder (cur r')) = false /\
    error (state (cur r')) = RecorderHook.error (recorder (cur r')) /\
    error (state (cur r')) <> None /\
    phasesSet (emitted (step StartInterview w) r) = [Phase.connecting; Phase.interviewing].
Proof.
  intros r w message token HP Hstart Htok Hmic Hrec Herr Hdg. cbv zeta.
  destruct r as [s p]. cbn [cur] in *.
  assert (Hp : Forall (fun _ : t => True) (s :: p)) by (apply Forall_forall; auto).
  destruct (startInterview_listens w s message HP Hstart p Hp)
    as [(H1 & H2 & _ & H4 & H5 & H6 & _ & _ & (fx & Hlog & Hph)) _].
  unfold emitted, step. cbn [handler cur].
  destruct (startInterview w {| cur := s; past := p |}) as [s1 p1]. cbn [cur] in *.
  destruct (startRecording_denied (browser w) (RecorderHook.onChunkAvailable (recorder s)) Hmic)
    as (D1 & D2 & msg & D3 & D4).
  destruct (connect_keeps_texts (sttToken w) (deepgram s)) as [T1 T2].
  pose proof (connect_clears_error token (deepgram s) Hdg) as T3. rewrite <- Htok in T3.
  rewrite <- H5 in D1, D2, D3. rewrite <- H6 in T1, T2, T3.
  unfold effects, read, seq, skip. cbn [cur].
  rewrite T1, T2, T3, D1, D3, Hrec, Herr, Hdg.
  rewrite !String.eqb_refl. cbn [Bool.eqb andb optEqb].
  unfold propagateError, read, setError, modify, withState. cbn [cur state phase].
  rewrite H1, D4. cbn [andb Phase.eqb cur state recorder phase isUserSpeaking error log].
  rewrite D2, D3, Hlog, skipn_app, skipn_all, Nat.sub_diag. cbn [skipn app].
  repeat split; try assumption; try reflexivity. discriminate.
Qed.

Lemma microphone_failure_is_not_fatal_witness :
  phase (state (cur (step StartInterview Episode.deaf start))) = Phase.interviewing /\
  RecorderHook.capturing (recorder (cur (step StartInterview Episode.deaf start))) = false /\
  error (state (cur (step StartInterview Episode.deaf start))) <> None.
Proof.
  assert (Hmic : AudioRecorder.getUserMedia (browser Episode.deaf) <> AudioRecorder.MicGranted)
    by discriminate.
  destruct (microphone_failure_is_not_fatal start Episode.deaf (Some "Hello") "token"
              eq_refl eq_refl eq_refl Hmic eq_refl eq_refl eq_refl)
    as (H1 & _ & H3 & _ & H5 & _).
  split; [exact H1 | split; [exact H3 | exact H5]].
Defined.

(* ------------------------------------------------------------------ *)
(** ** The deadline and the end, once more *)

Lemma reachable_generatorFailed : reachable Scenario.generatorFailed.
Proof. unfold Scenario.generatorFailed. apply reachable_step, reachable_heard. Qed.

Lemma calls_capture p fx :
  (forall e, Capture.isCaptureEffect e = false -> p e = false) ->
  existsb Capture.isCaptureEffect fx = false -> calls p fx = 0%nat.
Proof.
  intros Hp. induction fx as [|e fx IH]; [reflexivity|].
  cbn [existsb]. intros H. apply orb_false_elim in H. destruct H as [He Hfx].
  unfold calls in *. cbn [filter]. rewrite (Hp e He). auto.
Qed.

Lemma disconnect_capture_free d :
  existsb Capture.isCaptureEffect (snd (Deepgram.disconnect d)) = false.
Proof. unfold Deepgram.disconnect. destruct (Deepgram.wsRef d) as [[]|]; reflexivity. Qed.

Lemma handle_capture_free ev d :
  existsb Capture.isCaptureEffect (snd (Deepgram.handle ev d)) = false.
Proof.
  destruct ev; cbn [Deepgram.handle snd]; try reflexivity.
  - unfold Deepgram.onclose.
    destruct (negb (Deepgram.intentionalCloseRef d) && negb (code =? 1000));
      [destruct (Deepgram.reconnectAttemptRef d <? 3)|]; reflexivity.
  - unfold Deepgram.connect. destruct (Deepgram.wsRef d) as [[]|], token; reflexivity.
Qed.

Lemma sendAudio_capture_free data d :
  existsb Capture.isCaptureEffect (Deepgram.sendAudio data d) = false.
Proof. unfold Deepgram.sendAudio. destruct (Deepgram.wsRef d) as [[]|]; reflexivity. Qed.

Lemma silence_capture_free fx :
  forallb Dialogue.isSilenceTimerEffect fx = true ->
  existsb Capture.isCaptureEffect fx = false.
Proof.
  induction fx as [|e fx IH]; [reflexivity|].
  cbn [forallb existsb]. intros H. apply andb_prop in H. destruct H as [He Hfx].
  rewrite (IH Hfx). destruct e; try discriminate He; reflexivity.
Qed.

(** A predicate on effects that holds only of effects on the MediaRecorder
    and the MediaStream. *)
Ltac capture_only :=
  let e := fresh "e" in
  intros e; destruct e; intros; (reflexivity || discriminate).

(** What the tick of the deadline emits, in order.  The end routine it calls
    is the one of the first render, which sees no recording: the recorder is
    not touched. *)
Lemma deadline_teardown (w : World) (s : t) :
  timerRef (refs s) = true ->
  isEndingRef (refs s) = false ->
  (MAX_INTERVIEW_DURATION_MS <=? now w - startTimeRef (refs s)) = true ->
  wp (handler TimerTick w) (fun _ => True)
     (fun s' =>
        log s' = log s
          ++ [ESetPhase Phase.processing; EClearInterval]
          ++ snd (Deepgram.disconnect (deepgram s))
          ++ (if playerRef (refs s) then [EPlayerStop] else [])
          ++ (match silenceTimerRef (refs s) with
              | Some _ => [EClearTimeout SilenceTimer]
              | None => []
              end)
          ++ [EFetch ApiScore; ESetPhase Phase.completed] /\
        phase (state s') = Phase.completed /\
        recorder s' = recorder s /\
        isUserSpeaking (state s') = false /\
        elapsedTime (state s') = now w - startTimeRef (refs s)) s.
Proof.
  intros HT HE Hmax.
  wp_go trivial_inv.
  all: proj; known; rewrite <- ?app_assoc; cbn [app]; repeat split; reflexivity.
Qed.

Lemma deadline_step (w : World) (s : t) :
  timerRef (refs s) = true ->
  isEndingRef (refs s) = false ->
  (MAX_INTERVIEW_DURATION_MS <=? now w - startTimeRef (refs s)) = true ->
  wp (step TimerTick w) (fun _ => True)
     (fun s' =>
        phase (state s') = Phase.completed /\
        recorder s' = recorder s /\
        isUserSpeaking (state s') = false /\
        (exists fx, log s' = log s ++ fx /\
                    phasesSet fx = [Phase.processing; Phase.completed] /\
                    calls isScore fx = 1%nat /\
                    existsb Capture.isCaptureEffect fx = false)) s.
Proof.
  intros HT HE Hmax. apply wp_step.
  eapply wp_conseq; [|apply deadline_teardown; assumption].
  intros s1 (Hlog & H2 & H3 & H4 & _).
  eapply wp_conseq; [|apply effects_frame].
  intros s2 (_ & _ & F3 & _ & F5 & F6 & _ & _ & _ & (fx & Flog & Ffx) & _).
  split; [congruence|]. split; [congruence|]. split; [congruence|].
  eexists. split; [rewrite Flog, Hlog, <- app_assoc; reflexivity|].
  repeat rewrite phasesSet_app. repeat rewrite calls_app. repeat rewrite existsb_app.
  rewrite (phasesSet_hook _ (hook_disconnect (deepgram s))), (phasesSet_silence _ Ffx).
  rewrite (calls_hook isScore _ ltac:(blind) (hook_disconnect (deepgram s))).
  rewrite (calls_silence isScore _ ltac:(silent) Ffx).
  rewrite disconnect_capture_free, (silence_capture_free _ Ffx).
  destruct (playerRef (refs s)), (silenceTimerRef (refs s)); repeat split; reflexivity.
Qed.

(** X17: the error phase does not stop the interval timer.  In any
    run, a tick at or after 300000 ms in the error phase with the timer
    running sets processing and then completed and calls the scoring
    endpoint once: a failed session ends as completed. *)
Theorem deadline_completes_failed_session :
  forall (r : Run) (w : World),
    reachable r ->
    phase (state (cur r)) = Phase.error ->
    timerRef (refs (cur r)) = true ->
    MAX_INTERVIEW_DURATION_MS <= now w - startTimeRef (refs (cur r)) ->
    phase (state (cur (step TimerTick w r))) = Phase.completed /\
    phasesSet (emitted (step TimerTick w) r) = [Phase.processing; Phase.completed] /\
    calls isScore (emitted (step TimerTick w) r) = 1%nat.
Proof.
  intros r w Hr HP HT Hmax.
  destruct (reachable_quiescent r Hr) as [(_ & _ & H3 & _) _].
  assert (HE : isEndingRef (refs (cur r)) = false).
  { destruct (isEndingRef (refs (cur r))); [|reflexivity].
    destruct (H3 eq_refl) as [H _]. congruence. }
  apply Z.leb_le in Hmax.
  destruct r as [s p]. cbn [cur] in *.
  assert (Hp : Forall (fun _ : t => True) (s :: p)) by (apply Forall_forall; auto).
  destruct (deadline_step w s HT HE Hmax p Hp) as [(H1 & _ & _ & (fx & Hlog & Hph & Hsc & _)) _].
  rewrite (emitted_added _ _ fx Hlog). repeat split; assumption.
Qed.

Lemma deadline_completes_failed_session_witness :
  phase (state (cur Scenario.generatorFailed)) = Phase.error /\
  phase (state (cur (step TimerTick (Scenario.world 300000 0 firstRender)
                       Scenario.generatorFailed))) = Phase.completed.
Proof.
  assert (HP : phase (state (cur Scenario.generatorFailed)) = Phase.error)
    by (vm_compute; reflexivity).
  assert (HT : timerRef (refs (cur Scenario.generatorFailed)) = true)
    by (vm_compute; reflexivity).
  assert (Hmax : MAX_INTERVIEW_DURATION_MS
                 <= now (Scenario.world 300000 0 firstRender)
                    - startTimeRef (refs (cur Scenario.generatorFailed))).
  { apply Z.leb_le. vm_compute. reflexivity. }
  split; [exact HP|].
  exact (proj1 (deadline_completes_failed_session Scenario.generatorFailed
                  (Scenario.world 300000 0 firstRender)
                  reachable_generatorFailed HP HT Hmax)).
Defined.

(** X18: the tick of the deadline completes the session without
    touching the capture pipeline: the recorder is exactly the one before
    the tick, so a MediaRecorder that records keeps recording, and the tick
    emits no stop of the MediaRecorder and no stop of a track. *)
Theorem deadline_leaves_recorder_running :
  forall (r : Run) (w : World),
    timerRef (refs (cur r)) = true ->
    isEndingRef (refs (cur r)) = false ->
    MAX_INTERVIEW_DURATION_MS <= now w - startTimeRef (refs (cur r)) ->
    phase (state (cur (step TimerTick w r))) = Phase.completed /\
    isUserSpeaking (state (cur (step TimerTick w r))) = false /\
    recorder (cur (step TimerTick w r)) = recorder (cur r) /\
    calls Capture.isMediaStop (emitted (step TimerTick w) r) = 0%nat /\
    calls Capture.isTrackStop (emitted (step TimerTick w) r) = 0%nat.
Proof.
  intros r w HT HE Hmax. apply Z.leb_le in Hmax.
  destruct r as [s p]. cbn [cur] in *.
  assert (Hp : Forall (fun _ : t => True) (s :: p)) by (apply Forall_forall; auto).
  destruct (deadline_step w s HT HE Hmax p Hp) as [(H1 & H2 & H3 & (fx & Hlog & _ & _ & Hcap)) _].
  rewrite (emitted_added _ _ fx Hlog).
  repeat split; try assumption.
  - apply calls_capture; [capture_only | exact Hcap].
  - apply calls_capture; [capture_only | exact Hcap].
Qed.

Lemma deadline_leaves_recorder_running_witness :
  RecorderHook.capturing (recorder (cur Scenario.listening)) = true /\
  phase (state (cur (step TimerTick (Scenario.world 300000 0 firstRender)
                       Scenario.listening))) = Phase.completed /\
  recorder (cur (step TimerTick (Scenario.world 300000 0 firstRender) Scenario.listening))
    = recorder (cur Scenario.listening).
Proof.
  assert (HC : RecorderHook.capturing (recorder (cur Scenario.listening)) = true)
    by (vm_compute; reflexivity).
  assert (HT : timerRef (refs (cur Scenario.listening)) = true) by (vm_compute; reflexivity).
  assert (HE : isEndingRef (refs (cur Scenario.listening)) = false)
    by (vm_compute; reflexivity).
  assert (Hmax : MAX_INTERVIEW_DURATION_MS
                 <= now (Scenario.world 300000 0 firstRender)
                    - startTimeRef (refs (cur Scenario.listening))).
  { apply Z.leb_le. vm_compute. reflexivity. }
  destruct (deadline_leaves_recorder_running Scenario.listening
              (Scenario.world 300000 0 firstRender) HT HE Hmax) as (H1 & _ & H3 & _).
  split; [exact HC | split; [exact H1 | exact H3]].
Defined.

(** The turn generator asks for the end. *)
Lemma getAIResponse_ends (w : World) (userMessage aiText : string) (s : t) :
  phase (state s) = Phase.interviewing ->
  isEndingRef (refs s) = false ->
  chatResponse w = Resolved (aiText, Some true) ->
  wp (getAIResponse w userMessage) (fun _ => True)
     (fun s' =>
        phase (state s') = Phase.completed /\
        isEndingRef (refs s') = true /\
        timerRef (refs s') = false /\
        isUserSpeaking (state s') = false /\
        silenceTimerRef (refs s') = None /\
        messages (state s') =
          messages (state s) ++ [{| role := ai; content := aiText; timestamp := now w |}] /\
        turnCount (state s') = turnCount (state s) + 1 /\
        (exists rest,
           log s' = log s ++ [ESetPhase Phase.processing; EFetch (ApiChat userMessage);
                              ESetPhase Phase.interviewing; EFetch (ApiTts aiText)] ++ rest /\
           phasesSet rest = [Phase.processing; Phase.completed] /\
           calls isScore rest = 1%nat /\
           calls isChat rest = 0%nat /\
           calls isTts rest = 0%nat)) s.
Proof.
  intros HP HE Hchat. unfold getAIResponse. apply wp_read. rewrite HP. cbn [Phase.eqb negb].
  unfold receiveTurn. rewrite Hchat.
  wp_go trivial_inv.
  all: proj; known; proj; rewrite <- ?app_assoc;
    repeat match goal with
           | |- _ /\ _ => split
           | |- exists _, _ =>
               eexists; split; [reflexivity | split; [phases; reflexivity | count; auto]]
           end; try reflexivity.
Qed.

(** X19: when the turn generator answers with the end flag, its
    utterance is appended and synthesized first, then the end routine runs:
    the phases set are processing, interviewing, processing, completed, the
    generator, the synthesizer and the scoring endpoint are each called once,
    the respondent is not shown as speaking and no silence timeout is left. *)
Theorem generator_can_end_the_session :
  forall (r : Run) (w : World) (userMessage aiText : string),
    phase (state (cur r)) = Phase.interviewing ->
    isEndingRef (refs (cur r)) = false ->
    chatResponse w = Resolved (aiText, Some true) ->
    let r' := getAIResponse w userMessage r in
    phase (state (cur r')) = Phase.completed /\
    isEndingRef (refs (cur r')) = true /\
    isUserSpeaking (state (cur r')) = false /\
    silenceTimerRef (refs (cur r')) = None /\
    messages (state (cur r')) =
      messages (state (cur r)) ++ [{| role := ai; content := aiText; timestamp := now w |}] /\
    phasesSet (emitted (getAIResponse w userMessage) r) =
      [Phase.processing; Phase.interviewing; Phase.processing; Phase.completed] /\
    calls isChat (emitted (getAIResponse w userMessage) r) = 1%nat /\
    calls isTts (emitted (getAIResponse w userMessage) r) = 1%nat /\
    calls isScore (emitted (getAIResponse w userMessage) r) = 1%nat /\
    firstn 4 (emitted (getAIResponse w userMessage) r) =
      [ESetPhase Phase.processing; EFetch (ApiChat userMessage);
       ESetPhase Phase.interviewing; EFetch (ApiTts aiText)].
Proof.
  intros r w userMessage aiText HP HE Hchat. cbv zeta.
  destruct r as [s p]. cbn [cur] in *.
  assert (Hp : Forall (fun _ : t => True) (s :: p)) by (apply Forall_forall; auto).
  destruct (getAIResponse_ends w userMessage aiText s HP HE Hchat p Hp)
    as [(H1 & H2 & _ & H4 & H5 & H6 & _ & (rest & Hlog & Hph & Hsc & Hch & Htts)) _].
  rewrite (emitted_added _ _ _ Hlog).
  rewrite phasesSet_app, !calls_app, Hph, Hsc, Hch, Htts.
  repeat split; try assumption; reflexivity.
Qed.

Lemma generator_can_end_the_session_witness :
  phase (state (cur (getAIResponse Episode.closing "hello" Scenario.listening)))
    = Phase.completed /\
  calls isScore (emitted (getAIResponse Episode.closing "hello") Scenario.listening) = 1%nat.
Proof.
  assert (HP : phase (state (cur Scenario.listening)) = Phase.interviewing)
    by (vm_compute; reflexivity).
  assert (HE : isEndingRef (refs (cur Scenario.listening)) = false)
    by (vm_compute; reflexivity).
  destruct (generator_can_end_the_session Scenario.listening Episode.closing "hello"
              "Thank you, that is all." HP HE eq_refl)
    as (H1 & _ & _ & _ & _ & _ & _ & _ & H9 & _).
  split; [exact H1 | exact H9].
Defined.

(* ------------------------------------------------------------------ *)
(** ** The microphone after the end *)

Lemma stopRecording_keeps_stream (h : RecorderHook.t) :
  Capture.holdsStream (snd (fst (RecorderHook.stopRecording h))) = Capture.holdsStream h /\
  calls Capture.isTrackStop (snd (RecorderHook.stopRecording h)) = 0%nat.
Proof.
  unfold RecorderHook.stopRecording, Capture.holdsStream, AudioRecorder.stop,
    AudioRecorder.isRecording.
  destruct (RecorderHook.recorderRef h) as [r|] eqn:Href; cbn; [|rewrite Href; auto].
  destruct (AudioRecorder.recording r); cbn; [|rewrite Href; auto].
  destruct (AudioRecorder.mediaRecorder r); cbn; auto.
Qed.

Lemma withRecorderRef_keeps_stream (f : AudioRecorder.t -> AudioRecorder.t) (h : RecorderHook.t) :
  (forall r, AudioRecorder.stream (f r) = AudioRecorder.stream r) ->
  Capture.holdsStream (withRecorderRef f h) = Capture.holdsStream h.
Proof.
  intros Hf. unfold Capture.holdsStream, withRecorderRef. cbn.
  destruct (RecorderHook.recorderRef h); cbn; auto.
Qed.

Lemma ondataavailable_keeps_stream (data : Blob) (r : AudioRecorder.t) :
  AudioRecorder.stream (fst (AudioRecorder.ondataavailable data r)) = AudioRecorder.stream r.
Proof. unfold AudioRecorder.ondataavailable. destruct (0 <? blob_size data); reflexivity. Qed.

(** Counts the releases of the microphone in a log built by appending. *)
Ltac releases :=
  repeat rewrite calls_app;
  repeat match goal with
         | |- context [calls Capture.isTrackStop (snd (RecorderHook.stopRecording ?h))] =>
             rewrite (proj2 (stopRecording_keeps_stream h))
         | |- context [calls Capture.isTrackStop (snd (Deepgram.disconnect ?d))] =>
             rewrite (calls_capture Capture.isTrackStop _ ltac:(capture_only)
                        (disconnect_capture_free d))
         | |- context [calls Capture.isTrackStop (snd (Deepgram.handle ?e ?d))] =>
             rewrite (calls_capture Capture.isTrackStop _ ltac:(capture_only)
                        (handle_capture_free e d))
         | |- context [calls Capture.isTrackStop (Deepgram.sendAudio ?a ?d)] =>
             rewrite (calls_capture Capture.isTrackStop _ ltac:(capture_only)
                        (sendAudio_capture_free a d))
         end;
  cbn [calls filter length Capture.isTrackStop Nat.add];
  rewrite ?(proj1 (stopRecording_keeps_stream _)),
          ?(withRecorderRef_keeps_stream _ _ (ondataavailable_keeps_stream _)),
          ?(withRecorderRef_keeps_stream AudioRecorder.onerror _ (fun _ => eq_refl)).

(** The end routine, with whatever closure, leaves the MediaStream alone. *)
Lemma end_keeps_stream (isRecording : bool) (w : World) (s : t) :
  wp (endInterviewInternal isRecording w) (fun _ => True)
     (fun s' =>
        Capture.holdsStream (recorder s') = Capture.holdsStream (recorder s) /\
        calls Capture.isTrackStop (log s') = calls Capture.isTrackStop (log s) /\
        isEndingRef (refs s') = true) s.
Proof.
  destruct isRecording.
  all: wp_go trivial_inv.
  all: proj; known; releases; repeat split; try reflexivity; try assumption; lia.
Qed.

(** After the end, no event releases the microphone either. *)
Lemma step_ended_stream e w s :
  isEndingRef (refs s) = true ->
  phase (state s) = Phase.completed ->
  timerRef (refs s) = false ->
  wp (handler e w) (fun _ => True)
     (fun s' =>
        Capture.holdsStream (recorder s') = Capture.holdsStream (recorder s) /\
        calls Capture.isTrackStop (log s') = calls Capture.isTrackStop (log s)) s.
Proof.
  intros HE HP HT. destruct e.
  all: wp_go trivial_inv.
  all: proj; known; releases; repeat split; try reflexivity; lia.
Qed.

Lemma effects_keep_stream pre w s :
  wp (effects pre w) (fun _ => True)
     (fun s' =>
        Capture.holdsStream (recorder s') = Capture.holdsStream (recorder s) /\
        calls Capture.isTrackStop (log s') = calls Capture.isTrackStop (log s) /\
        isEndingRef (refs s') = isEndingRef (refs s)) s.
Proof.
  eapply wp_conseq; [|apply effects_frame].
  intros s' (_ & _ & _ & _ & _ & F6 & _ & F8 & _ & (fx & Flog & Ffx) & _).
  rewrite F6, Flog, calls_app.
  rewrite (calls_capture Capture.isTrackStop fx ltac:(capture_only) (silence_capture_free _ Ffx)).
  repeat split; [lia | exact F8].
Qed.

Lemma exec_ended_stream evs :
  forall r : Run,
    isEndingRef (refs (cur r)) = true ->
    phase (state (cur r)) = Phase.completed ->
    timerRef (refs (cur r)) = false ->
    Capture.holdsStream (recorder (cur (exec evs r))) = Capture.holdsStream (recorder (cur r)) /\
    calls Capture.isTrackStop (log (cur (exec evs r))) =
      calls Capture.isTrackStop (log (cur r)).
Proof.
  induction evs as [|[e w] evs IH]; intros r HE HP HT.
  - split; reflexivity.
  - cbn [exec]. destruct r as [s p]. cbn [cur] in *.
    assert (Hp : Forall (fun _ : t => True) (s :: p)) by (apply Forall_forall; auto).
    destruct (step_ended e w s HE HP HT p Hp) as [(HE' & HP' & HT' & _) _].
    destruct (IH _ HE' HP' HT') as [IH1 IH2].
    assert (Hstep : wp (step e w) (fun _ => True)
              (fun s' =>
                 Capture.holdsStream (recorder s') = Capture.holdsStream (recorder s) /\
                 calls Capture.isTrackStop (log s') = calls Capture.isTrackStop (log s)) s).
    { apply wp_step. eapply wp_conseq; [|apply step_ended_stream; assumption].
      intros s1 [A1 A2]. eapply wp_conseq; [|apply effects_keep_stream].
      intros s2 (B1 & B2 & _). split; congruence. }
    destruct (Hstep p Hp) as [[S1 S2] _].
    split; congruence.
Qed.

(** X20: in any run, a stop request and whatever events follow it
    leave the MediaStream of the recorder as it was and stop no track: a
    microphone that was open when the interview ended stays open.  Only a
    later [startRecording] or the cleanup on unmount, which is not part of
    the events, releases it. *)
Theorem end_never_releases_microphone :
  forall (r : Run) (w : World) (evs : list (Event * World)),
    reachable r ->
    let ended := step EndInterview w r in
    phase (state (cur ended)) = Phase.completed /\
    Capture.holdsStream (recorder (cur (exec evs ended))) =
      Capture.holdsStream (recorder (cur r)) /\
    calls Capture.isTrackStop (log (cur (exec evs ended))) =
      calls Capture.isTrackStop (log (cur r)).
Proof.
  intros r w evs Hr ended.
  assert (Hre : reachable ended) by (apply reachable_step; exact Hr).
  destruct (reachable_quiescent ended Hre) as [(_ & _ & H3 & _) _].
  assert (Hend : Capture.holdsStream (recorder (cur ended)) =
                   Capture.holdsStream (recorder (cur r)) /\
                 calls Capture.isTrackStop (log (cur ended)) =
                   calls Capture.isTrackStop (log (cur r)) /\
                 isEndingRef (refs (cur ended)) = true).
  { subst ended. destruct r as [s p]. cbn [cur].
    assert (Hp : Forall (fun _ : t => True) (s :: p)) by (apply Forall_forall; auto).
    assert (Hstep : wp (step EndInterview w) (fun _ => True)
              (fun s' =>
                 Capture.holdsStream (recorder s') = Capture.holdsStream (recorder s) /\
                 calls Capture.isTrackStop (log s') = calls Capture.isTrackStop (log s) /\
                 isEndingRef (refs s') = true) s).
    { apply wp_step. cbn [handler]. unfold endInterview.
      eapply wp_conseq; [|apply end_keeps_stream].
      intros s1 (A1 & A2 & A3). eapply wp_conseq; [|apply effects_keep_stream].
      intros s2 (B1 & B2 & B3). repeat split; congruence. }
    exact (proj1 (Hstep p Hp)). }
  destruct Hend as (E1 & E2 & E3). destruct (H3 E3) as [HP HT].
  destruct (exec_ended_stream evs ended E3 HP HT) as [X1 X2].
  split; [exact HP | split; congruence].
Qed.

Lemma end_never_releases_microphone_witness :
  Capture.holdsStream (recorder (cur Scenario.heard)) = true /\
  Capture.holdsStream
    (recorder (cur (exec [(TimerTick, Scenario.world 5000 0 firstRender);
                          (RecorderError, Scenario.world 6000 0 firstRender)]
                         (step EndInterview (Scenario.world 4000 0 (Scenario.whileRecording ""))
                               Scenario.heard))))
  = Capture.holdsStream (recorder (cur Scenario.heard)).
Proof.
  split; [vm_compute; reflexivity|].
  exact (proj1 (proj2 (end_never_releases_microphone Scenario.heard
                         (Scenario.world 4000 0 (Scenario.whileRecording ""))
                         [(TimerTick, Scenario.world 5000 0 firstRender);
                          (RecorderError, Scenario.world 6000 0 firstRender)]
                         reachable_heard))).
Defined.

(* ------------------------------------------------------------------ *)
(** ** The playback queue *)

Lemma started_drain (fate : AudioPlayer.ArrayBuffer -> AudioPlayer.Fate)
    (queue : list AudioPlayer.ArrayBuffer) :
  AudioPlayer.started (AudioPlayer.drain fate queue) = filter (AudioPlayer.plays fate) queue.
Proof.
  induction queue as [|data rest IH]; [reflexivity|].
  cbn [AudioPlayer.drain filter]. unfold AudioPlayer.plays at 1.
  unfold AudioPlayer.started in *.
  destruct (fate data); cbn [flat_map app]; rewrite ?IH; reflexivity.
Qed.

(** X21: [play] on a player that is not playing and not aborted starts
    the queued buffers and then the new one, in that order, leaving out
    exactly those that cannot be decoded or whose context cannot be resumed;
    a warning is logged for each buffer that cannot be decoded and for no
    other; afterwards the queue is empty and the player is not playing. *)
Theorem player_plays_queue_in_order :
  forall (fate : AudioPlayer.ArrayBuffer -> AudioPlayer.Fate)
         (data : AudioPlayer.ArrayBuffer) (p : AudioPlayer.t),
    AudioPlayer.isPlaying p = false ->
    (AudioPlayer.audioContext p = true -> AudioPlayer.aborted p = false) ->
    let played := AudioPlayer.play fate data p in
    AudioPlayer.started (snd played) =
      filter (AudioPlayer.plays fate) (AudioPlayer.audioQueue p ++ [data]) /\
    AudioPlayer.audioQueue (fst played) = [] /\
    AudioPlayer.isPlaying (fst played) = false /\
    AudioPlayer.audioContext (fst played) = true /\
    (forall d, In (AudioPlayer.Warned d) (snd played) <->
               In d (AudioPlayer.audioQueue p ++ [data]) /\
               fate d = AudioPlayer.DecodeFails).
Proof.
  intros fate data p Hidle Hab. cbv zeta.
  assert (Hwarn : forall q d, In (AudioPlayer.Warned d) (AudioPlayer.drain fate q) <->
                              In d q /\ fate d = AudioPlayer.DecodeFails).
  { induction q as [|x q IH]; intros d; cbn [AudioPlayer.drain In].
    - tauto.
    - destruct (fate x) eqn:Hx; cbn [In]; rewrite IH; split.
      + intros [H|H]; [discriminate H | tauto].
      + intros [[->|H] Hd]; [congruence | tauto].
      + intros [H|H]; [injection H as ->; tauto | tauto].
      + intros [[->|H] Hd]; tauto.
      + tauto.
      + intros [[->|H] Hd]; [congruence | tauto]. }
  unfold AudioPlayer.play, AudioPlayer.init, AudioPlayer.push, AudioPlayer.processQueue.
  destruct (AudioPlayer.audioContext p) eqn:Hctx; cbn; rewrite Hidle; cbn.
  - rewrite (Hab eq_refl), Hctx. cbn. rewrite started_drain.
    split; [|split; [|split; [|split]]]; try reflexivity. intros d. apply Hwarn.
  - rewrite started_drain.
    split; [|split; [|split; [|split]]]; try reflexivity. intros d. apply Hwarn.
Qed.

Lemma player_plays_queue_in_order_witness :
  let fate := fun d : AudioPlayer.ArrayBuffer =>
                if String.eqb d "broken" then AudioPlayer.DecodeFails else AudioPlayer.Plays in
  let p := {| AudioPlayer.audioContext := true; AudioPlayer.audioQueue := ["a"; "broken"];
              AudioPlayer.isPlaying := false; AudioPlayer.currentSource := None;
              AudioPlayer.aborted := false |} in
  AudioPlayer.started (snd (AudioPlayer.play fate "b" p)) = ["a"; "b"].
Proof.
  intros fate p.
  exact (proj1 (player_plays_queue_in_order fate "b" p eq_refl (fun _ => eq_refl))).
Defined.

(** X22: a buffer played right after [stop], before the timeout of
    [stop] has cleared the abort flag, is queued but not started, and [play]
    returns with the player idle; the buffer is started by the next [play],
    before the buffer of that call.  After [destroy] the same call starts
    the buffer at once, since the new context clears the flag. *)
Theorem play_after_stop_is_deferred :
  forall (fate : AudioPlayer.ArrayBuffer -> AudioPlayer.Fate)
         (first second : AudioPlayer.ArrayBuffer) (p : AudioPlayer.t),
    AudioPlayer.audioContext p = true ->
    let stopped := fst (AudioPlayer.stop p) in
    let early := AudioPlayer.play fate first stopped in
    let late := AudioPlayer.play fate second (AudioPlayer.abortReset (fst early)) in
    AudioPlayer.audioQueue stopped = [] /\
    snd early = [] /\
    AudioPlayer.audioQueue (fst early) = [first] /\
    AudioPlayer.isPlaying (fst early) = false /\
    AudioPlayer.started (snd late) = filter (AudioPlayer.plays fate) [first; second] /\
    AudioPlayer.started
      (snd (AudioPlayer.play fate first (fst (AudioPlayer.destroy p)))) =
      filter (AudioPlayer.plays fate) [first].
Proof.
  intros fate first second p Hctx. cbv zeta.
  destruct p as [ctx queue playing source ab]. cbn in Hctx. subst ctx.
  cbn -[AudioPlayer.drain AudioPlayer.started filter].
  rewrite !started_drain. repeat split; reflexivity.
Qed.

Lemma play_after_stop_is_deferred_witness :
  let fate := fun _ : AudioPlayer.ArrayBuffer => AudioPlayer.Plays in
  let p := AudioPlayer.init AudioPlayer.new in
  snd (AudioPlayer.play fate "late" (fst (AudioPlayer.stop p))) = [].
Proof.
  intros fate p.
  exact (proj1 (proj2 (play_after_stop_is_deferred fate "late" "next" p eq_refl))).
Defined.

(* ------------------------------------------------------------------ *)
(** ** The routes behind the orchestrator *)

(** X23: every answer of the chat route with status 200 carries the
    utterance in the field [message] and has no field [response], which is
    the field [getAIResponse] reads: the orchestrator gets [undefined] as the
    utterance and the end flag of the route, and the speech route answers
    400 to the request for an undefined text. *)
Theorem chat_answer_is_not_read :
  forall (w : ChatRoute.World) (request : Result ChatRoute.Body),
    let answer := fst (ChatRoute.POST w request) in
    ChatRoute.status answer = 200 ->
    exists (text : string) (ending : bool),
      Json.get "message" (ChatRoute.body answer) = Some (Json.JString text) /\
      Json.get "shouldEnd" (ChatRoute.body answer) = Some (Json.JBool ending) /\
      Wire.readChat answer = Resolved (None, ending) /\
      forall speech : TtsRoute.SpeechRequest -> Result string,
        TtsRoute.POST (Resolved (Wire.ttsRequest None)) speech =
          TtsRoute.json 400 "textは必須です".
Proof.
  intros w request answer. subst answer. unfold ChatRoute.POST.
  destruct request as [b|e]; cbn [fst]; [|intros H; discriminate H].
  destruct (negb (truthy (nullish (ChatRoute.sessionId b) ""))
            || negb (truthy (nullish (ChatRoute.message b) "")));
    [intros H; discriminate H|].
  destruct (ChatRoute.find w _) as [[session|]|e]; try (intros H; discriminate H).
  destruct (negb (String.eqb (Db.status session) "IN_PROGRESS")); [intros H; discriminate H|].
  destruct (negb (ChatRoute.writes w _)); [intros H; discriminate H|].
  destruct (ChatRoute.generate w b session _) as [turn|e]; [|intros H; discriminate H].
  destruct (negb (ChatRoute.writes w _)); [intros H; discriminate H|].
  destruct (negb (ChatRoute.writes w _)); [intros H; discriminate H|].
  intros _. exists (ChatRoute.aiMessage turn), (ChatRoute.shouldEnd turn).
  cbn. unfold Wire.readChat. cbn. destruct (ChatRoute.shouldEnd turn); repeat split; reflexivity.
Qed.

Lemma chat_answer_is_not_read_witness :
  let answer := fst (ChatRoute.POST (Served.chat Served.session)
                       (Resolved (Wire.chatRequest "s1" "It crashed."))) in
  ChatRoute.status answer = 200 /\
  exists (text : string) (ending : bool),
    Json.get "message" (ChatRoute.body answer) = Some (Json.JString text) /\
    Json.get "shouldEnd" (ChatRoute.body answer) = Some (Json.JBool ending) /\
    Wire.readChat answer = Resolved (None, ending) /\
    forall speech : TtsRoute.SpeechRequest -> Result string,
      TtsRoute.POST (Resolved (Wire.ttsRequest None)) speech =
        TtsRoute.json 400 "textは必須です".
Proof.
  intros answer. split; [vm_compute; reflexivity|].
  apply (chat_answer_is_not_read (Served.chat Served.session)
           (Resolved (Wire.chatRequest "s1" "It crashed."))).
  vm_compute. reflexivity.
Defined.

(** The answer of the chat route on a request that passes its guards. *)
Lemma chat_guarded (w : ChatRoute.World) (b : ChatRoute.Body) (id text : string)
    (session : Db.Session) :
  ChatRoute.sessionId b = Some id -> id <> "" ->
  ChatRoute.message b = Some text -> text <> "" ->
  ChatRoute.find w id = Resolved (Some session) ->
  Db.status session = "IN_PROGRESS" ->
  ChatRoute.POST w (Resolved b) =
    let crash := ChatRoute.failure 500 "AI応答の生成に失敗しました" in
    let currentTime := Interviewer.default (ChatRoute.elapsedSeconds b) 0 in
    let asked := ChatRoute.row "respondent" text currentTime in
    if negb (ChatRoute.writes w asked) then (crash, [])
    else
      match ChatRoute.generate w b session text with
      | Rejected _ => (crash, [asked])
      | Resolved turn =>
          let answered := ChatRoute.row "ai" (ChatRoute.aiMessage turn) currentTime in
          if negb (ChatRoute.writes w answered) then (crash, [asked])
          else
            let update :=
              Db.SessionTurn
                (if ChatRoute.shouldEnd turn
                 then Some (ChatRoute.now w, ChatRoute.elapsedSeconds b) else None) in
            if negb (ChatRoute.writes w update) then (crash, [asked; answered])
            else
              ({| ChatRoute.status := 200;
                  ChatRoute.body :=
                    [("message", Json.JString (ChatRoute.aiMessage turn));
                     ("isFollowUp", Json.JBool (ChatRoute.isFollowUp turn));
                     ("shouldEnd", Json.JBool (ChatRoute.shouldEnd turn));
                     ("currentPhase", Json.JString (ChatRoute.currentPhase turn));
                     ("turnCount", Json.JNumber (Db.turnCount session + 1))] |},
               [asked; answered; update])
      end.
Proof.
  intros Hid Hne Hmsg Hne' Hfind Hstatus. unfold ChatRoute.POST.
  rewrite Hid, Hmsg. cbn [nullish]. unfold truthy.
  destruct (String.eqb_spec id ""); [contradiction|].
  destruct (String.eqb_spec text ""); [contradiction|].
  cbn [negb orb]. rewrite Hfind, Hstatus. cbn. reflexivity.
Qed.

(** X24: when the chat route answers 200, the database holds the
    transcript it held followed by the utterance of the respondent and the
    reply, both at the elapsed time of the request (0 when it gives none);
    the turn count of the session is one more and is the one of the answer;
    and the session is completed exactly when the answer carries the end
    flag. *)
Theorem chat_turn_is_recorded :
  forall (w : ChatRoute.World) (b : ChatRoute.Body) (id text : string) (session : Db.Session),
    ChatRoute.sessionId b = Some id -> id <> "" ->
    ChatRoute.message b = Some text -> text <> "" ->
    ChatRoute.find w id = Resolved (Some session) ->
    Db.status session = "IN_PROGRESS" ->
    let answer := fst (ChatRoute.POST w (Resolved b)) in
    let after := Db.applyAll (snd (ChatRoute.POST w (Resolved b))) session in
    let time := Interviewer.default (ChatRoute.elapsedSeconds b) 0 in
    ChatRoute.status answer = 200 ->
    exists reply : string,
      Json.get "message" (ChatRoute.body answer) = Some (Json.JString reply) /\
      Db.transcripts after =
        Db.transcripts session
          ++ [{| Db.speaker := "respondent"; Db.t_text := text;
                 Db.startTime := time; Db.endTime := time |};
              {| Db.speaker := "ai"; Db.t_text := reply;
                 Db.startTime := time; Db.endTime := time |}] /\
      Db.turnCount after = Db.turnCount session + 1 /\
      Json.get "turnCount" (ChatRoute.body answer) = Some (Json.JNumber (Db.turnCount after)) /\
      (Db.status after = "COMPLETED" <->
       Json.get "shouldEnd" (ChatRoute.body answer) = Some (Json.JBool true)).
Proof.
  intros w b id text session Hid Hne Hmsg Hne' Hfind Hstatus. cbv zeta.
  rewrite (chat_guarded w b id text session Hid Hne Hmsg Hne' Hfind Hstatus). cbv zeta.
  destruct (negb (ChatRoute.writes w _)); [intros H; discriminate H|].
  destruct (ChatRoute.generate w b session text) as [turn|e]; [|intros H; discriminate H].
  destruct (negb (ChatRoute.writes w _)); [intros H; discriminate H|].
  destruct (negb (ChatRoute.writes w _)); [intros H; discriminate H|].
  intros _. exists (ChatRoute.aiMessage turn).
  unfold Db.applyAll, ChatRoute.row. cbn [fst snd fold_left Db.apply].
  destruct (ChatRoute.shouldEnd turn); cbn; rewrite <- ?app_assoc; cbn;
    (split; [reflexivity|]); (split; [reflexivity|]); (split; [reflexivity|]);
    (split; [reflexivity|]).
  - split; reflexivity.
  - rewrite Hstatus. split; intros H; discriminate H.
Qed.

Lemma chat_turn_is_recorded_witness :
  Db.turnCount
    (Db.applyAll (snd (ChatRoute.POST (Served.chat Served.session)
                         (Resolved (Wire.chatRequest "s1" "It crashed."))))
                 Served.session)
  = Db.turnCount Served.session + 1.
Proof.
  assert (Hok : ChatRoute.status
                  (fst (ChatRoute.POST (Served.chat Served.session)
                          (Resolved (Wire.chatRequest "s1" "It crashed.")))) = 200)
    by (vm_compute; reflexivity).
  assert (Hid : "s1" <> "") by discriminate.
  assert (Htext : "It crashed." <> "") by discriminate.
  destruct (chat_turn_is_recorded (Served.chat Served.session)
              (Wire.chatRequest "s1" "It crashed.") "s1" "It crashed." Served.session
              eq_refl Hid eq_refl Htext eq_refl eq_refl Hok) as (reply & _ & _ & H & _).
  exact H.
Defined.

(** X25: the chat route answers 200, 400, 404 or 500.  It writes
    nothing before 400 and 404; before 500 it has written at most the two
    transcript rows and never the update of the session.  In particular,
    when the interviewer cannot be built and the fallback model fails, the
    answer is 500, which the orchestrator turns into its failure message,
    and the utterance of the respondent stays recorded without a reply. *)
Theorem chat_failure_keeps_the_question :
  forall (w : ChatRoute.World) (request : Result ChatRoute.Body),
    let answer := fst (ChatRoute.POST w request) in
    let written := snd (ChatRoute.POST w request) in
    In (ChatRoute.status answer) [200; 400; 404; 500] /\
    (ChatRoute.status answer = 400 \/ ChatRoute.status answer = 404 -> written = []) /\
    (ChatRoute.status answer = 500 ->
     (length written <= 2)%nat /\ forall c, ~ In (Db.SessionTurn c) written) /\
    (forall (b : ChatRoute.Body) (id text : string) (session : Db.Session),
       request = Resolved b ->
       ChatRoute.sessionId b = Some id -> id <> "" ->
       ChatRoute.message b = Some text -> text <> "" ->
       ChatRoute.find w id = Resolved (Some session) ->
       Db.status session = "IN_PROGRESS" ->
       ChatRoute.writes w
         (ChatRoute.row "respondent" text
            (Interviewer.default (ChatRoute.elapsedSeconds b) 0)) = true ->
       (exists e, ChatRoute.interviewer w = Rejected e) ->
       (forall q, exists e, ChatRoute.anthropic w q = Rejected e) ->
       ChatRoute.status answer = 500 /\
       written = [ChatRoute.row "respondent" text
                    (Interviewer.default (ChatRoute.elapsedSeconds b) 0)] /\
       Wire.readChat answer = Rejected "AI応答の取得に失敗しました").
Proof.
  intros w request. cbv zeta. split; [|split; [|split]].
  - unfold ChatRoute.POST.
    destruct request as [b|e]; cbn; [|tauto].
    destruct (negb (truthy (nullish (ChatRoute.sessionId b) ""))
              || negb (truthy (nullish (ChatRoute.message b) ""))); cbn; [tauto|].
    destruct (ChatRoute.find w _) as [[session|]|e]; cbn; try tauto.
    destruct (negb (String.eqb (Db.status session) "IN_PROGRESS")); cbn; [tauto|].
    destruct (negb (ChatRoute.writes w _)); cbn; [tauto|].
    destruct (ChatRoute.generate w b session _) as [turn|e]; cbn; [|tauto].
    destruct (negb (ChatRoute.writes w _)); cbn; [tauto|].
    destruct (negb (ChatRoute.writes w _)); cbn; tauto.
  - unfold ChatRoute.POST.
    destruct request as [b|e]; cbn; [|intros [H|H]; discriminate H].
    destruct (negb (truthy (nullish (ChatRoute.sessionId b) ""))
              || negb (truthy (nullish (ChatRoute.message b) ""))); cbn; [reflexivity|].
    destruct (ChatRoute.find w _) as [[session|]|e]; cbn; try reflexivity.
    destruct (negb (String.eqb (Db.status session) "IN_PROGRESS")); cbn; [reflexivity|].
    destruct (negb (ChatRoute.writes w _)); cbn; [reflexivity|].
    destruct (ChatRoute.generate w b session _) as [turn|e]; cbn;
      [|intros [H|H]; discriminate H].
    destruct (negb (ChatRoute.writes w _)); cbn; [intros [H|H]; discriminate H|].
    destruct (negb (ChatRoute.writes w _)); cbn; intros [H|H]; discriminate H.
  - unfold ChatRoute.POST, ChatRoute.row.
    destruct request as [b|e]; cbn; [|intros _; split; [lia | tauto]].
    destruct (negb (truthy (nullish (ChatRoute.sessionId b) ""))
              || negb (truthy (nullish (ChatRoute.message b) ""))); cbn;
      [intros H; discriminate H|].
    destruct (ChatRoute.find w _) as [[session|]|e]; cbn;
      try (intros H; discriminate H); try (intros _; split; [lia | tauto]).
    destruct (negb (String.eqb (Db.status session) "IN_PROGRESS")); cbn;
      [intros H; discriminate H|].
    destruct (negb (ChatRoute.writes w _)); cbn; [intros _; split; [lia | tauto]|].
    destruct (ChatRoute.generate w b session _) as [turn|e]; cbn.
    + destruct (negb (ChatRoute.writes w _)); cbn.
      * intros _. split; [lia|]. intros c [H|[]]. discriminate H.
      * destruct (negb (ChatRoute.writes w _)); cbn; [|intros H; discriminate H].
        intros _. split; [lia|]. intros c [H|[H|[]]]; discriminate H.
    + intros _. split; [lia|]. intros c [H|[]]. discriminate H.
  - intros b id text session -> Hid Hne Hmsg Hne' Hfind Hstatus Hw [e He] Hdown.
    rewrite (chat_guarded w b id text session Hid Hne Hmsg Hne' Hfind Hstatus). cbv zeta.
    rewrite Hw. cbn [negb]. unfold ChatRoute.generate. rewrite He.
    match goal with |- context [ChatRoute.anthropic w ?q] => destruct (Hdown q) as [e' ->] end.
    cbn. repeat split; reflexivity.
Qed.

Lemma chat_failure_keeps_the_question_witness :
  snd (ChatRoute.POST (Served.chatDown Served.session)
         (Resolved (Wire.chatRequest "s1" "It crashed."))) =
    [ChatRoute.row "respondent" "It crashed." 0].
Proof.
  assert (Hid : "s1" <> "") by discriminate.
  assert (Htext : "It crashed." <> "") by discriminate.
  destruct (chat_failure_keeps_the_question (Served.chatDown Served.session)
              (Resolved (Wire.chatRequest "s1" "It crashed."))) as (_ & _ & _ & H).
  exact (proj1 (proj2
    (H (Wire.chatRequest "s1" "It crashed.") "s1" "It crashed." Served.session
       eq_refl eq_refl Hid eq_refl Htext eq_refl eq_refl eq_refl
       (ex_intro _ "no key" eq_refl)
       (fun q => ex_intro _ "overloaded" eq_refl)))).
Defined.

(** X26: when the interviewer is built but its model fails on every
    request, the chat route still answers 200: the reply is the apology of
    the interviewer, without end flag, in phase main; it is recorded as an
    utterance of the interviewer and the turn count is incremented.  The
    fallback model is not consulted. *)
Theorem failing_model_is_answered_with_apology :
  forall (w : ChatRoute.World) (b : ChatRoute.Body) (id text : string)
         (session : Db.Session) (claude : Interviewer.Claude),
    ChatRoute.sessionId b = Some id -> id <> "" ->
    ChatRoute.message b = Some text -> text <> "" ->
    ChatRoute.find w id = Resolved (Some session) ->
    Db.status session = "IN_PROGRESS" ->
    (forall write, ChatRoute.writes w write = true) ->
    ChatRoute.interviewer w = Resolved claude ->
    (forall q, claude q = None) ->
    let time := Interviewer.default (ChatRoute.elapsedSeconds b) 0 in
    ChatRoute.POST w (Resolved b) =
      ({| ChatRoute.status := 200;
          ChatRoute.body :=
            [("message", Json.JString Interviewer.apology);
             ("isFollowUp", Json.JBool false);
             ("shouldEnd", Json.JBool false);
             ("currentPhase", Json.JString "main");
             ("turnCount", Json.JNumber (Db.turnCount session + 1))] |},
       [ChatRoute.row "respondent" text time;
        ChatRoute.row "ai" Interviewer.apology time;
        Db.SessionTurn None]).
Proof.
  intros w b id text session claude Hid Hne Hmsg Hne' Hfind Hstatus Hw Hi Hdown. cbv zeta.
  rewrite (chat_guarded w b id text session Hid Hne Hmsg Hne' Hfind Hstatus). cbv zeta.
  rewrite !Hw. cbn [negb].
  unfold ChatRoute.generate. rewrite Hi.
  unfold Interviewer.respond, Interviewer.generateResponse. rewrite Hdown.
  cbn [fst Interviewer.message Interviewer.isFollowUp Interviewer.shouldEnd
       Interviewer.currentPhase ChatRoute.aiMessage ChatRoute.isFollowUp
       ChatRoute.shouldEnd ChatRoute.currentPhase].
  rewrite !Hw. reflexivity.
Qed.

Lemma failing_model_is_answered_with_apology_witness :
  let w := {| ChatRoute.now := 61000;
              ChatRoute.find := fun _ => Resolved (Some Served.session);
              ChatRoute.writes := fun _ => true;
              ChatRoute.interviewer := Resolved (fun _ => None);
              ChatRoute.anthropic := fun _ => Resolved (Some "I see.") |} in
  ChatRoute.status
    (fst (ChatRoute.POST w (Resolved (Wire.chatRequest "s1" "It crashed.")))) = 200.
Proof.
  intros w.
  assert (Hid : "s1" <> "") by discriminate.
  assert (Htext : "It crashed." <> "") by discriminate.
  rewrite (failing_model_is_answered_with_apology w (Wire.chatRequest "s1" "It crashed.")
             "s1" "It crashed." Served.session (fun _ => None)
             eq_refl Hid eq_refl Htext eq_refl eq_refl (fun _ => eq_refl) eq_refl
             (fun _ => eq_refl)).
  reflexivity.
Defined.

(** A write of the chat route that records no time. *)
Lemma timeless_rows (w : ChatRoute.World) (id text : string) :
  forall write : Db.Write,
    In write (snd (ChatRoute.POST w (Resolved (Wire.chatRequest id text)))) ->
    match write with
    | Db.TranscriptCreate r => Db.startTime r = 0 /\ Db.endTime r = 0
    | Db.SessionTurn (Some (_, d)) => d = None
    | _ => True
    end.
Proof.
  unfold ChatRoute.POST, Wire.chatRequest, ChatRoute.row.
  cbn [ChatRoute.sessionId ChatRoute.message ChatRoute.elapsedSeconds nullish
       Interviewer.default].
  destruct (negb (truthy id) || negb (truthy text)); cbn [snd In]; [tauto|].
  destruct (ChatRoute.find w id) as [[session|]|e]; cbn [snd In]; try tauto.
  destruct (negb (String.eqb (Db.status session) "IN_PROGRESS")); cbn [snd In]; [tauto|].
  destruct (negb (ChatRoute.writes w _)); cbn [snd In]; [tauto|].
  destruct (ChatRoute.generate w _ session text) as [turn|e]; cbn [snd In].
  - destruct (negb (ChatRoute.writes w _)); cbn [snd In].
    + intros write [<-|[]]. cbn. auto.
    + destruct (negb (ChatRoute.writes w _)); cbn [snd In].
      * intros write [<-|[<-|[]]]; cbn; auto.
      * intros write [<-|[<-|[<-|[]]]]; cbn; auto.
        destruct (ChatRoute.shouldEnd turn); auto.
  - intros write [<-|[]]. cbn. auto.
Qed.

(** X27: the request of the orchestrator carries neither the elapsed
    time nor the turn count.  So every transcript row the chat route writes
    for it is at time 0, a completed session gets no duration, and the
    fallback ends the interview by the stored turn count alone, never by
    the time limit. *)
Theorem orchestrator_turns_carry_no_time :
  forall (w : ChatRoute.World) (id text : string),
    let written := snd (ChatRoute.POST w (Resolved (Wire.chatRequest id text))) in
    (forall r, In (Db.TranscriptCreate r) written ->
               Db.startTime r = 0 /\ Db.endTime r = 0) /\
    (forall time d, In (Db.SessionTurn (Some (time, d))) written -> d = None) /\
    (forall (session : Db.Session) (e : string),
       ChatRoute.interviewer w = Rejected e ->
       forall turn,
         ChatRoute.generate w (Wire.chatRequest id text) session text = Resolved turn ->
         ChatRoute.shouldEnd turn =
           (Z.of_nat (length (Db.questions session)) * 3 + 2 <=? Db.turnCount session)).
Proof.
  intros w id text. cbv zeta. split; [|split].
  - intros r Hin. exact (timeless_rows w id text _ Hin).
  - intros time d Hin. exact (timeless_rows w id text _ Hin).
  - intros session e He turn. unfold ChatRoute.generate. rewrite He.
    cbn [Wire.chatRequest ChatRoute.turnCount ChatRoute.elapsedSeconds Interviewer.default].
    destruct (ChatRoute.anthropic w _) as [block|e']; [|intros H; discriminate H].
    intros H. injection H as <-. cbn [ChatRoute.shouldEnd].
    rewrite orb_false_r. reflexivity.
Qed.

Lemma orchestrator_turns_carry_no_time_witness :
  let asked := {| Db.speaker := "respondent"; Db.t_text := "It crashed.";
                  Db.startTime := 0; Db.endTime := 0 |} in
  In (Db.TranscriptCreate asked)
     (snd (ChatRoute.POST (Served.chat Served.session)
             (Resolved (Wire.chatRequest "s1" "It crashed.")))) /\
  Db.startTime asked = 0 /\ Db.endTime asked = 0.
Proof.
  intros asked.
  assert (Hin : In (Db.TranscriptCreate asked)
                   (snd (ChatRoute.POST (Served.chat Served.session)
                           (Resolved (Wire.chatRequest "s1" "It crashed."))))).
  { vm_compute. left. reflexivity. }
  split; [exact Hin|].
  exact (proj1 (orchestrator_turns_carry_no_time (Served.chat Served.session)
                  "s1" "It crashed.") asked Hin).
Defined.

(** X28: in the chat route the interviewer is created anew for each
    request and never started, so the request it makes to the model holds an
    empty project (no title, no question), a history of one utterance (the
    one of the respondent), the configured defaults (10 turns, 300 s), and as
    elapsed time the seconds since the epoch.  Its answer depends on the
    stored session through the turn count only. *)
Theorem interviewer_answer_ignores_the_session :
  forall (w : ChatRoute.World) (b : ChatRoute.Body) (session : Db.Session) (text : string)
         (claude : Interviewer.Claude),
    ChatRoute.interviewer w = Resolved claude ->
    text <> "" ->
    let asked :=
      {| Interviewer.projectContext := ("", None, []);
         Interviewer.sessionContext := [(Interviewer.respondent, text)];
         Interviewer.control :=
           {| Interviewer.currentTurn :=
                Interviewer.default (ChatRoute.turnCount b) (Db.turnCount session);
              Interviewer.maxTurns := 10;
              Interviewer.elapsedSeconds := ChatRoute.now w / 1000;
              Interviewer.maxSeconds := 300;
              Interviewer.questionIndex := 0;
              Interviewer.totalQuestions := 1 |} |} in
    ChatRoute.generate w b session text =
      Resolved
        match claude asked with
        | Some parsed =>
            {| ChatRoute.aiMessage := Interviewer.p_message parsed;
               ChatRoute.isFollowUp := Interviewer.p_isFollowUp parsed;
               ChatRoute.shouldEnd := Interviewer.p_shouldEnd parsed;
               ChatRoute.currentPhase := Interviewer.p_currentPhase parsed |}
        | None =>
            {| ChatRoute.aiMessage := Interviewer.apology; ChatRoute.isFollowUp := false;
               ChatRoute.shouldEnd := false; ChatRoute.currentPhase := "main" |}
        end /\
    forall other : Db.Session,
      Db.turnCount other = Db.turnCount session ->
      ChatRoute.generate w b other text = ChatRoute.generate w b session text.
Proof.
  intros w b session text claude Hi Hne. cbv zeta.
  assert (Ht : truthy text = true).
  { unfold truthy. destruct (String.eqb_spec text ""); [contradiction | reflexivity]. }
  assert (Hgen : forall s : Db.Session,
            ChatRoute.generate w b s text =
              Resolved
                match claude
                        {| Interviewer.projectContext := ("", None, []);
                           Interviewer.sessionContext := [(Interviewer.respondent, text)];
                           Interviewer.control :=
                             {| Interviewer.currentTurn :=
                                  Interviewer.default (ChatRoute.turnCount b) (Db.turnCount s);
                                Interviewer.maxTurns := 10;
                                Interviewer.elapsedSeconds := ChatRoute.now w / 1000;
                                Interviewer.maxSeconds := 300;
                                Interviewer.questionIndex := 0;
                                Interviewer.totalQuestions := 1 |} |} with
                | Some parsed =>
                    {| ChatRoute.aiMessage := Interviewer.p_message parsed;
                       ChatRoute.isFollowUp := Interviewer.p_isFollowUp parsed;
                       ChatRoute.shouldEnd := Interviewer.p_shouldEnd parsed;
                       ChatRoute.currentPhase := Interviewer.p_currentPhase parsed |}
                | None =>
                    {| ChatRoute.aiMessage := Interviewer.apology;
                       ChatRoute.isFollowUp := false; ChatRoute.shouldEnd := false;
                       ChatRoute.currentPhase := "main" |}
                end).
  { intros s. unfold ChatRoute.generate. rewrite Hi.
    unfold Interviewer.respond, Interviewer.generateResponse, Interviewer.request,
      Interviewer.withHistory, Interviewer.new.
    cbn [nullish Interviewer.r_message Interviewer.r_turnCount]. rewrite Ht.
    cbn -[Z.div]. rewrite Z.sub_0_r.
    destruct (claude _); reflexivity. }
  split.
  - apply Hgen.
  - intros other Hturn. rewrite (Hgen other), (Hgen session), Hturn. reflexivity.
Qed.

Lemma interviewer_answer_ignores_the_session_witness :
  ChatRoute.generate (Served.chat Served.session) (Wire.chatRequest "s1" "It crashed.")
    Served.pending "It crashed." =
  ChatRoute.generate (Served.chat Served.session) (Wire.chatRequest "s1" "It crashed.")
    {| Db.status := "IN_PROGRESS"; Db.turnCount := 0; Db.startedAt := None;
       Db.completedAt := None; Db.duration := None; Db.title := "Another project";
       Db.description := Some "other"; Db.questions := []; Db.respondentName := None;
       Db.transcripts := [] |} "It crashed.".
Proof.
  assert (Htext : "It crashed." <> "") by discriminate.
  exact (proj2 (interviewer_answer_ignores_the_session (Served.chat Served.session)
                  (Wire.chatRequest "s1" "It crashed.")
                  {| Db.status := "IN_PROGRESS"; Db.turnCount := 0; Db.startedAt := None;
                     Db.completedAt := None; Db.duration := None;
                     Db.title := "Another project"; Db.description := Some "other";
                     Db.questions := []; Db.respondentName := None; Db.transcripts := [] |}
                  "It crashed." Served.claude eq_refl Htext) Served.pending eq_refl).
Defined.

(* ------------------------------------------------------------------ *)
(** ** The start of a session on the server *)

(** X29: the start route marks the session as in progress before it
    generates the opening.  When the generation fails the answer is 500,
    which the orchestrator turns into its failure message, the mark stays,
    and a second start of the same session is refused with 400. *)
Theorem failed_start_cannot_be_retried :
  forall (w again : StartRoute.World) (id : string) (session : Db.Session),
    StartRoute.find w id = Resolved (Some session) ->
    Db.status session = "PENDING" ->
    StartRoute.writes w (Db.SessionStart (StartRoute.now w)) = true ->
    (exists e, StartRoute.interviewer w = Rejected e) ->
    (forall q, exists e, StartRoute.anthropic w q = Rejected e) ->
    StartRoute.find again id =
      Resolved (Some (Db.applyAll (snd (StartRoute.POST w id)) session)) ->
    StartRoute.POST w id =
      (ChatRoute.failure 500 "インタビューの開始に失敗しました",
       [Db.SessionStart (StartRoute.now w)]) /\
    Wire.readStart (fst (StartRoute.POST w id)) =
      Rejected "インタビューセッションの開始に失敗しました" /\
    StartRoute.POST again id =
      (ChatRoute.failure 400 "このセッションは既に開始されているか、完了しています", []).
Proof.
  intros w again id session Hfind Hstatus Hw [e He] Hdown.
  assert (Hpost : StartRoute.POST w id =
            (ChatRoute.failure 500 "インタビューの開始に失敗しました",
             [Db.SessionStart (StartRoute.now w)])).
  { unfold StartRoute.POST. rewrite Hfind, Hstatus. cbn [String.eqb negb].
    change (String.eqb "PENDING" "PENDING") with true. cbn [negb]. rewrite Hw. cbn [negb].
    unfold StartRoute.generate. rewrite He.
    match goal with |- context [StartRoute.anthropic w ?q] => destruct (Hdown q) as [e' ->] end.
    reflexivity. }
  rewrite Hpost. cbn [snd fst]. intros Hagain. split; [reflexivity|]. split; [reflexivity|].
  unfold StartRoute.POST. rewrite Hagain. reflexivity.
Qed.

Lemma failed_start_cannot_be_retried_witness :
  let w := Served.startDown Served.pending in
  let again := Served.start (Db.applyAll (snd (StartRoute.POST w "s1")) Served.pending) in
  ChatRoute.status (fst (StartRoute.POST w "s1")) = 500 /\
  ChatRoute.status (fst (StartRoute.POST again "s1")) = 400.
Proof.
  intros w again.
  destruct (failed_start_cannot_be_retried w again "s1" Served.pending
              eq_refl eq_refl eq_refl (ex_intro _ "no key" eq_refl)
              (fun q => ex_intro _ "overloaded" eq_refl) eq_refl) as (H1 & _ & H3).
  rewrite H1, H3. split; reflexivity.
Defined.

(** X30: when the start route answers 200, the session was pending,
    is now in progress with its start time, holds the opening as an
    utterance of the interviewer at time 0, and its turn count is unchanged;
    the field [message] of the answer, which [startInterview] reads, is that
    opening. *)
Theorem opening_is_recorded_and_read :
  forall (w : StartRoute.World) (id : string) (session : Db.Session),
    StartRoute.find w id = Resolved (Some session) ->
    let answer := fst (StartRoute.POST w id) in
    let after := Db.applyAll (snd (StartRoute.POST w id)) session in
    ChatRoute.status answer = 200 ->
    exists opening : string,
      Wire.readStart answer = Resolved (Some (Json.JString opening)) /\
      Db.status session = "PENDING" /\
      Db.status after = "IN_PROGRESS" /\
      Db.startedAt after = Some (StartRoute.now w) /\
      Db.transcripts after =
        Db.transcripts session
          ++ [{| Db.speaker := "ai"; Db.t_text := opening;
                 Db.startTime := 0; Db.endTime := 0 |}] /\
      Db.turnCount after = Db.turnCount session.
Proof.
  intros w id session Hfind. cbv zeta. unfold StartRoute.POST. rewrite Hfind.
  destruct (String.eqb_spec (Db.status session) "PENDING") as [Hs|Hs]; cbn [negb];
    [|intros H; discriminate H].
  destruct (negb (StartRoute.writes w _)); [intros H; discriminate H|].
  destruct (StartRoute.generate w session) as [text|e]; [|intros H; discriminate H].
  destruct (negb (StartRoute.writes w _)); [intros H; discriminate H|].
  intros _. exists text. cbn. repeat split; try reflexivity. exact Hs.
Qed.

Lemma opening_is_recorded_and_read_witness :
  exists opening : string,
    Wire.readStart (fst (StartRoute.POST (Served.start Served.pending) "s1")) =
      Resolved (Some (Json.JString opening)) /\
    Db.status Served.pending = "PENDING" /\
    Db.status (Db.applyAll (snd (StartRoute.POST (Served.start Served.pending) "s1"))
                 Served.pending) = "IN_PROGRESS".
Proof.
  assert (Hok : ChatRoute.status (fst (StartRoute.POST (Served.start Served.pending) "s1"))
                = 200) by (vm_compute; reflexivity).
  destruct (opening_is_recorded_and_read (Served.start Served.pending) "s1" Served.pending
              eq_refl Hok) as (opening & H1 & H2 & H3 & _).
  exists opening. split; [exact H1 | split; [exact H2 | exact H3]].
Defined.
